(** * CryptopriceXmoonphase: moon phase, date join, price changes, correlation

    A shallow embedding of the computational core of the dashboard:

    - [src/data_access/moon_calculator.py]  (MoonPhaseCalculator)
    - [src/data_processor.py]               (DataProcessor)
    - [src/correlation_analyzer.py]         (CorrelationAnalyzer)
    - [src/data_access/bitcoin_client.py]   (CryptoPriceData, CryptoDataClient)
    - [src/chart_renderer.py]               (ChartRenderer)

    Modelling conventions.

    - A Python [float] is an exact rational ([Q]): rounding, infinities and
      NaN are not modelled.  A true division by zero raises, as in Python.
      Two places depart from this.  Where the code itself tests for NaN and
      infinity the argument is a [py_float], which has them.  Where the code
      compares a rounded difference with a threshold, the subtraction and
      the threshold are parameters, constrained by what holds of doubles.
    - A naive [datetime] is its number of microseconds since
      0001-01-01T00:00:00 ([Z]); [datetime.date()] is the day number.
    - Exceptions are values of [outcome]; a [try/except] is a match on it.
    - [CombinedDataPoint] objects are mutated in place by the price-change
      pass, so they live in a store and lists hold references to them. *)

From Stdlib Require Import ZArith QArith Qround Qminmax Qabs Lia Lqa String.
From Stdlib Require Import Sorted Permutation.
From stdpp Require Import base option list gmap strings pretty.

Local Open Scope Z_scope.

(** ** Python values *)

Inductive exception : Type :=
  | ValueError (msg : string)
  | TypeError
  | AttributeError
  | ZeroDivisionError
  | StatisticsError.

Inductive outcome (A : Type) : Type :=
  | Returned (a : A)
  | Raised (e : exception).
Arguments Returned {A} a.
Arguments Raised {A} e.

#[global] Instance outcome_ret : MRet outcome := fun _ a => Returned a.
#[global] Instance outcome_bind : MBind outcome := fun _ _ k m =>
  match m with
  | Returned a => k a
  | Raised e => Raised e
  end.

(** [x / y] on floats. *)
Definition truediv (x y : Q) : outcome Q :=
  if Qeq_bool y 0 then Raised ZeroDivisionError else Returned (x / y)%Q.

Definition Qlt_bool (x y : Q) : bool := negb (Qle_bool y x).

(** The builtins [min(a, b)] and [max(a, b)]: the first argument wins ties. *)
Definition py_min (a b : Q) : Q := if Qlt_bool b a then b else a.
Definition py_max (a b : Q) : Q := if Qlt_bool a b then b else a.

(** A float that may be infinite or NaN, for the code that tests for it;
    [math.isnan] and [math.isinf] are matches on it. *)
Inductive py_float : Type :=
  | Finite (x : Q)
  | Infinity (negative : bool)
  | NaN.

(** [len(xs)] *)
Definition len {A : Type} (l : list A) : Z := Z.of_nat (length l).

(** [math.floor] returns an [int]; mixed arithmetic converts it back. *)
Definition math_floor (x : Q) : Z := Qfloor x.

(** ** datetime *)

Definition datetime : Type := Z.
Definition date : Type := Z.
Definition timedelta : Type := Z.

Definition is_leap (year : Z) : bool :=
  (year mod 4 =? 0) && (negb (year mod 100 =? 0) || (year mod 400 =? 0)).

Definition days_before_year (year : Z) : Z :=
  let y := year - 1 in y * 365 + y / 4 - y / 100 + y / 400.

Definition days_in_month (year month : Z) : Z :=
  if month =? 2 then (if is_leap year then 29 else 28)
  else if (month =? 4) || (month =? 6) || (month =? 9) || (month =? 11) then 30
  else 31.

Fixpoint days_before_month_aux (year : Z) (months : nat) : Z :=
  match months with
  | O => 0
  | S k => days_before_month_aux year k + days_in_month year (Z.of_nat (S k))
  end.

Definition days_before_month (year month : Z) : Z :=
  days_before_month_aux year (Z.to_nat (month - 1)).

Definition ymd2ord (year month day : Z) : Z :=
  days_before_year year + days_before_month year month + day.

Definition us_per_second : Z := 1000000.
Definition us_per_day : Z := 86400 * us_per_second.

(** [datetime(year, month, day, hour, minute, second, microsecond)] *)
Definition mk_datetime (year month day hour minute second microsecond : Z)
  : datetime :=
  (ymd2ord year month day * 86400 + hour * 3600 + minute * 60 + second)
    * us_per_second + microsecond.

(** [dt.date()] *)
Definition date_of (dt : datetime) : date := dt / us_per_day.

(** [a - b] on datetimes and [td.total_seconds()] *)
Definition datetime_sub (a b : datetime) : timedelta := a - b.
Definition total_seconds (td : timedelta) : Q :=
  (inject_Z td / inject_Z us_per_second)%Q.

(** [timedelta(days=x)] for a float [x]: rounded to the nearest microsecond,
    ties to even. *)
Definition round_half_even (x : Q) : Z :=
  let f := Qfloor x in
  let r := (x - inject_Z f)%Q in
  match (r ?= 1 # 2)%Q with
  | Lt => f
  | Gt => f + 1
  | Eq => if Z.even f then f else f + 1
  end.
Definition timedelta_days (x : Q) : timedelta :=
  round_half_even (x * inject_Z us_per_day)%Q.
Definition datetime_add (a : datetime) (td : timedelta) : datetime := a + td.

(** ** Data models *)

Module CryptoPriceData.
Record t : Type := mk {
  date : option datetime;
  open_price : Q;
  high_price : Q;
  low_price : Q;
  close_price : Q;
  volume : Q;
  symbol : string
}.
(** [price_change_percentage] (bitcoin_client.py, lines 29-33). *)
Definition price_change_percentage (self : t) (previous_price : Q)
  : outcome Q :=
  if Qeq_bool previous_price 0 then Returned 0%Q
  else q ← truediv (close_price self - previous_price)%Q previous_price;
       Returned (q * 100)%Q.
End CryptoPriceData.

Module MoonPhaseData.
Record t : Type := mk {
  date : option datetime;
  phase_percentage : Q
}.
Definition is_full_moon (self : t) : bool :=
  Qlt_bool 98 (phase_percentage self).
End MoonPhaseData.

(** ** MoonPhaseCalculator *)

Module MoonPhaseCalculator.

Definition NEW_MOON_REFERENCE : datetime := mk_datetime 2000 1 6 18 14 0 0.
Definition LUNAR_CYCLE_DAYS : Q := 29530588853 # 1000000000.

(** Lines 60-62: position in the lunar cycle. *)
Definition cycle_position_of (cycles_elapsed : Q) : Q :=
  (cycles_elapsed - inject_Z (math_floor cycles_elapsed))%Q.

(** Lines 66-74: position to clamped percentage. *)
Definition phase_of_position (cycle_position : Q) : Q :=
  let phase_percentage :=
    if Qle_bool cycle_position (1 # 2)
    then (cycle_position * 200)%Q
    else ((1 - cycle_position) * 200)%Q in
  py_max 0 (py_min 100 phase_percentage).

(** The body of the [try] block (lines 53-81). *)
Definition calculate_moon_phase_try (date : option datetime)
  : outcome MoonPhaseData.t :=
  match date with
  | None => Raised (ValueError "Date cannot be None")
  | Some d =>
      let time_diff := datetime_sub d NEW_MOON_REFERENCE in
      days_since_reference ←
        truediv (total_seconds time_diff) (inject_Z (24 * 3600));
      cycles_elapsed ← truediv days_since_reference LUNAR_CYCLE_DAYS;
      let cycle_position := cycle_position_of cycles_elapsed in
      let phase_percentage := phase_of_position cycle_position in
      Returned (MoonPhaseData.mk (Some d) phase_percentage)
  end.

(** [except Exception] (lines 83-85) turns every exception into [None]. *)
Definition calculate_moon_phase (date : option datetime)
  : outcome (option MoonPhaseData.t) :=
  match calculate_moon_phase_try date with
  | Returned m => Returned (Some m)
  | Raised _ => Returned None
  end.

(** Lines 87-119: the batch version keeps the successful results. *)
Fixpoint calculate_moon_phases_for_dates (dates : list (option datetime))
  : list MoonPhaseData.t :=
  match dates with
  | [] => []
  | d :: rest =>
      match calculate_moon_phase d with
      | Returned (Some phase_data) =>
          phase_data :: calculate_moon_phases_for_dates rest
      | _ => calculate_moon_phases_for_dates rest
      end
  end.

(** Lines 121-137. *)
Definition find_full_moon_dates (moon_phases : list MoonPhaseData.t)
  : list MoonPhaseData.t :=
  List.filter MoonPhaseData.is_full_moon moon_phases.

(** Lines 139-152. *)
Definition normalize_phase_percentage (raw_percentage : option py_float)
  : Q :=
  match raw_percentage with
  | None | Some NaN | Some (Infinity _) => 0%Q
  | Some (Finite x) => py_max 0 (py_min 100 x)
  end.

(** Lines 154-183. *)
Definition validate_moon_phase_data (phase_data : option MoonPhaseData.t)
  : bool :=
  match phase_data with
  | None => false
  | Some pd =>
      match MoonPhaseData.date pd with
      | None => false
      | Some _ =>
          if Qlt_bool (MoonPhaseData.phase_percentage pd) 0
             || Qlt_bool 100 (MoonPhaseData.phase_percentage pd)
          then false
          else true
      end
  end.

End MoonPhaseCalculator.


(** ** The object store

    A [CombinedDataPoint] is a mutable object: [calculate_price_changes]
    assigns its [price_change] attribute in place, and the lists handled by
    [DataProcessor] hold references.  [loc] is an object identity. *)

Definition loc : Type := nat.

Module CombinedDataPoint.
Record t : Type := mk {
  date : datetime;
  crypto_data : option CryptoPriceData.t;
  moon_data : option MoonPhaseData.t;
  price_change : option Q
}.
(** The backward-compatibility property. *)
Definition bitcoin_data (self : t) : option CryptoPriceData.t :=
  crypto_data self.
Definition set_price_change (self : t) (v : option Q) : t :=
  mk (date self) (crypto_data self) (moon_data self) v.
End CombinedDataPoint.

Record heap : Type := mk_heap {
  cells : loc -> CombinedDataPoint.t;
  next_loc : loc
}.

Definition deref (h : heap) (r : loc) : CombinedDataPoint.t := cells h r.

(** [CombinedDataPoint(...)]: a new object, distinct from all earlier ones. *)
Definition alloc (h : heap) (p : CombinedDataPoint.t) : loc * heap :=
  (next_loc h,
   mk_heap (fun r => if decide (r = next_loc h) then p else cells h r)
           (S (next_loc h))).

(** [data_point.price_change = v] *)
Definition store_price_change (h : heap) (r : loc) (v : option Q) : heap :=
  mk_heap (fun r' => if decide (r' = r)
                     then CombinedDataPoint.set_price_change (cells h r) v
                     else cells h r')
          (next_loc h).

(** ** Stable sorting: [sorted(xs, key=...)] and [xs.sort(key=...)]

    Python's sort is stable; on a given input every stable sort returns the
    same list, here computed by insertion. *)

Fixpoint insert_by {A : Type} (key : A -> Z) (x : A) (l : list A) : list A :=
  match l with
  | [] => [x]
  | y :: l' => if key x <=? key y then x :: l else y :: insert_by key x l'
  end.

Fixpoint sorted {A : Type} (key : A -> Z) (l : list A) : list A :=
  match l with
  | [] => []
  | x :: l' => insert_by key x (sorted key l')
  end.

Definition key_le {A : Type} (key : A -> Z) (a b : A) : Prop :=
  key a <= key b.

(** Two lists list the elements of every key in the same order. *)
Definition same_key_order {A : Type} (key : A -> Z) (l1 l2 : list A) : Prop :=
  forall k : Z,
    filter (fun a => key a = k) l1 = filter (fun a => key a = k) l2.

(** ** CryptoDataClient: validation and normalisation of price bars *)

Module CryptoDataClient.

(** [price_ranges] of lines 249-253. *)
Definition price_ranges : gmap string (Q * Q) :=
  <["Solana" := ((1 # 100)%Q, 10000%Q)]>
    (<["Ethereum" := ((1 # 10)%Q, 100000%Q)]>
       (<["Bitcoin" := (1%Q, 1000000%Q)]> ∅)).

(** [price_ranges.get(crypto_name, (0.001, 1_000_000))] *)
Definition price_range (crypto_name : string) : Q * Q :=
  default ((1 # 1000)%Q, 1000000%Q) (price_ranges !! crypto_name).

(** Lines 216-262.  A bar always has a symbol. *)
Definition _validate_price_data (data : CryptoPriceData.t)
    (crypto_name : string) : bool :=
  match CryptoPriceData.date data with
  | None => false
  | Some _ =>
      let prices := [CryptoPriceData.open_price data;
                     CryptoPriceData.high_price data;
                     CryptoPriceData.low_price data;
                     CryptoPriceData.close_price data] in
      if existsb (fun price => Qle_bool price 0) prices then false
      else if Qlt_bool (CryptoPriceData.volume data) 0 then false
      else if Qlt_bool (CryptoPriceData.high_price data)
                       (CryptoPriceData.low_price data) then false
      else if negb (Qle_bool (CryptoPriceData.low_price data)
                             (CryptoPriceData.open_price data)
                    && Qle_bool (CryptoPriceData.open_price data)
                                (CryptoPriceData.high_price data)) then false
      else if negb (Qle_bool (CryptoPriceData.low_price data)
                             (CryptoPriceData.close_price data)
                    && Qle_bool (CryptoPriceData.close_price data)
                                (CryptoPriceData.high_price data)) then false
      else
        let '(min_price, max_price) := price_range crypto_name in
        if existsb (fun price => Qlt_bool price min_price
                                 || Qlt_bool max_price price) prices
        then false
        else true
  end.

(** Lines 277-282: the loop that keeps the first bar of every day.
    [data.date.date()] on a bar without a date is an [AttributeError]. *)
Fixpoint dedupe_loop (data_list : list CryptoPriceData.t)
    (seen_dates : gset Z) (normalized_data : list CryptoPriceData.t)
  : outcome (list CryptoPriceData.t) :=
  match data_list with
  | [] => Returned normalized_data
  | data :: rest =>
      match CryptoPriceData.date data with
      | None => Raised AttributeError
      | Some d =>
          let date_key := date_of d in
          if decide (date_key ∈ seen_dates)
          then dedupe_loop rest seen_dates normalized_data
          else dedupe_loop rest ({[date_key]} ∪ seen_dates)
                           (normalized_data ++ [data])
      end
  end.

(** The sort key [x.date] of a bar that has a date. *)
Definition bar_date (x : CryptoPriceData.t) : datetime :=
  default 0 (CryptoPriceData.date x).

(** Lines 264-289. *)
Definition normalize_data (data_list : list CryptoPriceData.t)
  : outcome (list CryptoPriceData.t) :=
  match data_list with
  | [] => Returned []
  | _ =>
      normalized_data ← dedupe_loop data_list ∅ [];
      Returned (sorted bar_date normalized_data)
  end.

End CryptoDataClient.

(** ** DataProcessor *)

Module DataProcessor.

Record t : Type := mk {
  _combined_data : list loc;
  _data_cache : gmap Z loc
}.

(** [__init__] *)
Definition init : t := mk [] ∅.

Definition date_key (h : heap) (r : loc) : datetime :=
  CombinedDataPoint.date (deref h r).

(** Lines 247-258.  The guard [data_point and data_point.date] always holds
    for an object with a date. *)
Definition _update_cache (h : heap) (combined_data : list loc) : gmap Z loc :=
  fold_left (fun cache data_point =>
               <[date_of (date_key h data_point) := data_point]> cache)
            combined_data ∅.

(** Lines 67-69: one step of the loop that fills the lookup dictionary. *)
Definition add_moon_point (moon_lookup : gmap Z MoonPhaseData.t)
    (moon_point : option MoonPhaseData.t) : gmap Z MoonPhaseData.t :=
  match moon_point with
  | Some mp =>
      match MoonPhaseData.date mp with
      | Some d => <[date_of d := mp]> moon_lookup
      | None => moon_lookup
      end
  | None => moon_lookup
  end.

(** Lines 65-69: the lookup dictionary, last write wins. *)
Definition build_moon_lookup (moon_data : list (option MoonPhaseData.t))
  : gmap Z MoonPhaseData.t :=
  fold_left add_moon_point moon_data ∅.

(** Lines 75-94: one new combined point per matched price bar. *)
Fixpoint combine_loop (moon_lookup : gmap Z MoonPhaseData.t)
    (crypto_data : list (option CryptoPriceData.t))
    (h : heap) (combined_points : list loc) : heap * list loc :=
  match crypto_data with
  | [] => (h, combined_points)
  | crypto_point :: rest =>
      match crypto_point with
      | Some cp =>
          match CryptoPriceData.date cp with
          | Some d =>
              match moon_lookup !! date_of d with
              | Some moon_point =>
                  let '(combined_point, h') :=
                    alloc h (CombinedDataPoint.mk d (Some cp)
                                                  (Some moon_point) None) in
                  combine_loop moon_lookup rest h'
                               (combined_points ++ [combined_point])
              | None => combine_loop moon_lookup rest h combined_points
              end
          | None => combine_loop moon_lookup rest h combined_points
          end
      | None => combine_loop moon_lookup rest h combined_points
      end
  end.

(** Lines 41-106. *)
Definition combine_data (h : heap) (self : t)
    (crypto_data : list (option CryptoPriceData.t))
    (moon_data : list (option MoonPhaseData.t)) : heap * t * list loc :=
  match crypto_data, moon_data with
  | [], _ => (h, self, [])
  | _, [] => (h, self, [])
  | _, _ =>
      let moon_lookup := build_moon_lookup moon_data in
      let '(h', combined_points) := combine_loop moon_lookup crypto_data h [] in
      let combined_points := sorted (date_key h') combined_points in
      (h', mk combined_points (_update_cache h' combined_points),
       combined_points)
  end.

(** Lines 139-145: the value assigned to [price_change]. *)
Definition change_from (previous_price : option Q) (current_price : Q)
  : outcome (option Q) :=
  match previous_price with
  | Some p =>
      if negb (Qeq_bool p 0)
      then q ← truediv (current_price - p)%Q p; Returned (Some (q * 100)%Q)
      else Returned None
  | None => Returned None
  end.

(** Lines 129-148: the loop over [sorted_data]. *)
Fixpoint price_change_loop (sorted_data : list loc) (h : heap)
    (processed_data : list loc) (previous_price : option Q)
  : heap * outcome (list loc) :=
  match sorted_data with
  | [] => (h, Returned processed_data)
  | data_point :: rest =>
      match CombinedDataPoint.crypto_data (deref h data_point) with
      | None => price_change_loop rest h processed_data previous_price
      | Some c =>
          let current_price := CryptoPriceData.close_price c in
          match change_from previous_price current_price with
          | Raised e => (h, Raised e)
          | Returned v =>
              price_change_loop rest (store_price_change h data_point v)
                                (processed_data ++ [data_point])
                                (Some current_price)
          end
      end
  end.

(** Line 119: the argument, or the stored list when it is [None]. *)
Definition data_to_process (self : t) (combined_data : option (list loc))
  : list loc :=
  match combined_data with
  | Some l => l
  | None => _combined_data self
  end.

(** Lines 108-156. *)
Definition calculate_price_changes (h : heap) (self : t)
    (combined_data : option (list loc)) : heap * t * outcome (list loc) :=
  match data_to_process self combined_data with
  | [] => (h, self, Returned [])
  | _ =>
      let sorted_data :=
        sorted (date_key h) (data_to_process self combined_data) in
      match price_change_loop sorted_data h [] None with
      | (h', Returned processed_data) =>
          (h', mk processed_data (_update_cache h' processed_data),
           Returned processed_data)
      | (h', Raised e) => (h', self, Raised e)
      end
  end.

(** Lines 158-184. *)
Definition get_data_by_date_range (h : heap) (self : t)
    (start_date end_date : datetime) : outcome (list loc) :=
  match _combined_data self with
  | [] => Returned []
  | _ =>
      if end_date <? start_date
      then Raised (ValueError "Start date must be before or equal to end date")
      else Returned (filter (fun data_point =>
                               start_date <= date_key h data_point
                               /\ date_key h data_point <= end_date)
                            (_combined_data self))
  end.

(** Lines 186-196. *)
Definition get_data_by_date (self : t) (target_date : date) : option loc :=
  _data_cache self !! target_date.

(** Lines 198-212: an empty list is not stored. *)
Definition store_data (h : heap) (self : t) (combined_data : list loc) : t :=
  match combined_data with
  | [] => self
  | _ => mk combined_data (_update_cache h combined_data)
  end.

(** Lines 214-221. *)
Definition retrieve_all_data (self : t) : list loc := _combined_data self.

(** Lines 223-227. *)
Definition clear_data (self : t) : t := mk [] ∅.

(** [sum(1 for point in ... if point.moon_data.is_full_moon)]: a point
    without moon data is an [AttributeError]. *)
Fixpoint count_full_moon (h : heap) (points : list loc) : outcome Z :=
  match points with
  | [] => Returned 0
  | point :: rest =>
      match CombinedDataPoint.moon_data (deref h point) with
      | None => Raised AttributeError
      | Some m =>
          n ← count_full_moon h rest;
          Returned (if MoonPhaseData.is_full_moon m then 1 + n else n)
      end
  end.

(** Lines 229-245. *)
Definition get_data_summary (h : heap) (self : t) : outcome (gmap string Z) :=
  let total_points := len (_combined_data self) in
  let points_with_price_change :=
    len (filter (fun point =>
                   is_Some (CombinedDataPoint.price_change (deref h point)))
                (_combined_data self)) in
  full_moon_points ← count_full_moon h (_combined_data self);
  Returned (<["normal_day_points" := total_points - full_moon_points]>
              (<["full_moon_points" := full_moon_points]>
                 (<["points_with_price_change" := points_with_price_change]>
                    (<["total_points" := total_points]> ∅)))).

(** Lines 275-296: the messages for the point at index [i].  A stored object
    always has a date, so "has no date" is never reported for it. *)
Definition point_errors (h : heap) (i : nat) (data_point : option loc)
  : list string :=
  match data_point with
  | None => ["Data point " +:+ pretty i +:+ " is None"]
  | Some r =>
      let p := deref h r in
      let day := date_of (CombinedDataPoint.date p) in
      (match CombinedDataPoint.crypto_data p with
       | None => ["Data point " +:+ pretty i
                  +:+ " has no cryptocurrency data"]
       | Some _ => []
       end)
      ++ (match CombinedDataPoint.moon_data p with
          | None => ["Data point " +:+ pretty i +:+ " has no moon data"]
          | Some _ => []
          end)
      ++ (match CombinedDataPoint.crypto_data p
                ≫= CryptoPriceData.date with
          | Some d =>
              if decide (day = date_of d) then []
              else ["Data point " +:+ pretty i
                    +:+ " has mismatched cryptocurrency date"]
          | None => []
          end)
      ++ (match CombinedDataPoint.moon_data p ≫= MoonPhaseData.date with
          | Some d =>
              if decide (day = date_of d) then []
              else ["Data point " +:+ pretty i
                    +:+ " has mismatched moon data date"]
          | None => []
          end)
  end.

Fixpoint validate_loop (h : heap) (i : nat) (combined_data : list (option loc))
    (errors : list string) : list string :=
  match combined_data with
  | [] => errors
  | data_point :: rest =>
      validate_loop h (S i) rest (errors ++ point_errors h i data_point)
  end.

(** Lines 260-299. *)
Definition validate_combined_data (h : heap)
    (combined_data : list (option loc)) : bool * list string :=
  match combined_data with
  | [] => (false, ["No data provided for validation"])
  | _ =>
      let errors := validate_loop h 0 combined_data [] in
      (bool_decide (len errors = 0), errors)
  end.

End DataProcessor.

(** ** CorrelationAnalyzer *)

Module AnalysisResults.
Record t : Type := mk {
  full_moon_avg_change : Q;
  normal_day_avg_change : Q;
  full_moon_count : Z;
  normal_day_count : Z;
  total_data_points : Z
}.
Definition has_sufficient_data (self : t) : bool :=
  (1 <=? full_moon_count self) && (1 <=? normal_day_count self).
(** Lines 38-41.  [float_sub] is the subtraction of doubles, which rounds. *)
Definition difference (float_sub : Q -> Q -> Q) (self : t) : Q :=
  float_sub (full_moon_avg_change self) (normal_day_avg_change self).
(** Lines 31-36. *)
Definition full_moon_percentage (self : t) : outcome Q :=
  if total_data_points self =? 0 then Returned 0%Q
  else q ← truediv (inject_Z (full_moon_count self))
                   (inject_Z (total_data_points self));
       Returned (q * 100)%Q.
End AnalysisResults.

(** A value of a [Dict[str, Any]]. *)
Inductive py_value : Type :=
  | PyInt (n : Z)
  | PyFloat (x : Q)
  | PyBool (b : bool)
  | PyStr (s : string).

(** [statistics.mean]: the exact sum of the data divided by their number.
    A [None] among the data is a [TypeError], no data a [StatisticsError]. *)
Fixpoint exact_sum (values : list (option Q)) : option Q :=
  match values with
  | [] => Some 0%Q
  | v :: rest =>
      match v, exact_sum rest with
      | Some q, Some s => Some (q + s)%Q
      | _, _ => None
      end
  end.

Definition mean (values : list (option Q)) : outcome Q :=
  match values with
  | [] => Raised StatisticsError
  | _ =>
      match exact_sum values with
      | Some total => Returned (total / inject_Z (len values))%Q
      | None => Raised TypeError
      end
  end.

Module CorrelationAnalyzer.

(** Lines 119-136. *)
Definition _calculate_average (values : list (option Q)) : Q :=
  match values with
  | [] => 0%Q
  | _ =>
      match mean values with
      | Returned m => m
      | Raised _ => 0%Q
      end
  end.

(** Lines 75-80: the filter that keeps the points with a price change. *)
Definition is_valid (h : heap) (point : loc) : Prop :=
  let p := deref h point in
  is_Some (CombinedDataPoint.price_change p)
  /\ is_Some (CombinedDataPoint.bitcoin_data p)
  /\ is_Some (CombinedDataPoint.moon_data p).

#[global] Instance is_valid_dec (h : heap) (point : loc)
  : Decision (is_valid h point).
Proof. unfold is_valid. apply _. Defined.

(** Lines 93-100: the two buckets. *)
Fixpoint split_changes (h : heap) (valid_data : list loc)
    (full_moon_changes normal_day_changes : list (option Q))
  : outcome (list (option Q) * list (option Q)) :=
  match valid_data with
  | [] => Returned (full_moon_changes, normal_day_changes)
  | point :: rest =>
      let p := deref h point in
      match CombinedDataPoint.moon_data p with
      | None => Raised AttributeError
      | Some m =>
          if MoonPhaseData.is_full_moon m
          then split_changes h rest
                 (full_moon_changes ++ [CombinedDataPoint.price_change p])
                 normal_day_changes
          else split_changes h rest full_moon_changes
                 (normal_day_changes ++ [CombinedDataPoint.price_change p])
      end
  end.

(** Lines 51-117. *)
Definition analyze_correlation (h : heap) (combined_data : list loc)
  : outcome AnalysisResults.t :=
  match combined_data with
  | [] => Returned (AnalysisResults.mk 0 0 0 0 0)
  | _ =>
      let valid_data := filter (is_valid h) combined_data in
      match valid_data with
      | [] => Returned (AnalysisResults.mk 0 0 0 0 (len combined_data))
      | _ =>
          '(full_moon_changes, normal_day_changes) ←
            split_changes h valid_data [] [];
          let full_moon_avg := _calculate_average full_moon_changes in
          let normal_day_avg := _calculate_average normal_day_changes in
          Returned (AnalysisResults.mk full_moon_avg normal_day_avg
                      (len full_moon_changes) (len normal_day_changes)
                      (len valid_data))
      end
  end.

(** The analyzer object: [__init__] sets [min_data_points] to 1. *)
Record t : Type := mk { min_data_points : Z }.
Definition init : t := mk 1.

(** The arithmetic of doubles that the interpretation depends on: the
    subtraction, which rounds, and the double that the literal [0.1]
    denotes. *)
Section Doubles.

Variable float_sub : Q -> Q -> Q.
Variable tenth : Q.

(** Lines 159-168. *)
Definition interpretation (results : AnalysisResults.t) : string :=
  if AnalysisResults.has_sufficient_data results then
    if Qlt_bool (Qabs (AnalysisResults.difference float_sub results)) tenth
    then "No significant difference detected"
    else if Qlt_bool (AnalysisResults.normal_day_avg_change results)
                     (AnalysisResults.full_moon_avg_change results)
    then "Full moon days show higher average price changes"
    else "Normal days show higher average price changes"
  else "Insufficient data for meaningful analysis".

(** Lines 138-170. *)
Definition generate_summary_statistics (results : AnalysisResults.t)
  : outcome (gmap string py_value) :=
  full_moon_percentage ← AnalysisResults.full_moon_percentage results;
  let summary : gmap string py_value :=
    <["has_sufficient_data" :=
        PyBool (AnalysisResults.has_sufficient_data results)]>
    (<["difference" :=
        PyFloat (AnalysisResults.difference float_sub results)]>
    (<["normal_day_avg_change" :=
        PyFloat (AnalysisResults.normal_day_avg_change results)]>
    (<["full_moon_avg_change" :=
        PyFloat (AnalysisResults.full_moon_avg_change results)]>
    (<["full_moon_percentage" := PyFloat full_moon_percentage]>
    (<["normal_day_count" :=
        PyInt (AnalysisResults.normal_day_count results)]>
    (<["full_moon_count" :=
        PyInt (AnalysisResults.full_moon_count results)]>
    (<["total_data_points" :=
        PyInt (AnalysisResults.total_data_points results)]> ∅))))))) in
  Returned (<["interpretation" := PyStr (interpretation results)]> summary).

End Doubles.

(** Lines 172-216: later messages overwrite earlier ones of the same key. *)
Definition handle_insufficient_data (self : t) (results : AnalysisResults.t)
  : gmap string string :=
  let messages : gmap string string := ∅ in
  if AnalysisResults.total_data_points results =? 0 then
    <["suggestion" := "Please fetch Bitcoin price data first"]>
      (<["error" := "No data available for analysis"]> messages)
  else
    let messages :=
      if AnalysisResults.full_moon_count results =? 0 then
        <["suggestion" :=
            "Dataset contains "
            +:+ pretty (AnalysisResults.total_data_points results)
            +:+ " data points but no full moon days. "
            +:+ "Consider expanding the date range to include full moon "
            +:+ "periods."]>
          (<["warning" := "No full moon periods found in dataset"]> messages)
      else messages in
    let messages :=
      if AnalysisResults.normal_day_count results =? 0 then
        <["suggestion" :=
            "Dataset contains only full moon days. This is unusual and may "
            +:+ "indicate a data filtering issue."]>
          (<["warning" := "No normal days found in dataset"]> messages)
      else messages in
    let messages :=
      if AnalysisResults.full_moon_count results <? min_data_points self then
        <["suggestion" :=
            "Results may be less reliable with limited full moon data. "
            +:+ "Consider expanding the dataset for more robust analysis."]>
          (<["info" :=
              "Limited full moon data ("
              +:+ pretty (AnalysisResults.full_moon_count results)
              +:+ " days)"]> messages)
      else messages in
    let messages :=
      if AnalysisResults.normal_day_count results <? 10 then
        <["suggestion" :=
            "More normal day data would improve analysis reliability."]>
          (<["info" :=
              "Limited normal day data ("
              +:+ pretty (AnalysisResults.normal_day_count results)
              +:+ " days)"]> messages)
      else messages in
    messages.

(** Lines 234-255: one point of the loop; the result is the message to
    append, if any, and whether the point counts as valid.  A price change
    is always a number. *)
Definition check_point (h : heap) (i : nat) (point : option loc)
  : option string * bool :=
  match point with
  | None => (Some ("Data point " +:+ pretty i +:+ " is None"), false)
  | Some r =>
      let p := deref h r in
      match CombinedDataPoint.bitcoin_data p with
      | None =>
          (Some ("Data point " +:+ pretty i +:+ " missing Bitcoin data"),
           false)
      | Some _ =>
          match CombinedDataPoint.moon_data p with
          | None =>
              (Some ("Data point " +:+ pretty i +:+ " missing moon data"),
               false)
          | Some _ =>
              match CombinedDataPoint.price_change p with
              | None => (None, false)
              | Some _ => (None, true)
              end
          end
      end
  end.

Fixpoint check_loop (h : heap) (i : nat) (combined_data : list (option loc))
    (errors : list string) (valid_points : Z) : list string * Z :=
  match combined_data with
  | [] => (errors, valid_points)
  | point :: rest =>
      let '(message, valid) := check_point h i point in
      check_loop h (S i) rest
                 (match message with
                  | Some e => errors ++ [e]
                  | None => errors
                  end)
                 (if valid then valid_points + 1 else valid_points)
  end.

(** Lines 218-261. *)
Definition validate_analysis_input (h : heap)
    (combined_data : list (option loc)) : bool * list string :=
  match combined_data with
  | [] => (false, ["No data provided for analysis"])
  | _ =>
      let '(errors, valid_points) := check_loop h 0 combined_data [] 0 in
      let errors :=
        if valid_points =? 0
        then errors ++ ["No valid data points found for analysis"]
        else errors in
      (bool_decide (len errors = 0) && (0 <? valid_points), errors)
  end.

End CorrelationAnalyzer.

(** ** ChartRenderer *)

Module ChartRenderer.

(** chart_renderer.py, lines 188-212.  A stored object always has a date,
    and the close of a price record is always a number. *)
Definition _validate_data_point (h : heap) (point : option loc) : bool :=
  match point with
  | None => false
  | Some r =>
      match CombinedDataPoint.crypto_data (deref h r) with
      | None => false
      | Some c =>
          let price := CryptoPriceData.close_price c in
          if Qle_bool price 0 then false else true
      end
  end.

End ChartRenderer.

(** ** Reference definitions, following the specification's wording

    These are compared below with the definitions taken from the code. *)

Module MoonSpec.

Definition synodic_month : Q := 29530588853 # 1000000000.

(** [days_since_reference = (date - reference) / 1 day] *)
Definition days_since_reference (d : datetime) : Q :=
  (inject_Z (d - MoonPhaseCalculator.NEW_MOON_REFERENCE)
   / inject_Z us_per_day)%Q.

(** [frac], by floor subtraction. *)
Definition frac (x : Q) : Q := (x - inject_Z (Qfloor x))%Q.

Definition cycle_position (d : datetime) : Q :=
  frac (days_since_reference d / synodic_month).

(** The triangular model of the illumination. *)
Definition triangular (cycle_position : Q) : Q :=
  if Qle_bool cycle_position (1 # 2)
  then (cycle_position * 200)%Q
  else ((1 - cycle_position) * 200)%Q.

Definition clamp (lo hi x : Q) : Q := Qmax lo (Qmin hi x).

Definition illumination_percentage (d : datetime) : Q :=
  clamp 0 100 (triangular (cycle_position d)).

End MoonSpec.

Module ChangeSpec.

(** [price_change] of a point from the close before it. *)
Definition change (previous_close : option Q) (close : Q) : option Q :=
  match previous_close with
  | Some p =>
      if Qeq_bool p 0 then None else Some ((close - p) / p * 100)%Q
  | None => None
  end.

(** One forward pass; [previous_close] becomes the current close after
    every point. *)
Fixpoint annotate (previous_close : option Q) (closes : list Q)
  : list (option Q) :=
  match closes with
  | [] => []
  | close :: rest => change previous_close close :: annotate (Some close) rest
  end.

End ChangeSpec.

(** ** Observations used in the statements *)

(** What [calculate_moon_phase] computes on a date, step by step. *)
Definition cycles_elapsed_at (d : datetime) : Q :=
  (total_seconds (datetime_sub d MoonPhaseCalculator.NEW_MOON_REFERENCE)
   / inject_Z (24 * 3600) / MoonPhaseCalculator.LUNAR_CYCLE_DAYS)%Q.

Definition phase_at (d : datetime) : Q :=
  MoonPhaseCalculator.phase_of_position
    (MoonPhaseCalculator.cycle_position_of (cycles_elapsed_at d)).

(** [timedelta(days=LUNAR_CYCLE_DAYS)] *)
Definition synodic_shift : timedelta :=
  timedelta_days MoonPhaseCalculator.LUNAR_CYCLE_DAYS.

(** The point carries a price record. *)
Definition has_crypto (h : heap) (r : loc) : Prop :=
  is_Some (CombinedDataPoint.crypto_data (deref h r)).

#[global] Instance has_crypto_dec (h : heap) (r : loc)
  : Decision (has_crypto h r).
Proof. unfold has_crypto. apply _. Defined.

(** The closing prices of the points that carry a price record. *)
Definition closes (h : heap) (l : list loc) : list Q :=
  omap (fun r => CryptoPriceData.close_price
                   <$> CombinedDataPoint.crypto_data (deref h r)) l.

Definition price_changes (h : heap) (l : list loc) : list (option Q) :=
  map (fun r => CombinedDataPoint.price_change (deref h r)) l.

(** Ascending by the [date] attribute. *)
Definition date_sorted (h : heap) (l : list loc) : Prop :=
  StronglySorted (key_le (DataProcessor.date_key h)) l.

(** All attributes but [price_change] agree. *)
Definition same_identity (p q : CombinedDataPoint.t) : Prop :=
  CombinedDataPoint.date p = CombinedDataPoint.date q
  /\ CombinedDataPoint.crypto_data p = CombinedDataPoint.crypto_data q
  /\ CombinedDataPoint.moon_data p = CombinedDataPoint.moon_data q.

(** A price bar that [combine_data] keeps: it has a date whose calendar day
    is a key of the lookup. *)
Definition matched (moon_lookup : gmap Z MoonPhaseData.t)
    (crypto_point : option CryptoPriceData.t) : option CombinedDataPoint.t :=
  cp ← crypto_point;
  d ← CryptoPriceData.date cp;
  moon_point ← moon_lookup !! date_of d;
  Some (CombinedDataPoint.mk d (Some cp) (Some moon_point) None).

(** The calendar days of the dated records of each input. *)
Definition crypto_days (crypto_data : list (option CryptoPriceData.t))
  : list date :=
  omap (fun x => cp ← x; d ← CryptoPriceData.date cp; Some (date_of d))
       crypto_data.

Definition moon_days (moon_data : list (option MoonPhaseData.t)) : list date :=
  omap (fun x => mp ← x; d ← MoonPhaseData.date mp; Some (date_of d))
       moon_data.

(** A price bar with timestamp [t] that [combine_data] keeps. *)
Definition kept_at (moon_data : list (option MoonPhaseData.t)) (t : datetime)
    (crypto_point : option CryptoPriceData.t) : bool :=
  match crypto_point with
  | Some cp =>
      bool_decide (CryptoPriceData.date cp = Some t)
      && bool_decide (date_of t ∈ moon_days moon_data)
  | None => false
  end.


(** What makes a list of points the date join of the two inputs: bounded
    length, days found in both inputs, ascending dates, and for every
    timestamp the kept bars of that timestamp in arrival order. *)
Definition inner_join (h : heap)
    (crypto_data : list (option CryptoPriceData.t))
    (moon_data : list (option MoonPhaseData.t)) (out : list loc) : Prop :=
  (length out <= length crypto_data)%nat
  /\ (NoDup (crypto_days crypto_data) ->
      (length out <= length moon_data)%nat)
  /\ (forall r, r ∈ out ->
        date_of (DataProcessor.date_key h r) ∈ crypto_days crypto_data
        /\ date_of (DataProcessor.date_key h r) ∈ moon_days moon_data)
  /\ date_sorted h out
  /\ (forall t : datetime,
        (fun r => CombinedDataPoint.crypto_data (deref h r))
          <$> filter (fun r => DataProcessor.date_key h r = t) out
        = filter (fun x => kept_at moon_data t x) crypto_data).

(** The point falls on a full-moon day. *)
Definition on_full_moon (h : heap) (r : loc) : Prop :=
  exists m, CombinedDataPoint.moon_data (deref h r) = Some m
            /\ MoonPhaseData.is_full_moon m = true.

#[global] Instance on_full_moon_dec (h : heap) (r : loc)
  : Decision (on_full_moon h r).
Proof.
  unfold on_full_moon.
  destruct (CombinedDataPoint.moon_data (deref h r)) as [m |].
  - destruct (MoonPhaseData.is_full_moon m) eqn:E.
    + left. eauto.
    + right. intros (m' & [= <-] & Hm). congruence.
  - right. intros (m' & Hm & _). discriminate.
Defined.

(** What [analyze_correlation] returns, branch by branch. *)
Definition analysis_of (h : heap) (combined_data : list loc)
  : AnalysisResults.t :=
  let valid_data := filter (CorrelationAnalyzer.is_valid h) combined_data in
  let full_moon_changes :=
    price_changes h (filter (on_full_moon h) valid_data) in
  let normal_day_changes :=
    price_changes h (filter (fun r => ~ on_full_moon h r) valid_data) in
  match combined_data, valid_data with
  | [], _ => AnalysisResults.mk 0 0 0 0 0
  | _, [] => AnalysisResults.mk 0 0 0 0 (len combined_data)
  | _, _ =>
      AnalysisResults.mk
        (CorrelationAnalyzer._calculate_average full_moon_changes)
        (CorrelationAnalyzer._calculate_average normal_day_changes)
        (len full_moon_changes) (len normal_day_changes) (len valid_data)
  end.

(** The calendar day of a bar. *)
Definition bar_day (x : CryptoPriceData.t) : date :=
  date_of (CryptoDataClient.bar_date x).

(** The calendar day of a stored point. *)
Definition point_day (h : heap) (r : loc) : date :=
  date_of (DataProcessor.date_key h r).

(** The point carries a price record and a moon record. *)
Definition has_price_and_moon (h : heap) (r : loc) : Prop :=
  is_Some (CombinedDataPoint.bitcoin_data (deref h r))
  /\ is_Some (CombinedDataPoint.moon_data (deref h r)).

(** ** Sample data *)

Definition january (day : Z) : datetime := mk_datetime 2024 1 day 0 0 0 0.

Definition bar (d : datetime) (close : Q) : CryptoPriceData.t :=
  CryptoPriceData.mk (Some d) close close close close 1 "BTCUSDT".

Definition moon (d : datetime) (phase : Q) : MoonPhaseData.t :=
  MoonPhaseData.mk (Some d) phase.

Definition point (d : datetime) (close phase : Q) (change : option Q)
  : CombinedDataPoint.t :=
  CombinedDataPoint.mk d (Some (bar d close)) (Some (moon d phase)) change.

(** A store holding the objects of a list, in order. *)
Definition heap_of (objects : list CombinedDataPoint.t) : heap :=
  mk_heap (fun r => nth r objects (CombinedDataPoint.mk 0 None None None))
          (length objects).

Definition no_objects : heap := heap_of [].

(** Three days, closes 100 / 105 / 95, the second day a full moon. *)
Definition three_days : heap :=
  heap_of [point (january 1) 100 10 None;
           point (january 2) 105 99 None;
           point (january 3) 95 20 None].

Definition three_days_annotated : heap :=
  heap_of [point (january 1) 100 10 None;
           point (january 2) 105 99 (Some 5%Q);
           point (january 3) 95 20 (Some (-1000 # 105)%Q)].

Definition two_bars_one_day : list (option CryptoPriceData.t) :=
  [Some (bar (january 1) 100); Some (bar (january 1) 101)].

Definition one_moon : list (option MoonPhaseData.t) :=
  [Some (moon (january 1) 75)].

(** A bar of Bitcoin: open 100, high 110, low 90, close 105, volume 12. *)
Definition btc_bar : CryptoPriceData.t :=
  CryptoPriceData.mk (Some (january 1)) 100 110 90 105 12 "BTCUSDT".

(** Three bars out of order, two of them on 2 January. *)
Definition unsorted_bars : list CryptoPriceData.t :=
  [bar (january 2) 105; bar (january 1) 100; bar (january 2) 107].

(** One bar a day, in date order. *)
Definition daily_bars : list CryptoPriceData.t :=
  [bar (january 1) 100; bar (january 2) 105].

(** A processor that holds the three days. *)
Definition three_days_stored : DataProcessor.t :=
  DataProcessor.store_data three_days DataProcessor.init [0; 1; 2]%nat.

(** One point without a price record, which already has a change of 5. *)
Definition unpriced_with_change : heap :=
  heap_of [CombinedDataPoint.mk (january 1) None
             (Some (moon (january 1) 10)) (Some 5%Q)].

(** A result with averages 5 and -10, one day of each kind. *)
Definition five_against_minus_ten : AnalysisResults.t :=
  AnalysisResults.mk 5 (-10) 1 1 2.

(** A permutation between an empty and a non-empty list. *)
Ltac perm_nil_absurd Hp :=
  exfalso;
  solve [ apply Permutation_nil_l in Hp; discriminate
        | apply Permutation_nil_r in Hp; discriminate ].

(** The locations of a literal list are pairwise distinct. *)
Ltac distinct_locs :=
  repeat (apply NoDup_cons_2;
          [rewrite ?elem_of_cons, elem_of_nil; intuition discriminate |]);
  apply NoDup_nil_2.

(** The tests of [handle_insufficient_data], one case per outcome. *)
Ltac message_cases results self :=
  unfold CorrelationAnalyzer.handle_insufficient_data;
  destruct (Z.eqb_spec (AnalysisResults.total_data_points results) 0);
  [| destruct (Z.eqb_spec (AnalysisResults.full_moon_count results) 0);
     destruct (Z.eqb_spec (AnalysisResults.normal_day_count results) 0);
     destruct (Z.ltb_spec (AnalysisResults.full_moon_count results)
                          (CorrelationAnalyzer.min_data_points self));
     destruct (Z.ltb_spec (AnalysisResults.normal_day_count results) 10)].

(** Every element of a literal list satisfies a property. *)
Ltac all_of tac :=
  repeat (apply Forall_cons_2; [tac |]); apply Forall_nil_2.

(** * Properties *)

(** ** Comparisons and clamping *)

Lemma Qlt_bool_iff (x y : Q) : Qlt_bool x y = true <-> (x < y)%Q.
Proof.
  unfold Qlt_bool. rewrite negb_true_iff.
  destruct (Qle_bool y x) eqn:E.
  - apply Qle_bool_iff in E. split; [discriminate | intros; lra].
  - split; [intros _ | reflexivity].
    apply Qnot_le_lt. intros H. apply Qle_bool_iff in H. congruence.
Qed.

Lemma Qle_bool_false (x y : Q) : Qle_bool x y = false <-> (y < x)%Q.
Proof.
  destruct (Qle_bool x y) eqn:E.
  - apply Qle_bool_iff in E. split; [discriminate | intros; lra].
  - split; [intros _ | reflexivity].
    apply Qnot_le_lt. intros H. apply Qle_bool_iff in H. congruence.
Qed.

(** The clamp of lines 73-74 leaves a value of the range alone. *)
Lemma py_clamp_id (x : Q) :
  (0 <= x <= 100)%Q -> (py_max 0 (py_min 100 x) == x)%Q.
Proof.
  intros [H0 H1]. unfold py_max, py_min.
  destruct (Qlt_bool x 100) eqn:E1.
  - destruct (Qlt_bool 0 x) eqn:E2; [reflexivity |].
    destruct (Qlt_le_dec 0 x) as [Hlt | Hle]; [| lra].
    apply Qlt_bool_iff in Hlt. congruence.
  - destruct (Qlt_le_dec x 100) as [Hlt | Hle].
    + apply Qlt_bool_iff in Hlt. congruence.
    + destruct (Qlt_bool 0 100) eqn:E2; [lra | discriminate].
Qed.

Lemma py_clamp_range (x : Q) : (0 <= py_max 0 (py_min 100 x) <= 100)%Q.
Proof.
  unfold py_max, py_min.
  destruct (Qlt_bool x 100) eqn:E1.
  - apply Qlt_bool_iff in E1.
    destruct (Qlt_bool 0 x) eqn:E2; [apply Qlt_bool_iff in E2; lra | lra].
  - destruct (Qlt_bool 0 100) eqn:E2; [lra | discriminate].
Qed.

Lemma clamp_id (x : Q) : (0 <= x <= 100)%Q -> (MoonSpec.clamp 0 100 x == x)%Q.
Proof.
  intros [H0 H1]. unfold MoonSpec.clamp.
  rewrite (Q.min_r 100 x) by exact H1. apply Q.max_r. exact H0.
Qed.

(** ** The moon phase *)

Section MoonPhase.

Import MoonPhaseCalculator.

Example reference_ordinal : ymd2ord 2000 1 6 = 730125.
Proof. reflexivity. Qed.

Example reference_instant : NEW_MOON_REFERENCE = 63082865640000000.
Proof. reflexivity. Qed.

Lemma synodic_shift_us : synodic_shift = 2551442876899.
Proof. vm_compute. reflexivity. Qed.

(** On a date the two divisions succeed and the [try] block returns. *)
Lemma calculate_moon_phase_some (d : datetime) :
  calculate_moon_phase (Some d)
  = Returned (Some (MoonPhaseData.mk (Some d) (phase_at d))).
Proof. reflexivity. Qed.

Lemma frac_bounds (x : Q) : (0 <= MoonSpec.frac x < 1)%Q.
Proof.
  unfold MoonSpec.frac.
  pose proof (Qfloor_le x) as Hlo. pose proof (Qlt_floor x) as Hhi.
  rewrite inject_Z_plus in Hhi. change (inject_Z 1) with 1%Q in Hhi. lra.
Qed.

Lemma triangular_range (cp : Q) :
  (0 <= cp < 1)%Q -> (0 <= MoonSpec.triangular cp <= 100)%Q.
Proof.
  intros [H0 H1]. unfold MoonSpec.triangular.
  destruct (Qle_bool cp (1 # 2)) eqn:E.
  - apply Qle_bool_iff in E. lra.
  - apply Qle_bool_false in E. lra.
Qed.

#[local] Instance triangular_Proper :
  Proper (Qeq ==> Qeq) MoonSpec.triangular.
Proof.
  intros x y Hxy. unfold MoonSpec.triangular.
  destruct (Qle_bool x (1 # 2)) eqn:Ex, (Qle_bool y (1 # 2)) eqn:Ey;
    try apply Qle_bool_iff in Ex; try apply Qle_bool_iff in Ey;
    try apply Qle_bool_false in Ex; try apply Qle_bool_false in Ey; lra.
Qed.

(** The code divides seconds by 86400 and then by the cycle length; the
    specification divides days by the synodic month. *)
Lemma cycles_elapsed_spec (d : datetime) :
  (cycles_elapsed_at d
   == MoonSpec.days_since_reference d / MoonSpec.synodic_month)%Q.
Proof.
  unfold cycles_elapsed_at, MoonSpec.days_since_reference, total_seconds,
    datetime_sub, MoonSpec.synodic_month, LUNAR_CYCLE_DAYS.
  change (inject_Z us_per_second) with 1000000%Q.
  change (inject_Z (24 * 3600)) with 86400%Q.
  change (inject_Z us_per_day) with 86400000000%Q.
  field.
Qed.

Lemma cycle_position_spec (d : datetime) :
  (cycle_position_of (cycles_elapsed_at d) == MoonSpec.cycle_position d)%Q.
Proof.
  unfold cycle_position_of, MoonSpec.cycle_position, MoonSpec.frac, math_floor.
  pose proof (cycles_elapsed_spec d) as H.
  rewrite (Qfloor_comp _ _ H). lra.
Qed.

Lemma cycle_position_bounds (d : datetime) :
  (0 <= MoonSpec.cycle_position d < 1)%Q.
Proof. apply frac_bounds. Qed.

Lemma phase_at_triangular (d : datetime) :
  (phase_at d == MoonSpec.triangular (MoonSpec.cycle_position d))%Q.
Proof.
  unfold phase_at, phase_of_position.
  fold (MoonSpec.triangular (cycle_position_of (cycles_elapsed_at d))).
  rewrite py_clamp_id.
  - apply triangular_Proper, cycle_position_spec.
  - apply triangular_range. rewrite cycle_position_spec.
    apply cycle_position_bounds.
Qed.

(** C1.  On every date the calculator returns a record whose percentage is
    the triangular model of the cycle position: the position is the
    fractional part of the elapsed cycles and lies in [0, 1) on both sides
    of the reference new moon; the percentage is position * 200 up to one
    half and (1 - position) * 200 after it, equals its clamp to [0, 100],
    and lies between 0 and 100. *)
Theorem calculate_moon_phase_triangular_model (d : datetime) :
  exists p : Q,
    calculate_moon_phase (Some d)
      = Returned (Some (MoonPhaseData.mk (Some d) p))
    /\ (0 <= MoonSpec.cycle_position d < 1)%Q
    /\ (p == MoonSpec.triangular (MoonSpec.cycle_position d))%Q
    /\ (p == MoonSpec.illumination_percentage d)%Q
    /\ (0 <= p <= 100)%Q.
Proof.
  exists (phase_at d).
  pose proof (cycle_position_bounds d) as Hcp.
  pose proof (triangular_range _ Hcp) as Htri.
  pose proof (phase_at_triangular d) as Hp.
  split; [apply calculate_moon_phase_some |].
  split; [exact Hcp |].
  split; [exact Hp |].
  split.
  - unfold MoonSpec.illumination_percentage. rewrite clamp_id; assumption.
  - rewrite Hp. exact Htri.
Qed.

(** C5.  The calculator returns a record on every date.  On [None] the
    [ValueError] raised inside the [try] block is caught by the handler of
    the same block: the call returns [None] and raises nothing. *)
Theorem calculate_moon_phase_none_is_swallowed :
  calculate_moon_phase_try None = Raised (ValueError "Date cannot be None")
  /\ calculate_moon_phase None = Returned None
  /\ (forall d : datetime, exists m : MoonPhaseData.t,
        calculate_moon_phase (Some d) = Returned (Some m)).
Proof.
  split; [reflexivity |]. split; [reflexivity |].
  intros d. eexists. apply calculate_moon_phase_some.
Qed.

(** 14.76 days after the reference new moon the moon is full. *)
Example full_moon_after_half_cycle :
  exists m : MoonPhaseData.t,
    calculate_moon_phase
      (Some (datetime_add NEW_MOON_REFERENCE (timedelta_days (1476 # 100))))
    = Returned (Some m)
    /\ MoonPhaseData.is_full_moon m = true.
Proof. eexists. split; reflexivity. Qed.

(** The batch version never returns more records than it was given dates. *)
Lemma calculate_moon_phases_for_dates_length (dates : list (option datetime)) :
  (length (calculate_moon_phases_for_dates dates) <= length dates)%nat.
Proof.
  induction dates as [| d rest IH]; [reflexivity |].
  destruct d as [d |]; simpl; lia.
Qed.

(** *** Periodicity *)

Lemma floor_shift (x e : Q) :
  (0 <= e <= 1 # 2)%Q ->
  Qfloor (x + 1 - e) = Qfloor x \/ Qfloor (x + 1 - e) = Qfloor x + 1.
Proof.
  intros He.
  pose proof (Qfloor_le x) as Hx0. pose proof (Qlt_floor x) as Hx1.
  pose proof (Qfloor_le (x + 1 - e)) as Hy0.
  pose proof (Qlt_floor (x + 1 - e)) as Hy1.
  rewrite inject_Z_plus in Hx1, Hy1. change (inject_Z 1) with 1%Q in *.
  assert (Qfloor x < Qfloor (x + 1 - e) + 1) as Hlo.
  { rewrite Zlt_Qlt, inject_Z_plus. change (inject_Z 1) with 1%Q. lra. }
  assert (Qfloor (x + 1 - e) < Qfloor x + 2) as Hhi.
  { rewrite Zlt_Qlt, inject_Z_plus. change (inject_Z 2) with 2%Q. lra. }
  lia.
Qed.

(** The triangle wave has period 1 and slope at most 200. *)
Lemma triangular_shift (x e : Q) :
  (0 <= e <= 1 # 2)%Q ->
  (Qabs (MoonSpec.triangular (MoonSpec.frac (x + 1 - e))
         - MoonSpec.triangular (MoonSpec.frac x)) <= 200 * e)%Q.
Proof.
  intros He. apply Qabs_Qle_condition.
  pose proof (frac_bounds x) as Hfx.
  pose proof (frac_bounds (x + 1 - e)) as Hfy.
  unfold MoonSpec.frac in *.
  destruct (floor_shift x e He) as [Hfl | Hfl]; rewrite Hfl in *;
    try (rewrite inject_Z_plus in *; change (inject_Z 1) with 1%Q in * );
    unfold MoonSpec.triangular;
    destruct (Qle_bool _ (1 # 2)) eqn:E1;
    destruct (Qle_bool (x - _) (1 # 2)) eqn:E2;
    try apply Qle_bool_iff in E1; try apply Qle_bool_iff in E2;
    try apply Qle_bool_false in E1; try apply Qle_bool_false in E2;
    lra.
Qed.

(** One synodic month later the elapsed cycles have grown by one, less the
    fifth of a microsecond lost when the shift is rounded. *)
Lemma cycles_elapsed_shift (d : datetime) :
  (MoonSpec.days_since_reference (datetime_add d synodic_shift)
     / MoonSpec.synodic_month
   == MoonSpec.days_since_reference d / MoonSpec.synodic_month
      + 1 - (1 # 12757214384496))%Q.
Proof.
  rewrite synodic_shift_us.
  unfold MoonSpec.days_since_reference, datetime_add, MoonSpec.synodic_month.
  replace (d + 2551442876899 - NEW_MOON_REFERENCE)
    with ((d - NEW_MOON_REFERENCE) + 2551442876899) by lia.
  rewrite inject_Z_plus.
  change (inject_Z us_per_day) with 86400000000%Q.
  change (inject_Z 2551442876899) with 2551442876899%Q.
  field.
Qed.

Lemma cycle_position_shift (d : datetime) :
  (MoonSpec.cycle_position (datetime_add d synodic_shift)
   == MoonSpec.frac (MoonSpec.days_since_reference d / MoonSpec.synodic_month
                     + 1 - (1 # 12757214384496)))%Q.
Proof.
  unfold MoonSpec.cycle_position, MoonSpec.frac.
  pose proof (cycles_elapsed_shift d) as H.
  rewrite (Qfloor_comp _ _ H). lra.
Qed.

Lemma phase_at_shift (d : datetime) :
  (Qabs (phase_at (datetime_add d synodic_shift) - phase_at d)
   <= 200 * (1 # 12757214384496))%Q.
Proof.
  pose proof (phase_at_triangular d) as H1.
  pose proof (phase_at_triangular (datetime_add d synodic_shift)) as H2.
  pose proof (triangular_Proper _ _ (cycle_position_shift d)) as H3.
  assert (0 <= 1 # 12757214384496 <= 1 # 2)%Q as He by (split; discriminate).
  pose proof (triangular_shift
                (MoonSpec.days_since_reference d / MoonSpec.synodic_month)
                (1 # 12757214384496) He) as H4.
  fold (MoonSpec.cycle_position d) in H4.
  apply Qabs_Qle_condition in H4. apply Qabs_Qle_condition.
  revert H1 H2 H3 H4. clear He.
  generalize (200 * (1 # 12757214384496))%Q.
  generalize (MoonSpec.triangular
                (MoonSpec.frac
                   (MoonSpec.days_since_reference d / MoonSpec.synodic_month
                    + 1 - (1 # 12757214384496)))).
  generalize (MoonSpec.triangular
                (MoonSpec.cycle_position (datetime_add d synodic_shift))).
  generalize (MoonSpec.triangular (MoonSpec.cycle_position d)).
  generalize (phase_at (datetime_add d synodic_shift)).
  generalize (phase_at d).
  intros. lra.
Qed.

(** C7.  The calculator returns a record on a date and on that date plus
    [timedelta(days=29.530588853)], and the two percentages differ by at
    most one percentage point. *)
Theorem moon_phase_periodic (d : datetime) :
  exists m m' : MoonPhaseData.t,
    calculate_moon_phase (Some d) = Returned (Some m)
    /\ calculate_moon_phase
         (Some (datetime_add d (timedelta_days LUNAR_CYCLE_DAYS)))
       = Returned (Some m')
    /\ (Qabs (MoonPhaseData.phase_percentage m'
              - MoonPhaseData.phase_percentage m) <= 1)%Q.
Proof.
  eexists _, _. split; [apply calculate_moon_phase_some |].
  split; [apply calculate_moon_phase_some |].
  cbn [MoonPhaseData.phase_percentage]. fold synodic_shift.
  eapply Qle_trans; [apply phase_at_shift | discriminate].
Qed.

End MoonPhase.

(** ** Stable sorting *)

Section Sorting.

Context {A : Type} (key : A -> Z).

Lemma insert_by_perm (x : A) (l : list A) : insert_by key x l ≡ₚ x :: l.
Proof.
  induction l as [| y l IH]; simpl; [reflexivity |].
  destruct (key x <=? key y); [reflexivity |].
  rewrite IH. apply Permutation_swap.
Qed.

Lemma sorted_perm (l : list A) : sorted key l ≡ₚ l.
Proof.
  induction l as [| x l IH]; simpl; [reflexivity |].
  rewrite insert_by_perm, IH. reflexivity.
Qed.

Lemma sorted_length (l : list A) : length (sorted key l) = length l.
Proof. apply Permutation_length, sorted_perm. Qed.

Lemma insert_by_sorted (x : A) (l : list A) :
  StronglySorted (key_le key) l ->
  StronglySorted (key_le key) (insert_by key x l).
Proof.
  induction 1 as [| y l Hl IH Hy]; simpl.
  - repeat constructor.
  - destruct (Z.leb_spec (key x) (key y)) as [Hle | Hgt].
    + constructor; [constructor; assumption |].
      constructor; [exact Hle |].
      eapply Forall_impl; [exact Hy |]. unfold key_le. intros; lia.
    + constructor; [exact IH |].
      rewrite insert_by_perm. constructor; [unfold key_le; lia | exact Hy].
Qed.

Lemma sorted_sorted (l : list A) : StronglySorted (key_le key) (sorted key l).
Proof.
  induction l as [| x l IH]; simpl; [constructor | apply insert_by_sorted, IH].
Qed.

(** Stability: the elements that share a key keep their order. *)
Lemma insert_by_filter (P : A -> Prop) `{!forall a, Decision (P a)}
    (x : A) (l : list A) :
  (forall a b, P a -> P b -> key a = key b) ->
  filter P (insert_by key x l) = filter P (x :: l).
Proof.
  intros HP. induction l as [| y l IH]; [reflexivity |].
  simpl. destruct (Z.leb_spec (key x) (key y)) as [Hle | Hgt]; [reflexivity |].
  rewrite (filter_cons _ y), IH, !filter_cons.
  destruct (decide (P x)) as [Px |], (decide (P y)) as [Py |]; try reflexivity.
  specialize (HP x y Px Py). lia.
Qed.

Lemma sorted_stable (P : A -> Prop) `{!forall a, Decision (P a)} (l : list A) :
  (forall a b, P a -> P b -> key a = key b) ->
  filter P (sorted key l) = filter P l.
Proof.
  intros HP. induction l as [| x l IH]; [reflexivity |].
  simpl sorted. rewrite insert_by_filter by exact HP.
  rewrite !filter_cons, IH. reflexivity.
Qed.

Lemma same_key_order_nil (l : list A) : same_key_order key [] l -> l = [].
Proof.
  intros H. destruct l as [| y l]; [reflexivity |].
  specialize (H (key y)). rewrite filter_cons, decide_True in H by reflexivity.
  discriminate.
Qed.

Lemma same_key_order_sym (l1 l2 : list A) :
  same_key_order key l1 l2 -> same_key_order key l2 l1.
Proof. intros H k. symmetry. apply H. Qed.

Lemma same_key_order_elem (l1 l2 : list A) (x : A) :
  same_key_order key l1 l2 -> x ∈ l1 -> x ∈ l2.
Proof.
  intros H Hx.
  assert (x ∈ filter (fun a => key a = key x) l1) as Hf
    by (apply list_elem_of_filter; auto).
  rewrite (H (key x)) in Hf. apply list_elem_of_filter in Hf as [_ Hf].
  exact Hf.
Qed.

(** A sorted list is determined by the order of the elements of each key. *)
Lemma stable_sort_unique (l1 l2 : list A) :
  StronglySorted (key_le key) l1 ->
  StronglySorted (key_le key) l2 ->
  same_key_order key l1 l2 ->
  l1 = l2.
Proof.
  intros H1. revert l2.
  induction H1 as [| x l1 Hs1 IH Hx]; intros l2 H2 Hsame.
  - symmetry. apply same_key_order_nil. exact Hsame.
  - destruct H2 as [| y l2 Hs2 Hy].
    + apply same_key_order_sym, same_key_order_nil in Hsame. discriminate.
    + assert (key x = key y) as Hk.
      { assert (y ∈ x :: l1) as Hy1
          by (eapply same_key_order_elem;
              [apply same_key_order_sym, Hsame | left]).
        assert (x ∈ y :: l2) as Hx2
          by (eapply same_key_order_elem; [exact Hsame | left]).
        rewrite Forall_forall in Hx, Hy. unfold key_le in Hx, Hy.
        apply elem_of_cons in Hy1 as [-> | Hy1]; [reflexivity |].
        apply elem_of_cons in Hx2 as [-> | Hx2]; [reflexivity |].
        specialize (Hx y Hy1). specialize (Hy x Hx2). lia. }
      assert (x = y) as ->.
      { pose proof (Hsame (key x)) as Hh.
        rewrite !filter_cons in Hh.
        rewrite decide_True in Hh by reflexivity.
        rewrite decide_True in Hh by (symmetry; exact Hk).
        congruence. }
      f_equal. apply IH; [exact Hs2 |].
      intros k. specialize (Hsame k). rewrite !filter_cons in Hsame.
      destruct (decide (key y = k)); congruence.
Qed.

(** Whatever algorithm a stable sort runs, it returns [sorted key l]. *)
Lemma sorted_is_the_stable_sort (l l' : list A) :
  StronglySorted (key_le key) l' ->
  same_key_order key l' l ->
  l' = sorted key l.
Proof.
  intros Hs Hsame. apply stable_sort_unique; [exact Hs | apply sorted_sorted |].
  intros k. rewrite sorted_stable by congruence. apply Hsame.
Qed.

Lemma StronglySorted_filter (R : A -> A -> Prop) (P : A -> Prop)
    `{!forall a, Decision (P a)} (l : list A) :
  StronglySorted R l -> StronglySorted R (filter P l).
Proof.
  induction 1 as [| x l Hl IH Hx]; [constructor |].
  rewrite filter_cons. destruct (decide (P x)); [| exact IH].
  constructor; [exact IH |].
  apply Forall_forall. intros y Hy. apply list_elem_of_filter in Hy as [_ Hy].
  rewrite Forall_forall in Hx. apply Hx, Hy.
Qed.

End Sorting.

(** ** Lists *)

Lemma length_omap_le {A B : Type} (f : A -> option B) (l : list A) :
  (length (omap f l) <= length l)%nat.
Proof.
  induction l as [| x l IH]; [reflexivity |]. cbn [omap list_omap].
  destruct (f x); simpl; lia.
Qed.

Lemma filter_fmap_comm {A B : Type} (g : A -> B) (P : B -> Prop)
    `{!forall b, Decision (P b)} (l : list A) :
  filter P (g <$> l) = g <$> filter (fun a => P (g a)) l.
Proof.
  induction l as [| x l IH]; [reflexivity |].
  rewrite fmap_cons, !filter_cons, IH.
  destruct (decide (P (g x))); reflexivity.
Qed.

Lemma filter_none {A : Type} (P : A -> Prop) `{!forall a, Decision (P a)}
    (l : list A) :
  (forall a, ~ P a) -> filter P l = [].
Proof.
  intros Hno. induction l as [| x l IH]; [reflexivity |].
  rewrite filter_cons, IH. destruct (decide (P x)); [| reflexivity].
  exfalso. eapply Hno. eassumption.
Qed.

(** ** The store *)

Lemma deref_store_eq (h : heap) (r : loc) (v : option Q) :
  deref (store_price_change h r v) r
  = CombinedDataPoint.set_price_change (deref h r) v.
Proof. unfold deref, store_price_change. simpl. rewrite decide_True; done. Qed.

Lemma deref_store_ne (h : heap) (r r' : loc) (v : option Q) :
  r' <> r -> deref (store_price_change h r v) r' = deref h r'.
Proof.
  intros. unfold deref, store_price_change. simpl. rewrite decide_False; done.
Qed.

Lemma deref_alloc_new (h : heap) (p : CombinedDataPoint.t) :
  deref (alloc h p).2 (alloc h p).1 = p.
Proof. unfold deref, alloc. simpl. rewrite decide_True; done. Qed.

Lemma deref_alloc_old (h : heap) (p : CombinedDataPoint.t) (r : loc) :
  (r < next_loc h)%nat -> deref (alloc h p).2 r = deref h r.
Proof.
  intros Hr. unfold deref, alloc. simpl. rewrite decide_False; [done | lia].
Qed.

Lemma same_identity_refl (p : CombinedDataPoint.t) : same_identity p p.
Proof. repeat split. Qed.

Lemma same_identity_trans (p q r : CombinedDataPoint.t) :
  same_identity p q -> same_identity q r -> same_identity p r.
Proof.
  unfold same_identity. intros (? & ? & ?) (? & ? & ?).
  repeat split; congruence.
Qed.

Lemma store_same_identity (h : heap) (r r' : loc) (v : option Q) :
  same_identity (deref (store_price_change h r v) r') (deref h r').
Proof.
  destruct (decide (r' = r)) as [-> | Hne].
  - rewrite deref_store_eq. repeat split.
  - rewrite deref_store_ne by done. apply same_identity_refl.
Qed.

Lemma has_crypto_same (h h' : heap) (l : list loc) :
  (forall r, same_identity (deref h' r) (deref h r)) ->
  filter (has_crypto h') l = filter (has_crypto h) l.
Proof.
  intros H. apply list_filter_iff. intros r. unfold has_crypto.
  destruct (H r) as (_ & -> & _). reflexivity.
Qed.

Lemma closes_same (h h' : heap) (l : list loc) :
  (forall r, same_identity (deref h' r) (deref h r)) ->
  closes h' l = closes h l.
Proof.
  intros H. unfold closes. induction l as [| r l IH]; [reflexivity |].
  cbn [omap list_omap]. destruct (H r) as (_ & -> & _). rewrite IH.
  reflexivity.
Qed.

Lemma closes_filter (h : heap) (l : list loc) :
  closes h (filter (has_crypto h) l) = closes h l.
Proof.
  unfold closes. induction l as [| r l IH]; [reflexivity |].
  rewrite filter_cons. cbn [omap list_omap].
  destruct (decide (has_crypto h r)) as [Hr | Hr].
  - cbn [omap list_omap]. rewrite IH. reflexivity.
  - rewrite IH. unfold has_crypto in Hr.
    destruct (CombinedDataPoint.crypto_data (deref h r)); [| reflexivity].
    exfalso. apply Hr. eauto.
Qed.

Lemma closes_cons_priced (h : heap) (r : loc) (l : list loc) :
  has_crypto h r ->
  exists c, CombinedDataPoint.crypto_data (deref h r) = Some c
            /\ closes h (r :: l) = CryptoPriceData.close_price c :: closes h l.
Proof.
  unfold has_crypto. intros [c Hc]. exists c. split; [exact Hc |].
  unfold closes. cbn [omap list_omap]. rewrite Hc. reflexivity.
Qed.

Lemma date_sorted_same (h h' : heap) (l : list loc) :
  (forall r, same_identity (deref h' r) (deref h r)) ->
  date_sorted h l -> date_sorted h' l.
Proof.
  intros Hsame. unfold date_sorted.
  assert (forall r, DataProcessor.date_key h' r = DataProcessor.date_key h r)
    as Hk by (intros r; unfold DataProcessor.date_key; apply (Hsame r)).
  induction 1 as [| x l Hl IH Hx]; constructor; [exact IH |].
  eapply Forall_impl; [exact Hx |]. unfold key_le. intros y Hy.
  rewrite !Hk. exact Hy.
Qed.

(** ** Price changes *)

Section PriceChanges.

Import DataProcessor.

(** The guarded division of lines 139-145 never raises. *)
Lemma change_from_spec (previous_price : option Q) (current_price : Q) :
  change_from previous_price current_price
  = Returned (ChangeSpec.change previous_price current_price).
Proof.
  unfold change_from, ChangeSpec.change, truediv.
  destruct previous_price as [p |]; [| reflexivity].
  destruct (Qeq_bool p 0); reflexivity.
Qed.

(** The loop never raises, returns the points that carry a price record in
    the order it met them, and leaves every other attribute alone. *)
Lemma price_change_loop_returns (sorted_data : list loc) :
  forall (h : heap) (processed_data : list loc) (previous_price : option Q),
  exists h' : heap,
    price_change_loop sorted_data h processed_data previous_price
    = (h', Returned (processed_data ++ filter (has_crypto h) sorted_data))
    /\ (forall r, same_identity (deref h' r) (deref h r))
    /\ (forall r, r ∉ sorted_data -> deref h' r = deref h r)
    /\ next_loc h' = next_loc h.
Proof.
  induction sorted_data as [| r rest IH];
    intros h processed_data previous_price.
  - exists h. simpl. rewrite app_nil_r. repeat split; reflexivity.
  - simpl. rewrite filter_cons.
    destruct (CombinedDataPoint.crypto_data (deref h r)) as [c |] eqn:Hc.
    + rewrite change_from_spec.
      set (v := ChangeSpec.change previous_price
                                  (CryptoPriceData.close_price c)).
      destruct (IH (store_price_change h r v) (processed_data ++ [r])
                   (Some (CryptoPriceData.close_price c)))
        as (h' & Hrun & Hsame & Hother & Hnext).
      exists h'. rewrite Hrun.
      rewrite (has_crypto_same h _ rest)
        by (intros; apply store_same_identity).
      rewrite decide_True by (unfold has_crypto; rewrite Hc; eauto).
      rewrite <- app_assoc. simpl.
      split; [reflexivity |]. split; [| split].
      * intros r'. eapply same_identity_trans; [apply Hsame |].
        apply store_same_identity.
      * intros r' Hr'. apply not_elem_of_cons in Hr' as [Hne Hr'].
        rewrite Hother by exact Hr'. apply deref_store_ne. exact Hne.
      * rewrite Hnext. reflexivity.
    + rewrite decide_False
        by (unfold has_crypto; rewrite Hc; intros [? ?]; discriminate).
      destruct (IH h processed_data previous_price)
        as (h' & Hrun & Hsame & Hother & Hnext).
      exists h'. repeat split; try assumption; try apply Hsame.
      intros r' Hr'. apply not_elem_of_cons in Hr' as [_ Hr']. auto.
Qed.

(** With distinct objects, each processed point ends with the change
    computed from the close of the point processed before it. *)
Lemma price_change_loop_values (sorted_data : list loc) :
  forall (h h' : heap) (processed_data out : list loc)
         (previous_price : option Q),
  NoDup sorted_data ->
  price_change_loop sorted_data h processed_data previous_price
  = (h', Returned out) ->
  price_changes h' (filter (has_crypto h) sorted_data)
  = ChangeSpec.annotate previous_price (closes h sorted_data).
Proof.
  induction sorted_data as [| r rest IH];
    intros h h' processed_data out previous_price Hnd Hrun; [reflexivity |].
  apply NoDup_cons in Hnd as [Hr Hnd].
  simpl in Hrun. rewrite filter_cons. unfold closes. cbn [omap list_omap].
  fold (closes h rest).
  destruct (CombinedDataPoint.crypto_data (deref h r)) as [c |] eqn:Hc.
  - rewrite change_from_spec in Hrun.
    set (v := ChangeSpec.change previous_price
                                (CryptoPriceData.close_price c)) in *.
    rewrite decide_True by (unfold has_crypto; rewrite Hc; eauto).
    simpl.
    destruct (price_change_loop_returns rest (store_price_change h r v)
                (processed_data ++ [r]) (Some (CryptoPriceData.close_price c)))
      as (h1 & Hrun1 & _ & Hother & _).
    rewrite Hrun in Hrun1. injection Hrun1 as <- _.
    f_equal.
    + rewrite Hother by exact Hr. rewrite deref_store_eq. reflexivity.
    + specialize (IH _ _ _ _ _ Hnd Hrun).
      rewrite (has_crypto_same h _ rest) in IH
        by (intros; apply store_same_identity).
      rewrite (closes_same h _ rest) in IH
        by (intros; apply store_same_identity).
      exact IH.
  - rewrite decide_False
      by (unfold has_crypto; rewrite Hc; intros [? ?]; discriminate).
    simpl. eapply IH; eassumption.
Qed.

(** The whole call: it returns, the result is the sorted input without the
    points that lack a price record, and with distinct objects the changes
    are those of one forward pass. *)
Lemma calculate_price_changes_run (h : heap) (self : DataProcessor.t)
    (combined_data : option (list loc)) :
  exists (h' : heap) (self' : DataProcessor.t),
    let out := filter (has_crypto h)
                 (sorted (date_key h) (data_to_process self combined_data)) in
    calculate_price_changes h self combined_data = (h', self', Returned out)
    /\ (forall r, same_identity (deref h' r) (deref h r))
    /\ (NoDup (data_to_process self combined_data) ->
        price_changes h' out = ChangeSpec.annotate None (closes h' out)).
Proof.
  unfold calculate_price_changes.
  destruct (data_to_process self combined_data) as [| r l] eqn:Hdata.
  - exists h, self. simpl. repeat split; reflexivity.
  - rewrite <- Hdata. clear Hdata.
    set (data := data_to_process self combined_data).
    destruct (price_change_loop_returns (sorted (date_key h) data) h [] None)
      as (h' & Hrun & Hsame & _ & _).
    rewrite Hrun. simpl app.
    eexists h', _. split; [reflexivity |]. split; [exact Hsame |].
    intros Hnd.
    rewrite (closes_same h h') by exact Hsame. rewrite closes_filter.
    eapply price_change_loop_values; [| exact Hrun].
    rewrite sorted_perm. exact Hnd.
Qed.

(** The index form of one forward pass. *)
Lemma annotate_lookup (closes : list Q) :
  forall (previous_close : option Q) (i : nat) (close : Q),
  closes !! i = Some close ->
  ChangeSpec.annotate previous_close closes !! i
  = Some (ChangeSpec.change
            (match i with
             | O => previous_close
             | S j => closes !! j
             end) close).
Proof.
  induction closes as [| c rest IH]; intros previous_close i close Hi;
    [discriminate |].
  destruct i as [| i]; simpl in *.
  - injection Hi as ->. reflexivity.
  - rewrite (IH (Some c) i close Hi). destruct i; reflexivity.
Qed.

(** C9.  The call returns the input points that carry a price record, and
    only those, in ascending date order: the result is the stable sort of
    the input by date without the points whose price record is missing, so
    it is a permutation of the priced input points and never longer than
    the input. *)
Theorem calculate_price_changes_keeps_priced_points
    (h : heap) (self : DataProcessor.t) (combined_data : option (list loc)) :
  exists (h' : heap) (self' : DataProcessor.t) (out : list loc),
    calculate_price_changes h self combined_data = (h', self', Returned out)
    /\ out = filter (has_crypto h)
               (sorted (date_key h) (data_to_process self combined_data))
    /\ out ≡ₚ filter (has_crypto h) (data_to_process self combined_data)
    /\ (forall r, has_crypto h' r <-> has_crypto h r)
    /\ date_sorted h' out
    /\ (length out <= length (data_to_process self combined_data))%nat.
Proof.
  destruct (calculate_price_changes_run h self combined_data)
    as (h' & self' & Hrun & Hsame & _).
  eexists h', self', _. split; [exact Hrun |]. split; [reflexivity |].
  split; [rewrite sorted_perm; reflexivity |].
  split; [| split].
  - intros r. unfold has_crypto. destruct (Hsame r) as (_ & -> & _).
    reflexivity.
  - apply (date_sorted_same h); [exact Hsame |].
    apply StronglySorted_filter, sorted_sorted.
  - etransitivity; [apply length_filter |]. rewrite sorted_length.
    reflexivity.
Qed.

(** A filter that every element passes keeps the list. *)
Lemma filter_Forall_id {A : Type} (P : A -> Prop)
    `{!forall a, Decision (P a)} (l : list A) :
  Forall P l -> filter P l = l.
Proof.
  induction 1 as [| x l Hx _ IH]; [reflexivity |].
  rewrite filter_cons, decide_True, IH by exact Hx. reflexivity.
Qed.

(** The loop assigns to the points that carry a price record and to no
    other object. *)
Lemma price_change_loop_untouched (sorted_data : list loc) :
  forall (h h' : heap) (processed_data out : list loc)
         (previous_price : option Q),
  price_change_loop sorted_data h processed_data previous_price
  = (h', Returned out) ->
  forall r, r ∉ filter (has_crypto h) sorted_data -> deref h' r = deref h r.
Proof.
  induction sorted_data as [| r0 rest IH];
    intros h h' processed_data out previous_price Hrun r Hr.
  - injection Hrun as <- _. reflexivity.
  - simpl in Hrun. rewrite filter_cons in Hr.
    destruct (CombinedDataPoint.crypto_data (deref h r0)) as [c |] eqn:Hc.
    + rewrite change_from_spec in Hrun.
      rewrite decide_True in Hr by (unfold has_crypto; rewrite Hc; eauto).
      apply not_elem_of_cons in Hr as [Hne Hr].
      rewrite (IH _ _ _ _ _ Hrun r).
      * apply deref_store_ne. exact Hne.
      * rewrite (has_crypto_same h _ rest)
          by (intros; apply store_same_identity).
        exact Hr.
    + rewrite decide_False in Hr
        by (unfold has_crypto; rewrite Hc; intros [? ?]; discriminate).
      apply (IH _ _ _ _ _ Hrun r Hr).
Qed.

(** The call leaves every object that it does not return as it was. *)
Lemma calculate_price_changes_untouched (h h' : heap)
    (self self' : DataProcessor.t) (combined_data : option (list loc))
    (out : list loc) :
  calculate_price_changes h self combined_data = (h', self', Returned out) ->
  forall r, r ∉ out -> deref h' r = deref h r.
Proof.
  unfold calculate_price_changes.
  destruct (data_to_process self combined_data) as [| r0 l] eqn:Hdata.
  - intros [= <- _ _] r _. reflexivity.
  - rewrite <- Hdata. clear Hdata.
    set (data := data_to_process self combined_data).
    destruct (price_change_loop_returns (sorted (date_key h) data) h [] None)
      as (h1 & Hrun & _).
    pose proof (price_change_loop_untouched _ _ _ _ _ _ Hrun) as Hkeep.
    rewrite Hrun. simpl app. intros [= <- _ <-]. exact Hkeep.
Qed.

(** C3, amended.  When no object is listed twice, the call processes the
    points of the input that carry a price record, all of them when every
    point does, in ascending date order: it returns exactly these points
    sorted by date, assigns nothing but [price_change] and to no other
    object, and the changes of the returned points are those of one forward
    pass over the closes they came with: none for the first point and
    after a zero close, (close - previous) / previous * 100 otherwise, the
    previous close being the close of the point processed just before. *)
Theorem calculate_price_changes_annotates
    (h : heap) (self : DataProcessor.t) (combined_data : option (list loc)) :
  NoDup (data_to_process self combined_data) ->
  exists (h' : heap) (self' : DataProcessor.t) (out : list loc),
    calculate_price_changes h self combined_data = (h', self', Returned out)
    /\ out = filter (has_crypto h)
               (sorted (date_key h) (data_to_process self combined_data))
    /\ (forall r, r ∈ out
                  <-> r ∈ data_to_process self combined_data
                      /\ has_crypto h r)
    /\ (Forall (has_crypto h) (data_to_process self combined_data) ->
        out = sorted (date_key h) (data_to_process self combined_data)
        /\ out ≡ₚ data_to_process self combined_data)
    /\ (forall r, same_identity (deref h' r) (deref h r))
    /\ (forall r, r ∉ out -> deref h' r = deref h r)
    /\ date_sorted h' out
    /\ Forall (has_crypto h') out
    /\ closes h' out = closes h out
    /\ price_changes h' out = ChangeSpec.annotate None (closes h' out)
    /\ (forall r, head out = Some r ->
                  CombinedDataPoint.price_change (deref h' r) = None).
Proof.
  intros Hnd.
  destruct (calculate_price_changes_run h self combined_data)
    as (h' & self' & Hrun & Hsame & Hvals).
  specialize (Hvals Hnd).
  assert (Forall (has_crypto h')
            (filter (has_crypto h)
               (sorted (date_key h) (data_to_process self combined_data))))
    as Hall.
  { apply Forall_forall. intros r Hr.
    apply list_elem_of_filter in Hr as [Hr _]. unfold has_crypto in *.
    destruct (Hsame r) as (_ & -> & _). exact Hr. }
  eexists h', self', _. split; [exact Hrun |].
  split; [reflexivity |].
  split.
  { intros r. rewrite list_elem_of_filter, sorted_perm. tauto. }
  split; [| split; [exact Hsame | split; [| split; [| split;
    [exact Hall | split; [| split; [exact Hvals |]]]]]]].
  - intros Hpriced.
    assert (filter (has_crypto h)
              (sorted (date_key h) (data_to_process self combined_data))
            = sorted (date_key h) (data_to_process self combined_data))
      as Heq.
    { apply filter_Forall_id. rewrite sorted_perm. exact Hpriced. }
    split; [exact Heq |]. rewrite Heq. apply sorted_perm.
  - apply (calculate_price_changes_untouched _ _ _ _ _ _ Hrun).
  - apply (date_sorted_same h); [exact Hsame |].
    apply StronglySorted_filter, sorted_sorted.
  - apply closes_same, Hsame.
  - intros r Hr.
    destruct (filter _ _) as [| r0 out]; [discriminate |].
    injection Hr as ->. apply Forall_cons in Hall as [Hr _].
    destruct (closes_cons_priced h' r out Hr) as (c & _ & Hcl).
    rewrite Hcl in Hvals. injection Hvals as Hv _. exact Hv.
Qed.

Lemma calculate_price_changes_annotates_witness :
  NoDup [2; 0; 1]%nat
  /\ exists (h' : heap) (self' : DataProcessor.t) (out : list loc),
       calculate_price_changes three_days DataProcessor.init
                               (Some [2; 0; 1]%nat)
       = (h', self', Returned out)
       /\ out = [0; 1; 2]%nat
       /\ closes h' out = [100; 105; 95]%Q
       /\ price_changes h' out = ChangeSpec.annotate None (closes h' out)
       /\ (forall r, head out = Some r ->
                     CombinedDataPoint.price_change (deref h' r) = None).
Proof.
  assert (NoDup [2; 0; 1]%nat) as Hnd by distinct_locs.
  split; [exact Hnd |].
  destruct (calculate_price_changes_annotates three_days DataProcessor.init
              (Some [2; 0; 1]%nat) Hnd)
    as (h' & self' & out & Hrun & Hout & _ & _ & _ & _ & _ & _ & Hcloses
        & Hvals & Hfirst).
  exists h', self', out. split; [exact Hrun |].
  split; [rewrite Hout; vm_compute; reflexivity |].
  split; [rewrite Hcloses, Hout; vm_compute; reflexivity |].
  split; [exact Hvals | exact Hfirst].
Defined.

(** C3, as stated, fails in two ways.  When one object is listed twice,
    the second visit overwrites the change that the first visit had left
    unset, and the first point of the result ends with a change of 0.  And
    a point without a price record is skipped, not set: listed alone, and
    so the first point, it is not returned and keeps the change it had. *)
Lemma calculate_price_changes_fails_as_stated :
  (exists (h' : heap) (self' : DataProcessor.t) (q : Q),
     calculate_price_changes three_days DataProcessor.init (Some [0; 0]%nat)
     = (h', self', Returned [0; 0]%nat)
     /\ head [0; 0]%nat = Some 0%nat
     /\ CombinedDataPoint.price_change (deref h' 0%nat) = Some q
     /\ (q == 0)%Q
     /\ CombinedDataPoint.price_change (deref h' 0%nat) <> None)
  /\ (exists (h' : heap) (self' : DataProcessor.t),
        NoDup [0%nat]
        /\ calculate_price_changes unpriced_with_change DataProcessor.init
                                   (Some [0%nat])
           = (h', self', Returned [])
        /\ CombinedDataPoint.crypto_data (deref unpriced_with_change 0%nat)
           = None
        /\ CombinedDataPoint.price_change (deref h' 0%nat) = Some 5%Q
        /\ CombinedDataPoint.price_change (deref h' 0%nat) <> None).
Proof.
  split.
  - eexists _, _, _. split; [reflexivity |]. split; [reflexivity |].
    split; [reflexivity |]. split; [reflexivity | discriminate].
  - eexists _, _. split; [distinct_locs |]. split; [reflexivity |].
    split; [reflexivity |]. split; [reflexivity | discriminate].
Qed.

(** The closes 100, 110, 99 give no change, +10 and -10. *)
Example annotate_100_110_99 :
  ChangeSpec.annotate None [100; 110; 99]%Q
  = [None; Some ((110 - 100) / 100 * 100)%Q; Some ((99 - 110) / 110 * 100)%Q]
  /\ ((110 - 100) / 100 * 100 == 10)%Q
  /\ ((99 - 110) / 110 * 100 == -10)%Q.
Proof. repeat split. Qed.

(** C10.  With no stored data the query returns the empty list for every
    pair of dates, inverted or not; it raises exactly when data is stored
    and the start date is after the end date, and what it raises is a
    [ValueError]. *)
Theorem get_data_by_date_range_raises_only_with_data
    (h : heap) (self : DataProcessor.t) (start_date end_date : datetime) :
  (_combined_data self = [] ->
   get_data_by_date_range h self start_date end_date = Returned [])
  /\ ((exists e, get_data_by_date_range h self start_date end_date = Raised e)
      <-> _combined_data self <> [] /\ start_date > end_date)
  /\ (forall e, get_data_by_date_range h self start_date end_date = Raised e ->
                exists msg, e = ValueError msg).
Proof.
  unfold get_data_by_date_range.
  destruct (_combined_data self) as [| r l].
  - split; [reflexivity |]. split.
    + split; [intros [e He]; discriminate | intros [H _]; contradiction].
    + intros e He. discriminate.
  - split; [discriminate |].
    destruct (Z.ltb_spec end_date start_date) as [Hlt | Hge].
    + split.
      * split; [intros _; split; [discriminate | lia] | eauto].
      * intros e [= <-]. eauto.
    + split.
      * split; [intros [e He]; discriminate | intros [_ H]; lia].
      * intros e He. discriminate.
Qed.

Lemma get_data_by_date_range_witness :
  get_data_by_date_range no_objects DataProcessor.init
                         (january 3) (january 2) = Returned [].
Proof.
  apply (get_data_by_date_range_raises_only_with_data
           no_objects DataProcessor.init (january 3) (january 2)).
  reflexivity.
Defined.

End PriceChanges.

(** ** Combining prices and moon phases *)

Section Combine.

Import DataProcessor.

(** *** The lookup dictionary *)

Lemma moon_days_cons (x : option MoonPhaseData.t)
    (l : list (option MoonPhaseData.t)) :
  moon_days (x :: l)
  = match x with
    | Some mp => match MoonPhaseData.date mp with
                 | Some d => date_of d :: moon_days l
                 | None => moon_days l
                 end
    | None => moon_days l
    end.
Proof.
  unfold moon_days. cbn [omap list_omap].
  destruct x as [mp |]; [| reflexivity]. simpl.
  destruct (MoonPhaseData.date mp); reflexivity.
Qed.

Lemma moon_lookup_keys (moon_data : list (option MoonPhaseData.t)) :
  forall (m0 : gmap Z MoonPhaseData.t) (k : Z),
  is_Some (fold_left add_moon_point moon_data m0 !! k)
  <-> is_Some (m0 !! k) \/ k ∈ moon_days moon_data.
Proof.
  induction moon_data as [| x l IH]; intros m0 k.
  - simpl. unfold moon_days. simpl. rewrite elem_of_nil. tauto.
  - simpl fold_left. rewrite IH, moon_days_cons. unfold add_moon_point.
    destruct x as [mp |]; [| tauto].
    destruct (MoonPhaseData.date mp) as [d |]; [| tauto].
    rewrite elem_of_cons, lookup_insert_is_Some. 
    destruct (decide (date_of d = k)); intuition congruence.
Qed.

Lemma build_moon_lookup_keys (moon_data : list (option MoonPhaseData.t))
    (k : Z) :
  is_Some (build_moon_lookup moon_data !! k) <-> k ∈ moon_days moon_data.
Proof.
  unfold build_moon_lookup. rewrite moon_lookup_keys, lookup_empty.
  split; [intros [[? ?] | ?]; [discriminate | assumption] | auto].
Qed.

Lemma moon_lookup_size (moon_data : list (option MoonPhaseData.t)) :
  forall m0 : gmap Z MoonPhaseData.t,
  (size (fold_left add_moon_point moon_data m0)
   <= size m0 + length moon_data)%nat.
Proof.
  induction moon_data as [| x l IH]; intros m0; cbn [fold_left length].
  { lia. }
  etransitivity; [apply IH |].
  assert (size (add_moon_point m0 x) <= S (size m0))%nat; [| lia].
  unfold add_moon_point. destruct x as [mp |]; [| lia].
  destruct (MoonPhaseData.date mp) as [d |]; [| lia].
  destruct (m0 !! date_of d) eqn:E;
    [rewrite map_size_insert_Some by eauto
    | rewrite map_size_insert_None by exact E]; lia.
Qed.

Lemma build_moon_lookup_size (moon_data : list (option MoonPhaseData.t)) :
  (size (build_moon_lookup moon_data) <= length moon_data)%nat.
Proof.
  unfold build_moon_lookup.
  etransitivity; [apply moon_lookup_size |]. rewrite map_size_empty. lia.
Qed.

(** *** The matching loop *)

Lemma combine_loop_matched (moon_lookup : gmap Z MoonPhaseData.t)
    (crypto_point : option CryptoPriceData.t)
    (rest : list (option CryptoPriceData.t)) (h : heap) (acc : list loc) :
  combine_loop moon_lookup (crypto_point :: rest) h acc
  = match matched moon_lookup crypto_point with
    | Some p => combine_loop moon_lookup rest (alloc h p).2
                             (acc ++ [(alloc h p).1])
    | None => combine_loop moon_lookup rest h acc
    end.
Proof.
  simpl. unfold matched. destruct crypto_point as [cp |]; [| reflexivity].
  simpl. destruct (CryptoPriceData.date cp) as [d |]; [| reflexivity].
  simpl. destruct (moon_lookup !! date_of d); reflexivity.
Qed.

Lemma combine_loop_spec (moon_lookup : gmap Z MoonPhaseData.t)
    (crypto_data : list (option CryptoPriceData.t)) :
  forall (h : heap) (acc : list loc),
  let points := omap (matched moon_lookup) crypto_data in
  let fresh := seq (next_loc h) (length points) in
  exists h' : heap,
    combine_loop moon_lookup crypto_data h acc = (h', acc ++ fresh)
    /\ deref h' <$> fresh = points
    /\ (forall r, (r < next_loc h)%nat -> deref h' r = deref h r)
    /\ next_loc h' = (next_loc h + length points)%nat.
Proof.
  induction crypto_data as [| x rest IH]; intros h acc.
  - exists h. simpl. rewrite app_nil_r. repeat split; auto.
  - rewrite combine_loop_matched. cbn [omap list_omap].
    destruct (matched moon_lookup x) as [p |].
    + destruct (IH (alloc h p).2 (acc ++ [(alloc h p).1]))
        as (h' & Hrun & Hpts & Hold & Hnext).
      exists h'. cbn [length seq].
      change (next_loc (alloc h p).2) with (S (next_loc h)) in *.
      change ((alloc h p).1) with (next_loc h) in *.
      cbv zeta in Hrun, Hpts.
      split; [rewrite Hrun, <- app_assoc; reflexivity |].
      split; [| split].
      * rewrite fmap_cons. f_equal; [| exact Hpts].
        rewrite Hold by lia. apply (deref_alloc_new h p).
      * intros r Hr. rewrite Hold by lia. apply (deref_alloc_old h p r Hr).
      * lia.
    + apply IH.
Qed.

(** *** Facts about matched bars *)

Lemma matched_Some (moon_lookup : gmap Z MoonPhaseData.t)
    (x : option CryptoPriceData.t) (p : CombinedDataPoint.t) :
  matched moon_lookup x = Some p <->
  exists cp d mp, x = Some cp /\ CryptoPriceData.date cp = Some d
                  /\ moon_lookup !! date_of d = Some mp
                  /\ p = CombinedDataPoint.mk d (Some cp) (Some mp) None.
Proof.
  unfold matched. split.
  - destruct x as [cp |]; [| discriminate]. simpl.
    destruct (CryptoPriceData.date cp) as [d |] eqn:Hd; [| discriminate]. simpl.
    destruct (moon_lookup !! date_of d) as [mp |] eqn:Hmp; [| discriminate].
    simpl. intros [= <-]. exists cp, d, mp.
    repeat split; reflexivity || assumption.
  - intros (cp & d & mp & -> & Hd & Hmp & ->). simpl. rewrite Hd. simpl.
    rewrite Hmp. reflexivity.
Qed.

Lemma matched_day_in_both (moon_data : list (option MoonPhaseData.t))
    (crypto_data : list (option CryptoPriceData.t)) (p : CombinedDataPoint.t) :
  p ∈ omap (matched (build_moon_lookup moon_data)) crypto_data ->
  date_of (CombinedDataPoint.date p) ∈ crypto_days crypto_data
  /\ date_of (CombinedDataPoint.date p) ∈ moon_days moon_data.
Proof.
  intros Hp. apply list_elem_of_omap in Hp as (x & Hx & Hm).
  apply matched_Some in Hm as (cp & d & mp & -> & Hd & Hmp & ->). simpl.
  split.
  - unfold crypto_days. apply list_elem_of_omap. exists (Some cp).
    split; [exact Hx |]. simpl. rewrite Hd. reflexivity.
  - apply build_moon_lookup_keys. eauto.
Qed.

Lemma matched_kept (moon_data : list (option MoonPhaseData.t)) (t : datetime)
    (crypto_data : list (option CryptoPriceData.t)) :
  CombinedDataPoint.crypto_data
    <$> filter (fun p => CombinedDataPoint.date p = t)
          (omap (matched (build_moon_lookup moon_data)) crypto_data)
  = filter (fun x => kept_at moon_data t x) crypto_data.
Proof.
  induction crypto_data as [| x rest IH]; [reflexivity |].
  cbn [omap list_omap]. rewrite (filter_cons _ x).
  destruct (matched (build_moon_lookup moon_data) x) as [p |] eqn:Hm.
  - apply matched_Some in Hm as (cp & d & mp & -> & Hd & Hmp & ->).
    rewrite filter_cons. simpl. rewrite Hd.
    destruct (decide (d = t)) as [-> | Hne].
    + rewrite bool_decide_true by reflexivity.
      rewrite bool_decide_true by (apply build_moon_lookup_keys; eauto).
      rewrite fmap_cons, IH. reflexivity.
    + rewrite bool_decide_false by congruence. exact IH.
  - rewrite IH.
    destruct (decide (kept_at moon_data t x)) as [Hk |]; [| reflexivity].
    exfalso. unfold kept_at in Hk. destruct x as [cp |]; [| exact Hk].
    apply andb_prop_elim in Hk as [Hd Hk].
    apply bool_decide_unpack in Hd. apply bool_decide_unpack in Hk.
    apply build_moon_lookup_keys in Hk as [mp Hmp].
    assert (matched (build_moon_lookup moon_data) (Some cp)
            = Some (CombinedDataPoint.mk t (Some cp) (Some mp) None)) as Hm'.
    { apply matched_Some. exists cp, t, mp. repeat split; assumption. }
    congruence.
Qed.

Lemma matched_days_sublist (moon_lookup : gmap Z MoonPhaseData.t)
    (crypto_data : list (option CryptoPriceData.t)) :
  (fun p => date_of (CombinedDataPoint.date p))
    <$> omap (matched moon_lookup) crypto_data
  `sublist_of` crypto_days crypto_data.
Proof.
  unfold crypto_days.
  induction crypto_data as [| x rest IH]; [constructor |].
  cbn [omap list_omap].
  destruct (matched moon_lookup x) as [p |] eqn:Hm.
  - apply matched_Some in Hm as (cp & d & mp & -> & Hd & Hmp & ->).
    simpl. rewrite Hd. simpl. apply sublist_skip. exact IH.
  - destruct (_ ≫= _); [apply sublist_cons |]; exact IH.
Qed.

Lemma matched_count_moons (moon_data : list (option MoonPhaseData.t))
    (crypto_data : list (option CryptoPriceData.t)) :
  NoDup (crypto_days crypto_data) ->
  (length (omap (matched (build_moon_lookup moon_data)) crypto_data)
   <= length moon_data)%nat.
Proof.
  intros Hnd.
  set (points := omap (matched (build_moon_lookup moon_data)) crypto_data).
  set (days := (fun p => date_of (CombinedDataPoint.date p)) <$> points).
  assert (NoDup days) as Hdays.
  { eapply sublist_NoDup; [exact Hnd | apply matched_days_sublist]. }
  replace (length points) with (length days) by apply length_fmap.
  rewrite <- (size_list_to_set (C := gset Z) days Hdays).
  etransitivity; [| apply build_moon_lookup_size].
  rewrite <- (size_dom (D := gset Z)).
  apply subseteq_size. intros k Hk.
  apply elem_of_list_to_set in Hk. apply elem_of_dom.
  apply list_elem_of_fmap in Hk as (p & -> & Hp).
  apply build_moon_lookup_keys. eapply matched_day_in_both, Hp.
Qed.

(** With an empty input nothing is kept. *)
Lemma inner_join_nil (h : heap)
    (crypto_data : list (option CryptoPriceData.t))
    (moon_data : list (option MoonPhaseData.t)) :
  crypto_data = [] \/ moon_data = [] ->
  inner_join h crypto_data moon_data [].
Proof.
  intros Hor. split; [simpl; lia |]. split; [simpl; lia |].
  split; [intros r Hr; apply elem_of_nil in Hr; contradiction |].
  split; [constructor |].
  intros t. simpl. symmetry. destruct Hor as [-> | ->]; [reflexivity |].
  apply filter_none. intros x Hk. unfold kept_at in Hk.
  destruct x as [cp |]; [| exact Hk].
  apply andb_prop_elim in Hk as [_ Hk]. apply bool_decide_unpack in Hk.
  unfold moon_days in Hk. simpl in Hk. apply elem_of_nil in Hk. exact Hk.
Qed.

(** The sorted new objects of the matching loop. *)
Lemma inner_join_sorted (h : heap) (fresh : list loc)
    (crypto_data : list (option CryptoPriceData.t))
    (moon_data : list (option MoonPhaseData.t)) :
  deref h <$> fresh
  = omap (matched (build_moon_lookup moon_data)) crypto_data ->
  inner_join h crypto_data moon_data (sorted (date_key h) fresh).
Proof.
  intros Hpts.
  set (points := omap (matched (build_moon_lookup moon_data)) crypto_data)
    in *.
  assert (length (sorted (date_key h) fresh) = length points) as Hlen
    by (rewrite sorted_length, <- Hpts; symmetry; apply length_fmap).
  unfold inner_join. rewrite !Hlen.
  split; [apply length_omap_le |].
  split; [apply matched_count_moons |].
  split; [| split].
  - intros r Hr. rewrite sorted_perm in Hr.
    apply (matched_day_in_both moon_data crypto_data (deref h r)).
    fold points. rewrite <- Hpts. apply list_elem_of_fmap. eauto.
  - apply sorted_sorted.
  - intros t. rewrite sorted_stable by congruence.
    rewrite <- (matched_kept moon_data t crypto_data).
    fold points. rewrite <- Hpts.
    rewrite filter_fmap_comm, <- list_fmap_compose. reflexivity.
Qed.

(** C2, amended.  [combine_data] is an inner join on the calendar day: the
    result is never longer than the price list, and never longer than the
    moon list when no two dated price bars fall on the same day; the day of
    every result point is the day of a price bar and of a moon record; the
    result is in ascending order of the date attribute; and for every
    timestamp the result points that carry it hold, in arrival order,
    exactly the kept price bars that carry it. *)
Theorem combine_data_inner_join (h : heap) (self : DataProcessor.t)
    (crypto_data : list (option CryptoPriceData.t))
    (moon_data : list (option MoonPhaseData.t)) :
  exists (h' : heap) (self' : DataProcessor.t) (out : list loc),
    combine_data h self crypto_data moon_data = (h', self', out)
    /\ (length out <= length crypto_data)%nat
    /\ (NoDup (crypto_days crypto_data) ->
        (length out <= length moon_data)%nat)
    /\ (forall r, r ∈ out ->
          date_of (date_key h' r) ∈ crypto_days crypto_data
          /\ date_of (date_key h' r) ∈ moon_days moon_data)
    /\ date_sorted h' out
    /\ (forall t : datetime,
          (fun r => CombinedDataPoint.crypto_data (deref h' r))
            <$> filter (fun r => date_key h' r = t) out
          = filter (fun x => kept_at moon_data t x) crypto_data).
Proof.
  unfold combine_data.
  destruct crypto_data as [| x xs] eqn:Hcd.
  { exists h, self, []. split; [reflexivity |]. apply inner_join_nil. auto. }
  destruct moon_data as [| y ys] eqn:Hmd.
  { exists h, self, []. split; [reflexivity |]. apply inner_join_nil. auto. }
  rewrite <- Hcd, <- Hmd.
  destruct (combine_loop_spec (build_moon_lookup moon_data) crypto_data h [])
    as (h' & Hrun & Hpts & _ & _).
  rewrite Hrun. simpl app.
  eexists h', _, _. split; [reflexivity |].
  apply inner_join_sorted, Hpts.
Qed.

(** The points of the result are new objects, pairwise distinct. *)
Lemma combine_data_distinct (h : heap) (self : DataProcessor.t)
    (crypto_data : list (option CryptoPriceData.t))
    (moon_data : list (option MoonPhaseData.t)) :
  NoDup (combine_data h self crypto_data moon_data).2.
Proof.
  unfold combine_data.
  destruct crypto_data as [| x xs] eqn:Hcd; [apply NoDup_nil_2 |].
  destruct moon_data as [| y ys] eqn:Hmd; [apply NoDup_nil_2 |].
  rewrite <- Hcd, <- Hmd.
  destruct (combine_loop_spec (build_moon_lookup moon_data) crypto_data h [])
    as (h' & Hrun & _).
  rewrite Hrun. simpl. rewrite sorted_perm. apply NoDup_seq.
Qed.

(** C2, as stated, fails: two price bars of the same day against one moon
    record give two points, more than the shorter input has records. *)
Lemma combine_data_longer_than_moons :
  length (combine_data no_objects DataProcessor.init
                       two_bars_one_day one_moon).2 = 2%nat
  /\ Nat.min (length two_bars_one_day) (length one_moon) = 1%nat.
Proof. split; reflexivity. Qed.

Lemma combine_data_inner_join_witness :
  NoDup (crypto_days (tail two_bars_one_day))
  /\ exists (h' : heap) (self' : DataProcessor.t) (out : list loc),
       combine_data no_objects DataProcessor.init
                    (tail two_bars_one_day) one_moon = (h', self', out)
       /\ (length out <= length one_moon)%nat.
Proof.
  split; [vm_compute; apply NoDup_singleton |].
  destruct (combine_data_inner_join no_objects DataProcessor.init
              (tail two_bars_one_day) one_moon)
    as (h' & self' & out & Hrun & _ & Hmoons & _).
  exists h', self', out. split; [exact Hrun |].
  apply Hmoons. vm_compute. apply NoDup_singleton.
Defined.

End Combine.

(** ** Correlation analysis *)

Section Analysis.

Import CorrelationAnalyzer.

Lemma split_changes_spec (h : heap) (valid_data : list loc) :
  forall full_moon_changes normal_day_changes : list (option Q),
  Forall (fun r => is_Some (CombinedDataPoint.moon_data (deref h r)))
         valid_data ->
  split_changes h valid_data full_moon_changes normal_day_changes
  = Returned
      (full_moon_changes
         ++ price_changes h (filter (on_full_moon h) valid_data),
       normal_day_changes
         ++ price_changes h (filter (fun r => ~ on_full_moon h r) valid_data)).
Proof.
  induction valid_data as [| r rest IH]; intros fm nd Hall.
  - simpl. rewrite !app_nil_r. reflexivity.
  - apply Forall_cons in Hall as [[m Hm] Hall].
    simpl split_changes. rewrite Hm. rewrite !filter_cons.
    destruct (MoonPhaseData.is_full_moon m) eqn:Hfull.
    + rewrite IH by exact Hall.
      rewrite decide_True by (exists m; auto).
      rewrite decide_False by (intros Hn; apply Hn; exists m; auto).
      unfold price_changes. cbn [map]. rewrite <- app_assoc. reflexivity.
    + rewrite IH by exact Hall.
      assert (~ on_full_moon h r) as Hn
        by (intros (m' & Hm' & Hf); congruence).
      rewrite decide_False by exact Hn. rewrite decide_True by exact Hn.
      unfold price_changes. cbn [map]. rewrite <- app_assoc. reflexivity.
Qed.

Lemma analyze_correlation_returns (h : heap) (combined_data : list loc) :
  analyze_correlation h combined_data
  = Returned (analysis_of h combined_data).
Proof.
  unfold analyze_correlation, analysis_of.
  destruct combined_data as [| r l]; [reflexivity |].
  destruct (filter (is_valid h) (r :: l)) as [| v vs] eqn:Hvalid;
    [reflexivity |].
  rewrite split_changes_spec.
  - reflexivity.
  - rewrite <- Hvalid. apply Forall_forall. intros x Hx.
    apply list_elem_of_filter in Hx as [(_ & _ & Hm) _]. exact Hm.
Qed.

Lemma Qplus_swap (a b c : Q) : (a + (b + c))%Q = (b + (a + c))%Q.
Proof.
  destruct a as [an ad], b as [bn bd], c as [cn cd].
  unfold Qplus. cbn [Qnum Qden]. f_equal; [| lia].
  rewrite !Pos2Z.inj_mul. ring.
Qed.

Lemma exact_sum_perm (l l' : list (option Q)) :
  l ≡ₚ l' -> exact_sum l = exact_sum l'.
Proof.
  induction 1 as [| x l l' _ IH | x y l | l l' l'' _ IH1 _ IH2].
  - reflexivity.
  - simpl. rewrite IH. reflexivity.
  - simpl. destruct x as [qx |], y as [qy |], (exact_sum l) as [s |];
      try reflexivity.
    f_equal. apply Qplus_swap.
  - congruence.
Qed.

Lemma mean_perm (l l' : list (option Q)) : l ≡ₚ l' -> mean l = mean l'.
Proof.
  intros Hp. unfold mean, len.
  rewrite (exact_sum_perm l l' Hp), (Permutation_length Hp).
  destruct l as [| x l], l' as [| x' l']; try reflexivity; perm_nil_absurd Hp.
Qed.

Lemma _calculate_average_perm (l l' : list (option Q)) :
  l ≡ₚ l' -> _calculate_average l = _calculate_average l'.
Proof.
  intros Hp. unfold _calculate_average. rewrite (mean_perm l l' Hp).
  destruct l as [| x l], l' as [| x' l']; try reflexivity; perm_nil_absurd Hp.
Qed.

Lemma _calculate_average_empty (values : list (option Q)) :
  len values = 0 -> _calculate_average values = 0%Q.
Proof. destruct values; [reflexivity | unfold len; simpl; lia]. Qed.

Lemma len_perm {A : Type} (l l' : list A) : l ≡ₚ l' -> len l = len l'.
Proof. intros Hp. unfold len. rewrite (Permutation_length Hp). reflexivity. Qed.

Lemma price_changes_perm (h : heap) (l l' : list loc) :
  l ≡ₚ l' -> price_changes h l ≡ₚ price_changes h l'.
Proof. intros Hp. unfold price_changes. apply Permutation_map, Hp. Qed.

Lemma analysis_of_perm (h : heap) (l l' : list loc) :
  l ≡ₚ l' -> analysis_of h l = analysis_of h l'.
Proof.
  intros Hp. unfold analysis_of.
  assert (filter (is_valid h) l ≡ₚ filter (is_valid h) l') as Hv
    by (rewrite Hp; reflexivity).
  set (v := filter (is_valid h) l) in *.
  set (v' := filter (is_valid h) l') in *.
  assert (filter (on_full_moon h) v ≡ₚ filter (on_full_moon h) v') as Hf
    by (rewrite Hv; reflexivity).
  assert (filter (fun r => ~ on_full_moon h r) v
          ≡ₚ filter (fun r => ~ on_full_moon h r) v') as Hn
    by (rewrite Hv; reflexivity).
  apply (price_changes_perm h) in Hf, Hn.
  rewrite (_calculate_average_perm _ _ Hf), (_calculate_average_perm _ _ Hn).
  rewrite (len_perm _ _ Hf), (len_perm _ _ Hn), (len_perm _ _ Hv),
    (len_perm _ _ Hp).
  destruct l as [| x l], l' as [| x' l'];
    try reflexivity; try perm_nil_absurd Hp.
  destruct v as [| y v], v' as [| y' v'];
    try reflexivity; perm_nil_absurd Hv.
Qed.

(** C8.  The analysis of a permutation of a sequence equals the analysis
    of the sequence: same averages, same bucket counts, same total. *)
Theorem analyze_correlation_permutation (h : heap) (l l' : list loc) :
  l ≡ₚ l' -> analyze_correlation h l = analyze_correlation h l'.
Proof.
  intros Hp. rewrite !analyze_correlation_returns.
  f_equal. apply analysis_of_perm, Hp.
Qed.

Lemma analyze_correlation_permutation_witness :
  [0; 1; 2]%nat ≡ₚ [2; 0; 1]%nat
  /\ analyze_correlation three_days_annotated [0; 1; 2]%nat
     = analyze_correlation three_days_annotated [2; 0; 1]%nat.
Proof.
  assert ([0; 1; 2]%nat ≡ₚ [2; 0; 1]%nat) as Hp
    by apply (Permutation_app_comm [0; 1]%nat [2]%nat).
  split; [exact Hp |].
  apply (analyze_correlation_permutation three_days_annotated _ _ Hp).
Defined.

Lemma bucket_partition (h : heap) (valid_data : list loc) :
  len (price_changes h (filter (on_full_moon h) valid_data))
  + len (price_changes h (filter (fun r => ~ on_full_moon h r) valid_data))
  = len valid_data.
Proof.
  unfold len, price_changes. rewrite !length_map.
  rewrite <- Nat2Z.inj_add, <- length_app.
  rewrite (Permutation_length (filter_app_complement _ valid_data)).
  reflexivity.
Qed.

(** With at least one point that has a change, the two buckets partition
    the points that have one. *)
Lemma analyze_correlation_partition (h : heap) (combined_data : list loc) :
  filter (is_valid h) combined_data <> [] ->
  exists res,
    analyze_correlation h combined_data = Returned res
    /\ AnalysisResults.full_moon_count res
       + AnalysisResults.normal_day_count res
       = AnalysisResults.total_data_points res
    /\ AnalysisResults.total_data_points res
       = len (filter (is_valid h) combined_data).
Proof.
  intros Hne. rewrite analyze_correlation_returns.
  eexists. split; [reflexivity |].
  unfold analysis_of.
  destruct combined_data as [| r l]; [contradiction Hne; reflexivity |].
  destruct (filter (is_valid h) (r :: l)) as [| v vs] eqn:Hv;
    [contradiction Hne; reflexivity |].
  cbn [AnalysisResults.full_moon_count AnalysisResults.normal_day_count
       AnalysisResults.total_data_points].
  split; [apply bucket_partition | reflexivity].
Qed.

(** With points but none that has a change, the total is the number of all
    points while both buckets are empty (lines 82-90). *)
Lemma analyze_correlation_no_valid (h : heap) (combined_data : list loc) :
  combined_data <> [] ->
  filter (is_valid h) combined_data = [] ->
  analyze_correlation h combined_data
  = Returned (AnalysisResults.mk 0 0 0 0 (len combined_data)).
Proof.
  intros Hne Hv. rewrite analyze_correlation_returns. f_equal.
  unfold analysis_of. cbv zeta.
  destruct combined_data as [| r l]; [contradiction |].
  rewrite Hv. reflexivity.
Qed.

(** C4.  The partition invariant fails on a sequence whose points all lack
    a change.  The price-change pass leaves the only point of a one-day
    sequence without a change; the analysis of that result puts no point in
    either bucket and reports a total of 1, the number of points given, not
    the number of points with a change, which is 0. *)
Theorem analyze_correlation_total_counts_unset_points :
  exists (h' : heap) (self' : DataProcessor.t) (res : AnalysisResults.t),
    DataProcessor.calculate_price_changes three_days DataProcessor.init
                                          (Some [0]%nat)
    = (h', self', Returned [0]%nat)
    /\ analyze_correlation h' [0]%nat = Returned res
    /\ AnalysisResults.full_moon_count res = 0
    /\ AnalysisResults.normal_day_count res = 0
    /\ AnalysisResults.total_data_points res = 1
    /\ len (filter (is_valid h') [0]%nat) = 0.
Proof. eexists _, _, _. repeat split. Qed.

(** C6.  The analysis of the empty sequence returns the all-zero result;
    the average of no values is 0; and every analysis returns a result in
    which an empty bucket has average 0. *)
Theorem analyze_correlation_zero_safe :
  (forall h, analyze_correlation h [] = Returned (AnalysisResults.mk 0 0 0 0 0))
  /\ _calculate_average [] = 0%Q
  /\ (forall h combined_data, exists res,
        analyze_correlation h combined_data = Returned res
        /\ (AnalysisResults.full_moon_count res = 0 ->
            AnalysisResults.full_moon_avg_change res = 0%Q)
        /\ (AnalysisResults.normal_day_count res = 0 ->
            AnalysisResults.normal_day_avg_change res = 0%Q)).
Proof.
  split; [reflexivity |]. split; [reflexivity |].
  intros h combined_data. rewrite analyze_correlation_returns.
  eexists. split; [reflexivity |]. unfold analysis_of.
  destruct combined_data as [| r l]; [split; reflexivity |].
  destruct (filter (is_valid h) (r :: l)) as [| v vs];
    [split; reflexivity |].
  cbn [AnalysisResults.full_moon_count AnalysisResults.normal_day_count
       AnalysisResults.full_moon_avg_change
       AnalysisResults.normal_day_avg_change].
  split; apply _calculate_average_empty.
Qed.

Lemma analyze_correlation_zero_safe_witness :
  exists res,
    analyze_correlation three_days [0; 1; 2]%nat = Returned res
    /\ AnalysisResults.full_moon_avg_change res = 0%Q
    /\ AnalysisResults.normal_day_avg_change res = 0%Q.
Proof.
  destruct analyze_correlation_zero_safe as (_ & _ & Hall).
  destruct (Hall three_days [0; 1; 2]%nat) as (res & Hrun & Hfull & Hnormal).
  exists res. split; [exact Hrun |].
  injection Hrun as <-. split; [apply Hfull | apply Hnormal]; reflexivity.
Defined.

(** The scenario of three days: the full-moon bucket holds the +5 of the
    second day, the normal bucket the change of the third. *)
Example analyze_three_days :
  analyze_correlation three_days_annotated [0; 1; 2]%nat
  = Returned (AnalysisResults.mk (5 / 1) ((-1000 # 105) / 1) 1 1 2).
Proof. reflexivity. Qed.

(** The three days from the price bars to the analysis. *)
Example three_days_pipeline :
  let prices := [Some (bar (january 2) 105); Some (bar (january 1) 100);
                 Some (bar (january 3) 95); None] in
  let moons := [Some (moon (january 1) 10); Some (moon (january 2) 99);
                Some (moon (january 3) 20)] in
  let '(h1, self1, combined) :=
    DataProcessor.combine_data no_objects DataProcessor.init prices moons in
  let '(h2, self2, annotated) :=
    DataProcessor.calculate_price_changes h1 self1 None in
  combined = [1; 0; 2]%nat
  /\ annotated = Returned [1; 0; 2]%nat
  /\ price_changes h2 [1; 0; 2]%nat
     = [None; Some ((105 - 100) / 100 * 100)%Q;
        Some ((95 - 105) / 105 * 100)%Q]
  /\ analyze_correlation h2 [1; 0; 2]%nat
     = Returned (AnalysisResults.mk (((105 - 100) / 100 * 100 + 0) / 1)
                                    (((95 - 105) / 105 * 100 + 0) / 1)
                                    1 1 2).
Proof. repeat split. Qed.

End Analysis.

(** ** The moon calculator on a batch of dates *)

Section MoonBatch.

Import MoonPhaseCalculator.

(** The position computed by the code lies in [0, 1). *)
Lemma code_cycle_position_bounds (d : datetime) :
  (0 <= cycle_position_of (cycles_elapsed_at d) < 1)%Q.
Proof. apply (frac_bounds (cycles_elapsed_at d)). Qed.

Lemma phase_at_range (d : datetime) : (0 <= phase_at d <= 100)%Q.
Proof. apply py_clamp_range. Qed.

Lemma phase_at_code_triangular (d : datetime) :
  (phase_at d
   == MoonSpec.triangular (cycle_position_of (cycles_elapsed_at d)))%Q.
Proof.
  unfold phase_at, phase_of_position.
  fold (MoonSpec.triangular (cycle_position_of (cycles_elapsed_at d))).
  apply py_clamp_id, triangular_range, code_cycle_position_bounds.
Qed.

Lemma is_full_moon_phase_at_iff (d : datetime) :
  MoonPhaseData.is_full_moon (MoonPhaseData.mk (Some d) (phase_at d)) = true
  <-> (49 # 100 < cycle_position_of (cycles_elapsed_at d) < 51 # 100)%Q.
Proof.
  unfold MoonPhaseData.is_full_moon. cbn [MoonPhaseData.phase_percentage].
  rewrite Qlt_bool_iff.
  pose proof (phase_at_code_triangular d) as Hp.
  pose proof (code_cycle_position_bounds d) as Hcp.
  revert Hp Hcp. generalize (phase_at d).
  generalize (cycle_position_of (cycles_elapsed_at d)).
  intros cp p Hp Hcp. unfold MoonSpec.triangular in Hp.
  destruct (Qle_bool cp (1 # 2)) eqn:E.
  - apply Qle_bool_iff in E. split; intros; [split |]; lra.
  - apply Qle_bool_false in E. split; intros; [split |]; lra.
Qed.

(** X1.  Every date gets a moon record that carries the date.  The record
    counts as a full moon when the cycle position of the date is within
    0.0099 of the half cycle, and only when it is within 0.0101 of it. *)
Theorem full_moon_window (d : datetime) :
  let cycle_position := cycle_position_of (cycles_elapsed_at d) in
  exists m : MoonPhaseData.t,
    calculate_moon_phase (Some d) = Returned (Some m)
    /\ MoonPhaseData.date m = Some d
    /\ ((4901 # 10000 <= cycle_position <= 5099 # 10000)%Q ->
        MoonPhaseData.is_full_moon m = true)
    /\ (MoonPhaseData.is_full_moon m = true ->
        (4899 # 10000 < cycle_position < 5101 # 10000)%Q).
Proof.
  cbv zeta. eexists. split; [apply calculate_moon_phase_some |].
  split; [reflexivity |].
  pose proof (is_full_moon_phase_at_iff d) as Hiff.
  split.
  - intros Hin. apply Hiff. lra.
  - intros Hfull. apply Hiff in Hfull. lra.
Qed.

Lemma full_moon_window_witness :
  exists m : MoonPhaseData.t,
    calculate_moon_phase
      (Some (datetime_add NEW_MOON_REFERENCE (timedelta_days (1476 # 100))))
    = Returned (Some m)
    /\ MoonPhaseData.is_full_moon m = true.
Proof.
  destruct (full_moon_window
              (datetime_add NEW_MOON_REFERENCE (timedelta_days (1476 # 100))))
    as (m & Hm & _ & Hinside & _).
  exists m. split; [exact Hm |]. apply Hinside.
  split; apply Qle_bool_imp_le; vm_compute; reflexivity.
Defined.

(** X2.  The percentage is the same at equal distances before and after the
    half cycle. *)
Theorem phase_of_position_symmetric (cp : Q) :
  (0 <= cp <= 1)%Q ->
  (phase_of_position (1 - cp) == phase_of_position cp)%Q.
Proof.
  intros Hcp.
  assert (forall x, (0 <= x <= 1)%Q ->
            (phase_of_position x == MoonSpec.triangular x)%Q
            /\ (MoonSpec.triangular x
                == if Qle_bool x (1 # 2) then x * 200 else (1 - x) * 200)%Q)
    as Htri.
  { intros x Hx. split; [| reflexivity].
    unfold phase_of_position. fold (MoonSpec.triangular x).
    apply py_clamp_id. unfold MoonSpec.triangular.
    destruct (Qle_bool x (1 # 2)) eqn:E;
      [apply Qle_bool_iff in E | apply Qle_bool_false in E]; lra. }
  destruct (Htri cp Hcp) as [H1 H2].
  destruct (Htri (1 - cp)%Q ltac:(lra)) as [H3 H4].
  rewrite H1, H3, H2, H4.
  destruct (Qle_bool cp (1 # 2)) eqn:E1, (Qle_bool (1 - cp) (1 # 2)) eqn:E2;
    try apply Qle_bool_iff in E1; try apply Qle_bool_iff in E2;
    try apply Qle_bool_false in E1; try apply Qle_bool_false in E2; lra.
Qed.

Lemma phase_of_position_symmetric_witness :
  (phase_of_position (1 - (1 # 4)) == phase_of_position (1 # 4))%Q.
Proof.
  apply (phase_of_position_symmetric (1 # 4)).
  split; apply Qle_bool_imp_le; reflexivity.
Defined.

(** *** The batch *)

Lemma calculate_moon_phases_for_dates_spec (dates : list (option datetime)) :
  calculate_moon_phases_for_dates dates
  = (fun d => MoonPhaseData.mk (Some d) (phase_at d)) <$> omap id dates.
Proof.
  induction dates as [| d rest IH]; [reflexivity |].
  destruct d as [d |].
  - cbn [omap list_omap id]. rewrite fmap_cons, <- IH. reflexivity.
  - cbn [omap list_omap id]. rewrite <- IH. reflexivity.
Qed.

Lemma validate_phase_at (d : datetime) :
  validate_moon_phase_data (Some (MoonPhaseData.mk (Some d) (phase_at d)))
  = true.
Proof.
  unfold validate_moon_phase_data.
  cbn [MoonPhaseData.date MoonPhaseData.phase_percentage].
  pose proof (phase_at_range d) as [H0 H1].
  destruct (Qlt_bool (phase_at d) 0) eqn:E0.
  { apply Qlt_bool_iff in E0. lra. }
  destruct (Qlt_bool 100 (phase_at d)) eqn:E1.
  { apply Qlt_bool_iff in E1. lra. }
  reflexivity.
Qed.

(** X3.  The batch keeps the dates that are not [None], in the order given,
    and every record it returns has a percentage between 0 and 100 and is
    accepted by the validator. *)
Theorem calculate_moon_phases_for_dates_dates (dates : list (option datetime)) :
  MoonPhaseData.date <$> calculate_moon_phases_for_dates dates
  = filter is_Some dates
  /\ Forall (fun m => (0 <= MoonPhaseData.phase_percentage m <= 100)%Q
                      /\ validate_moon_phase_data (Some m) = true)
            (calculate_moon_phases_for_dates dates).
Proof.
  rewrite calculate_moon_phases_for_dates_spec. split.
  - induction dates as [| d rest IH]; [reflexivity |].
    rewrite filter_cons. destruct d as [d |]; cbn [omap list_omap id].
    + rewrite decide_True by eauto. rewrite fmap_cons, fmap_cons, IH.
      reflexivity.
    + rewrite decide_False by (intros [? ?]; discriminate). exact IH.
  - apply Forall_fmap, Forall_forall. intros d _. simpl. split.
    + apply phase_at_range.
    + apply validate_phase_at.
Qed.

(** X4.  The validator accepts exactly the records with a date and a
    percentage between 0 and 100. *)
Theorem validate_moon_phase_data_iff (phase_data : option MoonPhaseData.t) :
  validate_moon_phase_data phase_data = true
  <-> exists m, phase_data = Some m
                /\ is_Some (MoonPhaseData.date m)
                /\ (0 <= MoonPhaseData.phase_percentage m <= 100)%Q.
Proof.
  unfold validate_moon_phase_data. split.
  - destruct phase_data as [m |]; [| discriminate].
    destruct (MoonPhaseData.date m) as [d |] eqn:Hd; [| discriminate].
    destruct (Qlt_bool (MoonPhaseData.phase_percentage m) 0) eqn:E0;
      [discriminate |].
    destruct (Qlt_bool 100 (MoonPhaseData.phase_percentage m)) eqn:E1;
      [discriminate |].
    intros _. exists m. split; [reflexivity |]. split; [rewrite Hd; eauto |].
    split; apply Qnot_lt_le; intros H; apply Qlt_bool_iff in H; congruence.
  - intros (m & -> & [d Hd] & H0 & H1). rewrite Hd.
    destruct (Qlt_bool (MoonPhaseData.phase_percentage m) 0) eqn:E0.
    { apply Qlt_bool_iff in E0. lra. }
    destruct (Qlt_bool 100 (MoonPhaseData.phase_percentage m)) eqn:E1.
    { apply Qlt_bool_iff in E1. lra. }
    reflexivity.
Qed.

(** *** Normalisation of a percentage *)

(** X5.  Normalising gives a percentage between 0 and 100 and is idempotent;
    it keeps a finite value that is in range, sends a finite value below 0
    to 0 and one above 100 to 100, and answers 0 for [None], NaN and both
    infinities. *)
Theorem normalize_phase_percentage_clamps (raw : option py_float) :
  (0 <= normalize_phase_percentage raw <= 100)%Q
  /\ normalize_phase_percentage
       (Some (Finite (normalize_phase_percentage raw)))
     = normalize_phase_percentage raw
  /\ (forall x, raw = Some (Finite x) -> (0 <= x <= 100)%Q ->
        (normalize_phase_percentage raw == x)%Q)
  /\ (forall x, raw = Some (Finite x) -> (x < 0)%Q ->
        normalize_phase_percentage raw = 0%Q)
  /\ (forall x, raw = Some (Finite x) -> (100 < x)%Q ->
        normalize_phase_percentage raw = 100%Q)
  /\ (raw = None \/ raw = Some NaN \/ (exists b, raw = Some (Infinity b)) ->
      normalize_phase_percentage raw = 0%Q).
Proof.
  split; [| split; [| split; [| split; [| split]]]].
  - destruct raw as [[x | b |] |]; try (simpl; lra). apply py_clamp_range.
  - destruct raw as [[x | b |] |]; try reflexivity.
    unfold normalize_phase_percentage, py_max, py_min.
    destruct (Qlt_bool x 100) eqn:E1.
    + destruct (Qlt_bool 0 x) eqn:E2.
      * rewrite E1, E2. reflexivity.
      * reflexivity.
    + reflexivity.
  - intros x -> Hx. apply py_clamp_id, Hx.
  - intros x -> Hx. unfold normalize_phase_percentage, py_max, py_min.
    assert (Qlt_bool x 100 = true) as -> by (apply Qlt_bool_iff; lra).
    destruct (Qlt_bool 0 x) eqn:E;
      [apply Qlt_bool_iff in E; lra | reflexivity].
  - intros x -> Hx. unfold normalize_phase_percentage, py_max, py_min.
    destruct (Qlt_bool x 100) eqn:E;
      [apply Qlt_bool_iff in E; lra | reflexivity].
  - intros [-> | [-> | [b ->]]]; reflexivity.
Qed.

Lemma normalize_phase_percentage_clamps_witness :
  normalize_phase_percentage (Some (Finite 150)) = 100%Q
  /\ normalize_phase_percentage (Some (Infinity false)) = 0%Q.
Proof.
  destruct (normalize_phase_percentage_clamps (Some (Finite 150)))
    as (_ & _ & _ & _ & Habove & _).
  split; [apply (Habove 150%Q); reflexivity |].
  apply (normalize_phase_percentage_clamps (Some (Infinity false))).
  right. right. exists false. reflexivity.
Defined.

(** *** The full moons of a batch *)

Lemma calculate_moon_phases_for_dates_keeps (dates : list (option datetime)) :
  MoonPhaseData.date <$> calculate_moon_phases_for_dates dates
  = filter is_Some dates.
Proof.
  rewrite calculate_moon_phases_for_dates_spec.
  induction dates as [| d rest IH]; [reflexivity |].
  rewrite filter_cons. destruct d as [d |]; cbn [omap list_omap id].
  - rewrite decide_True by eauto. rewrite fmap_cons, fmap_cons, IH.
    reflexivity.
  - rewrite decide_False by (intros [? ?]; discriminate). exact IH.
Qed.

Lemma List_filter_sublist {A : Type} (f : A -> bool) (l : list A) :
  sublist (List.filter f l) l.
Proof.
  induction l as [| x l IH]; [constructor |].
  simpl. destruct (f x); [apply sublist_skip | apply sublist_cons]; exact IH.
Qed.

Lemma List_filter_idempotent {A : Type} (f : A -> bool) (l : list A) :
  List.filter f (List.filter f l) = List.filter f l.
Proof.
  induction l as [| x l IH]; [reflexivity |].
  simpl. destruct (f x) eqn:E; [| exact IH].
  simpl. rewrite E, IH. reflexivity.
Qed.

(** A record of the batch is found exactly when its date is in the batch
    and its position is strictly between 0.49 and 0.51. *)
Lemma find_full_moon_dates_elem (dates : list (option datetime))
    (m : MoonPhaseData.t) :
  m ∈ find_full_moon_dates (calculate_moon_phases_for_dates dates)
  <-> exists d, m = MoonPhaseData.mk (Some d) (phase_at d)
                /\ Some d ∈ dates
                /\ (49 # 100 < cycle_position_of (cycles_elapsed_at d)
                    < 51 # 100)%Q.
Proof.
  unfold find_full_moon_dates.
  rewrite list_elem_of_In, filter_In, <- list_elem_of_In.
  rewrite calculate_moon_phases_for_dates_spec, list_elem_of_fmap.
  split.
  - intros [(d & -> & Hd) Hfull].
    apply list_elem_of_omap in Hd as (x & Hx & Hid).
    simpl in Hid. subst x.
    exists d. split; [reflexivity |]. split; [exact Hx |].
    apply is_full_moon_phase_at_iff, Hfull.
  - intros (d & -> & Hd & Hwin). split.
    + exists d. split; [reflexivity |].
      apply list_elem_of_omap. exists (Some d). split; [exact Hd | reflexivity].
    + apply is_full_moon_phase_at_iff, Hwin.
Qed.

(** X6.  The full moons found in a batch are records of the batch, in the
    order given, each with a percentage above 98 and accepted by the
    validator; searching them again finds them all.  A date of the batch
    is found when its cycle position is within 0.0099 of the half cycle,
    and only when it is within 0.0101 of it. *)
Theorem find_full_moon_dates_of_batch (dates : list (option datetime)) :
  let found :=
    find_full_moon_dates (calculate_moon_phases_for_dates dates) in
  sublist found (calculate_moon_phases_for_dates dates)
  /\ sublist (MoonPhaseData.date <$> found) (filter is_Some dates)
  /\ Forall (fun m => (98 < MoonPhaseData.phase_percentage m <= 100)%Q
                      /\ validate_moon_phase_data (Some m) = true) found
  /\ find_full_moon_dates found = found
  /\ (forall d, Some d ∈ dates ->
        (4901 # 10000 <= cycle_position_of (cycles_elapsed_at d)
         <= 5099 # 10000)%Q ->
        Some d ∈ MoonPhaseData.date <$> found)
  /\ (forall d, Some d ∈ MoonPhaseData.date <$> found ->
        Some d ∈ dates
        /\ (4899 # 10000 < cycle_position_of (cycles_elapsed_at d)
            < 5101 # 10000)%Q).
Proof.
  cbv zeta.
  split; [apply List_filter_sublist |].
  split.
  { rewrite <- calculate_moon_phases_for_dates_keeps.
    apply fmap_sublist, List_filter_sublist. }
  split.
  { apply Forall_forall. intros m Hm.
    apply find_full_moon_dates_elem in Hm as (d & -> & _ & Hwin).
    pose proof (proj2 (is_full_moon_phase_at_iff d) Hwin) as Hfull.
    unfold MoonPhaseData.is_full_moon in Hfull.
    apply Qlt_bool_iff in Hfull. simpl in Hfull |- *.
    pose proof (phase_at_range d) as [_ Hhi].
    split; [split; [exact Hfull | exact Hhi] | apply validate_phase_at]. }
  split; [apply List_filter_idempotent |].
  split.
  - intros d Hd Hwin. apply list_elem_of_fmap.
    exists (MoonPhaseData.mk (Some d) (phase_at d)).
    split; [reflexivity |]. apply find_full_moon_dates_elem.
    exists d. split; [reflexivity |]. split; [exact Hd | lra].
  - intros d Hd. apply list_elem_of_fmap in Hd as (m & Hdate & Hm).
    apply find_full_moon_dates_elem in Hm as (d' & -> & Hd' & Hwin).
    simpl in Hdate. injection Hdate as ->.
    split; [exact Hd' | lra].
Qed.

Lemma find_full_moon_dates_of_batch_witness :
  Some (datetime_add NEW_MOON_REFERENCE (timedelta_days (1476 # 100)))
  ∈ MoonPhaseData.date
      <$> find_full_moon_dates
            (calculate_moon_phases_for_dates
               [Some (january 1); None;
                Some (datetime_add NEW_MOON_REFERENCE
                        (timedelta_days (1476 # 100)))]).
Proof.
  destruct (find_full_moon_dates_of_batch
              [Some (january 1); None;
               Some (datetime_add NEW_MOON_REFERENCE
                       (timedelta_days (1476 # 100)))])
    as (_ & _ & _ & _ & Hinside & _).
  apply Hinside.
  - apply list_elem_of_lookup. exists 2%nat. reflexivity.
  - split; apply Qle_bool_imp_le; vm_compute; reflexivity.
Defined.

End MoonBatch.

(** ** Price bars: validation and normalisation *)

Section Client.

Import CryptoDataClient.

Lemma price_range_positive (crypto_name : string) :
  (0 < (price_range crypto_name).1)%Q.
Proof.
  unfold price_range, price_ranges.
  destruct (decide (crypto_name = "Solana")) as [-> | H1]; [reflexivity |].
  rewrite lookup_insert_ne by congruence.
  destruct (decide (crypto_name = "Ethereum")) as [-> | H2]; [reflexivity |].
  rewrite lookup_insert_ne by congruence.
  destruct (decide (crypto_name = "Bitcoin")) as [-> | H3]; [reflexivity |].
  rewrite lookup_insert_ne by congruence.
  rewrite lookup_empty. reflexivity.
Qed.

Lemma Qle_bool_true_false (x y : Q) (b : bool) :
  Qle_bool x y = b -> if b then (x <= y)%Q else (y < x)%Q.
Proof.
  intros <-. destruct (Qle_bool x y) eqn:E;
    [apply Qle_bool_iff | apply Qle_bool_false]; exact E.
Qed.

Lemma Qlt_bool_true_false (x y : Q) (b : bool) :
  Qlt_bool x y = b -> if b then (x < y)%Q else (y <= x)%Q.
Proof.
  intros <-. destruct (Qlt_bool x y) eqn:E.
  - apply Qlt_bool_iff. exact E.
  - apply Qnot_lt_le. intros H. apply Qlt_bool_iff in H. congruence.
Qed.

Lemma _validate_price_data_facts (data : CryptoPriceData.t)
    (crypto_name : string) :
  _validate_price_data data crypto_name = true ->
  is_Some (CryptoPriceData.date data)
  /\ (0 < CryptoPriceData.low_price data)%Q
  /\ (CryptoPriceData.low_price data <= CryptoPriceData.open_price data
      <= CryptoPriceData.high_price data)%Q
  /\ (CryptoPriceData.low_price data <= CryptoPriceData.close_price data
      <= CryptoPriceData.high_price data)%Q
  /\ (0 <= CryptoPriceData.volume data)%Q
  /\ ((price_range crypto_name).1 <= CryptoPriceData.low_price data)%Q
  /\ (CryptoPriceData.high_price data <= (price_range crypto_name).2)%Q.
Proof.
  unfold _validate_price_data.
  destruct (CryptoPriceData.date data) as [d |]; [| discriminate].
  destruct data as [dt o hi lo c v sym]; cbn [CryptoPriceData.open_price
    CryptoPriceData.high_price CryptoPriceData.low_price
    CryptoPriceData.close_price CryptoPriceData.volume].
  destruct (price_range crypto_name) as [mn mx]. cbn [fst snd existsb].
  rewrite !orb_false_r.
  repeat match goal with
         | |- context [Qle_bool ?x ?y] =>
             let E := fresh "E" in
             destruct (Qle_bool x y) eqn:E;
             apply Qle_bool_true_false in E; cbn [orb andb negb]
         | |- context [Qlt_bool ?x ?y] =>
             let E := fresh "E" in
             destruct (Qlt_bool x y) eqn:E;
             apply Qlt_bool_true_false in E; cbn [orb andb negb]
         end; try discriminate.
  intros _. split; [eauto |]. repeat split; lra.
Qed.

(** X7.  An accepted bar has a date, a positive low, open and close between
    low and high, a volume that is not negative, and low and high inside the
    price range of its currency. *)
Theorem validate_price_data_sound (data : CryptoPriceData.t)
    (crypto_name : string) :
  _validate_price_data data crypto_name = true ->
  is_Some (CryptoPriceData.date data)
  /\ (0 < CryptoPriceData.low_price data)%Q
  /\ (CryptoPriceData.low_price data <= CryptoPriceData.open_price data
      <= CryptoPriceData.high_price data)%Q
  /\ (CryptoPriceData.low_price data <= CryptoPriceData.close_price data
      <= CryptoPriceData.high_price data)%Q
  /\ (0 <= CryptoPriceData.volume data)%Q
  /\ ((price_range crypto_name).1 <= CryptoPriceData.low_price data)%Q
  /\ (CryptoPriceData.high_price data <= (price_range crypto_name).2)%Q.
Proof. apply _validate_price_data_facts. Qed.

Lemma validate_price_data_sound_witness :
  _validate_price_data btc_bar "Bitcoin" = true
  /\ (0 < CryptoPriceData.low_price btc_bar)%Q
  /\ (CryptoPriceData.low_price btc_bar <= CryptoPriceData.close_price btc_bar
      <= CryptoPriceData.high_price btc_bar)%Q.
Proof.
  assert (_validate_price_data btc_bar "Bitcoin" = true) as Hok
    by (vm_compute; reflexivity).
  split; [exact Hok |].
  destruct (validate_price_data_sound btc_bar "Bitcoin" Hok)
    as (_ & Hlow & _ & Hclose & _).
  split; assumption.
Defined.

(** *** Normalisation *)

Lemma dedupe_loop_spec (data_list : list CryptoPriceData.t) :
  forall (seen : gset Z) (acc : list CryptoPriceData.t),
  Forall (fun x => is_Some (CryptoPriceData.date x)) data_list ->
  exists kept : list CryptoPriceData.t,
    dedupe_loop data_list seen acc = Returned (acc ++ kept)
    /\ sublist kept data_list
    /\ NoDup (bar_day <$> kept)
    /\ (forall k, k ∈ bar_day <$> kept
                  <-> (k ∉ seen) /\ (k ∈ bar_day <$> data_list)).
Proof.
  induction data_list as [| x rest IH]; intros seen acc Hall.
  - exists []. simpl. rewrite app_nil_r. split; [reflexivity |].
    split; [constructor |]. split; [constructor |].
    intros k. rewrite elem_of_nil. tauto.
  - apply Forall_cons in Hall as [[d Hd] Hall].
    simpl dedupe_loop. rewrite Hd.
    assert (bar_day x = date_of d) as Hday
      by (unfold bar_day, bar_date; rewrite Hd; reflexivity).
    destruct (decide (date_of d ∈ seen)) as [Hin | Hnin].
    + destruct (IH seen acc Hall) as (kept & Hrun & Hsub & Hnd & Hk).
      exists kept. split; [exact Hrun |].
      split; [apply sublist_cons, Hsub |]. split; [exact Hnd |].
      intros k. rewrite Hk, fmap_cons, elem_of_cons, Hday.
      split; [tauto |]. intros [Hns [-> | Hr]]; [contradiction | tauto].
    + destruct (IH ({[date_of d]} ∪ seen) (acc ++ [x]) Hall)
        as (kept & Hrun & Hsub & Hnd & Hk).
      exists (x :: kept). split; [rewrite Hrun, <- app_assoc; reflexivity |].
      split; [apply sublist_skip, Hsub |]. split.
      * rewrite fmap_cons. apply NoDup_cons. split; [| exact Hnd].
        rewrite Hk, Hday, elem_of_union, elem_of_singleton. tauto.
      * intros k.
        rewrite !fmap_cons, !elem_of_cons, Hk, Hday, elem_of_union,
          elem_of_singleton.
        destruct (decide (k = date_of d)) as [-> | Hne]; tauto.
Qed.

Lemma dedupe_loop_raises (data_list : list CryptoPriceData.t) :
  forall (seen : gset Z) (acc : list CryptoPriceData.t),
  ~ Forall (fun x => is_Some (CryptoPriceData.date x)) data_list ->
  dedupe_loop data_list seen acc = Raised AttributeError.
Proof.
  induction data_list as [| x rest IH]; intros seen acc Hnot.
  - exfalso. apply Hnot. constructor.
  - simpl. destruct (CryptoPriceData.date x) as [d |] eqn:Hd; [| reflexivity].
    assert (~ Forall (fun x => is_Some (CryptoPriceData.date x)) rest) as Hr.
    { intros Hr. apply Hnot. constructor; [rewrite Hd; eauto | exact Hr]. }
    destruct (decide (date_of d ∈ seen)); apply IH, Hr.
Qed.

Lemma dedupe_loop_dated (data_list : list CryptoPriceData.t) :
  forall (seen : gset Z) (acc out : list CryptoPriceData.t),
  dedupe_loop data_list seen acc = Returned out ->
  Forall (fun x => is_Some (CryptoPriceData.date x)) data_list.
Proof.
  intros seen acc out Hrun.
  destruct (decide (Forall (fun x => is_Some (CryptoPriceData.date x))
                           data_list)) as [H | H]; [exact H |].
  rewrite dedupe_loop_raises in Hrun by exact H. discriminate.
Qed.

(** What every returned list satisfies. *)
Lemma normalize_data_facts (data_list out : list CryptoPriceData.t) :
  normalize_data data_list = Returned out ->
  Forall (fun x => is_Some (CryptoPriceData.date x)) out
  /\ NoDup (bar_day <$> out)
  /\ StronglySorted (key_le bar_date) out.
Proof.
  unfold normalize_data. intros Hrun.
  destruct data_list as [| x rest] eqn:Hdl.
  { injection Hrun as <-. repeat split; constructor. }
  rewrite <- Hdl in *. clear Hdl.
  destruct (dedupe_loop data_list ∅ []) as [kept |] eqn:Hloop;
    [| discriminate].
  pose proof (dedupe_loop_dated _ _ _ _ Hloop) as Hall.
  destruct (dedupe_loop_spec data_list ∅ [] Hall)
    as (kept' & Hrun' & Hsub & Hnd & _).
  rewrite Hloop in Hrun'. injection Hrun' as ->. simpl in Hrun.
  injection Hrun as <-.
  assert (sorted bar_date kept' ≡ₚ kept') as Hp by apply sorted_perm.
  split; [| split].
  - rewrite Hp. apply Forall_forall. intros y Hy.
    rewrite Forall_forall in Hall. apply Hall.
    eapply elem_of_sublist; eassumption.
  - rewrite Hp. exact Hnd.
  - apply sorted_sorted.
Qed.

(** X8.  With every bar dated, normalisation returns bars of the input, one
    for each calendar day of the input, in ascending date order; with an
    undated bar it raises. *)
Theorem normalize_data_one_bar_per_day (data_list : list CryptoPriceData.t) :
  (Forall (fun x => is_Some (CryptoPriceData.date x)) data_list ->
   exists out : list CryptoPriceData.t,
     normalize_data data_list = Returned out
     /\ out ⊆ data_list
     /\ NoDup (bar_day <$> out)
     /\ (forall k, k ∈ bar_day <$> out <-> k ∈ bar_day <$> data_list)
     /\ StronglySorted (key_le bar_date) out
     /\ (length out <= length data_list)%nat)
  /\ (~ Forall (fun x => is_Some (CryptoPriceData.date x)) data_list ->
      normalize_data data_list = Raised AttributeError).
Proof.
  split.
  - intros Hall. unfold normalize_data.
    destruct (dedupe_loop_spec data_list ∅ [] Hall)
      as (kept & Hrun & Hsub & Hnd & Hk).
    exists (sorted bar_date kept).
    assert (sorted bar_date kept ≡ₚ kept) as Hp by apply sorted_perm.
    split.
    { destruct data_list as [| x rest].
      - apply sublist_nil_r in Hsub. subst kept. reflexivity.
      - rewrite Hrun. reflexivity. }
    split; [| split; [| split; [| split]]].
    + intros x Hx. rewrite Hp in Hx. eapply elem_of_sublist; eassumption.
    + rewrite Hp. exact Hnd.
    + intros k. rewrite Hp, Hk, elem_of_empty. tauto.
    + apply sorted_sorted.
    + rewrite sorted_length. apply sublist_length, Hsub.
  - intros Hnot. unfold normalize_data.
    destruct data_list as [| x rest].
    + exfalso. apply Hnot. constructor.
    + rewrite dedupe_loop_raises by exact Hnot. reflexivity.
Qed.

Lemma normalize_data_one_bar_per_day_witness :
  exists out : list CryptoPriceData.t,
    normalize_data unsorted_bars = Returned out
    /\ NoDup (bar_day <$> out)
    /\ (length out <= length unsorted_bars)%nat.
Proof.
  assert (Forall (fun x => is_Some (CryptoPriceData.date x)) unsorted_bars)
    as Hdated by (all_of ltac:(eexists; reflexivity)).
  destruct (proj1 (normalize_data_one_bar_per_day unsorted_bars) Hdated)
    as (out & Hrun & _ & Hdays & _ & _ & Hlen).
  exists out. auto.
Defined.

Lemma sorted_of_sorted {A : Type} (key : A -> Z) (l : list A) :
  StronglySorted (key_le key) l -> sorted key l = l.
Proof.
  intros Hs. symmetry. apply sorted_is_the_stable_sort; [exact Hs |].
  intros k. reflexivity.
Qed.

Lemma dedupe_loop_distinct (data_list : list CryptoPriceData.t) :
  forall (seen : gset Z) (acc : list CryptoPriceData.t),
  Forall (fun x => is_Some (CryptoPriceData.date x)) data_list ->
  NoDup (bar_day <$> data_list) ->
  (forall k, k ∈ bar_day <$> data_list -> k ∉ seen) ->
  dedupe_loop data_list seen acc = Returned (acc ++ data_list).
Proof.
  induction data_list as [| x rest IH]; intros seen acc Hall Hnd Hfresh.
  - simpl. rewrite app_nil_r. reflexivity.
  - apply Forall_cons in Hall as [[d Hd] Hall].
    rewrite fmap_cons in Hnd, Hfresh. apply NoDup_cons in Hnd as [Hx Hnd].
    assert (bar_day x = date_of d) as Hday
      by (unfold bar_day, bar_date; rewrite Hd; reflexivity).
    simpl dedupe_loop. rewrite Hd.
    rewrite decide_False
      by (rewrite <- Hday; apply Hfresh; left).
    rewrite IH; [rewrite <- app_assoc; reflexivity | exact Hall | exact Hnd |].
    intros k Hk. rewrite elem_of_union, elem_of_singleton, <- Hday.
    intros [-> | Hs]; [contradiction |].
    revert Hs. apply Hfresh. right. exact Hk.
Qed.

(** X9.  Normalising a normalised list changes nothing. *)
Theorem normalize_data_idempotent (data_list out : list CryptoPriceData.t) :
  normalize_data data_list = Returned out ->
  normalize_data out = Returned out.
Proof.
  intros Hrun.
  destruct (normalize_data_facts data_list out Hrun)
    as (Hall & Hnd & Hsorted).
  unfold normalize_data. destruct out as [| x rest] eqn:Hout; [reflexivity |].
  rewrite <- Hout in *. clear Hout.
  rewrite dedupe_loop_distinct; [| exact Hall | exact Hnd |].
  - simpl. rewrite sorted_of_sorted by exact Hsorted. reflexivity.
  - intros k _. apply not_elem_of_empty.
Qed.

Lemma normalize_data_idempotent_witness :
  normalize_data unsorted_bars = Returned daily_bars
  /\ normalize_data daily_bars = Returned daily_bars.
Proof.
  assert (normalize_data unsorted_bars = Returned daily_bars) as Hrun
    by (vm_compute; reflexivity).
  split; [exact Hrun |].
  exact (normalize_data_idempotent unsorted_bars daily_bars Hrun).
Defined.

End Client.

(** ** Stored data *)

Section Storage.

Import DataProcessor.

(** *** The cache *)

Lemma last_filter_cons {A : Type} (P : A -> Prop) `{!forall a, Decision (P a)}
    (x : A) (l : list A) :
  last (filter P (x :: l))
  = match last (filter P l) with
    | Some y => Some y
    | None => if decide (P x) then Some x else None
    end.
Proof.
  rewrite filter_cons.
  destruct (decide (P x)); [| destruct (last _); reflexivity].
  rewrite last_cons. reflexivity.
Qed.

Lemma update_cache_fold (h : heap) (l : list loc) :
  forall (m : gmap Z loc) (k : Z),
  fold_left (fun cache data_point =>
               <[date_of (date_key h data_point) := data_point]> cache) l m
    !! k
  = match last (filter (fun r => point_day h r = k) l) with
    | Some r => Some r
    | None => m !! k
    end.
Proof.
  induction l as [| x l IH]; intros m k; [reflexivity |].
  simpl fold_left. rewrite IH, last_filter_cons.
  destruct (last (filter _ l)); [reflexivity |].
  unfold point_day.
  destruct (decide (date_of (date_key h x) = k)) as [<- | Hne].
  - apply lookup_insert_eq.
  - apply lookup_insert_ne. exact Hne.
Qed.

(** The cache maps a day to the last listed point of that day. *)
Lemma update_cache_lookup (h : heap) (l : list loc) (k : Z) :
  _update_cache h l !! k = last (filter (fun r => point_day h r = k) l).
Proof.
  unfold _update_cache. rewrite update_cache_fold, lookup_empty.
  destruct (last _); reflexivity.
Qed.

Lemma last_filter_is_Some {A : Type} (P : A -> Prop)
    `{!forall a, Decision (P a)} (l : list A) :
  is_Some (last (filter P l)) <-> exists x, x ∈ l /\ P x.
Proof.
  rewrite last_is_Some. split.
  - intros Hne. destruct (filter P l) as [| y ys] eqn:Hf; [contradiction |].
    assert (y ∈ filter P l) as Hy by (rewrite Hf; left).
    apply list_elem_of_filter in Hy as [HP Hy]. eauto.
  - intros (x & Hx & HP) Hnil.
    assert (x ∈ filter P l) as Hin by (apply list_elem_of_filter; auto).
    rewrite Hnil in Hin. apply elem_of_nil in Hin. exact Hin.
Qed.

(** X10.  Storing a non-empty list makes it the stored list and indexes it
    by day, the last point of a day winning; storing the empty list changes
    nothing. *)
Theorem store_data_then_read (h : heap) (self : DataProcessor.t)
    (combined_data : list loc) :
  (combined_data <> [] ->
   retrieve_all_data (store_data h self combined_data) = combined_data
   /\ forall k : date,
        get_data_by_date (store_data h self combined_data) k
        = last (filter (fun r => point_day h r = k) combined_data))
  /\ (combined_data = [] -> store_data h self combined_data = self).
Proof.
  split.
  - intros Hne. destruct combined_data as [| r l]; [contradiction |].
    split; [reflexivity |]. intros k.
    unfold get_data_by_date, store_data. cbn [_data_cache].
    apply update_cache_lookup.
  - intros ->. reflexivity.
Qed.

Lemma store_data_then_read_witness :
  retrieve_all_data three_days_stored = [0; 1; 2]%nat
  /\ get_data_by_date three_days_stored (date_of (january 2)) = Some 1%nat.
Proof.
  destruct (store_data_then_read three_days DataProcessor.init [0; 1; 2]%nat)
    as [Hstored _].
  destruct (Hstored ltac:(discriminate)) as [Hall Hday].
  split; [exact Hall |]. unfold three_days_stored.
  rewrite (Hday (date_of (january 2))). vm_compute. reflexivity.
Defined.

(** X11.  After clearing, nothing is stored: every query answers empty and
    none raises, whatever was stored before. *)
Theorem clear_data_forgets (h : heap) (self : DataProcessor.t) :
  retrieve_all_data (clear_data self) = []
  /\ (forall k, get_data_by_date (clear_data self) k = None)
  /\ (forall start_date end_date,
        get_data_by_date_range h (clear_data self) start_date end_date
        = Returned [])
  /\ calculate_price_changes h (clear_data self) None
     = (h, clear_data self, Returned [])
  /\ (exists summary,
        get_data_summary h (clear_data self) = Returned summary
        /\ summary !! "total_points" = Some 0
        /\ summary !! "points_with_price_change" = Some 0
        /\ summary !! "full_moon_points" = Some 0
        /\ summary !! "normal_day_points" = Some 0).
Proof.
  split; [reflexivity |]. split; [intros k; apply lookup_empty |].
  split; [reflexivity |]. split; [reflexivity |].
  eexists. split; [reflexivity |]. repeat split.
Qed.

(** *** The summary *)

Lemma count_full_moon_spec (h : heap) (points : list loc) :
  Forall (fun r => is_Some (CombinedDataPoint.moon_data (deref h r))) points ->
  count_full_moon h points = Returned (len (filter (on_full_moon h) points)).
Proof.
  induction 1 as [| r rest [m Hm] _ IH]; [reflexivity |].
  simpl count_full_moon. rewrite Hm, IH. simpl. f_equal.
  rewrite filter_cons. unfold len.
  destruct (MoonPhaseData.is_full_moon m) eqn:Hf.
  - rewrite decide_True by (exists m; auto). simpl length. lia.
  - rewrite decide_False by (intros (m' & Hm' & Hf'); congruence).
    reflexivity.
Qed.

Lemma count_full_moon_raises (h : heap) (points : list loc) :
  ~ Forall (fun r => is_Some (CombinedDataPoint.moon_data (deref h r)))
           points ->
  count_full_moon h points = Raised AttributeError.
Proof.
  induction points as [| r rest IH]; intros Hnot.
  - exfalso. apply Hnot. constructor.
  - simpl. destruct (CombinedDataPoint.moon_data (deref h r)) as [m |] eqn:Hm;
      [| reflexivity].
    rewrite IH; [reflexivity |]. intros Hr. apply Hnot.
    constructor; [rewrite Hm; eauto | exact Hr].
Qed.

(** X12.  The summary exists exactly when every stored point has moon data;
    its two day counts then add up to the total, and no count exceeds it. *)
Theorem get_data_summary_counts (h : heap) (self : DataProcessor.t) :
  (Forall (fun r => is_Some (CombinedDataPoint.moon_data (deref h r)))
          (_combined_data self) ->
   exists (summary : gmap string Z) (total changed full normal : Z),
     get_data_summary h self = Returned summary
     /\ summary !! "total_points" = Some total
     /\ summary !! "points_with_price_change" = Some changed
     /\ summary !! "full_moon_points" = Some full
     /\ summary !! "normal_day_points" = Some normal
     /\ total = len (_combined_data self)
     /\ full + normal = total
     /\ 0 <= full <= total
     /\ 0 <= changed <= total)
  /\ (~ Forall (fun r => is_Some (CombinedDataPoint.moon_data (deref h r)))
               (_combined_data self) ->
      get_data_summary h self = Raised AttributeError).
Proof.
  unfold get_data_summary. split.
  - intros Hall. rewrite (count_full_moon_spec h _ Hall).
    eexists _, _, _, _, _. split; [reflexivity |].
    split; [reflexivity |]. split; [reflexivity |].
    split; [reflexivity |]. split; [reflexivity |].
    split; [reflexivity |].
    pose proof (length_filter (on_full_moon h) (_combined_data self)).
    pose proof (length_filter
                  (fun point =>
                     is_Some (CombinedDataPoint.price_change (deref h point)))
                  (_combined_data self)).
    unfold len. repeat split; lia.
  - intros Hnot. rewrite (count_full_moon_raises h _ Hnot). reflexivity.
Qed.

Lemma get_data_summary_counts_witness :
  exists (summary : gmap string Z) (total full normal : Z),
    get_data_summary three_days three_days_stored = Returned summary
    /\ summary !! "total_points" = Some total
    /\ summary !! "full_moon_points" = Some full
    /\ summary !! "normal_day_points" = Some normal
    /\ full + normal = total.
Proof.
  assert (Forall (fun r => is_Some (CombinedDataPoint.moon_data
                                      (deref three_days r)))
                 (_combined_data three_days_stored)) as Hmoon
    by (cbn; all_of ltac:(eexists; reflexivity)).
  destruct (proj1 (get_data_summary_counts three_days three_days_stored)
                  Hmoon)
    as (summary & total & changed & full & normal
        & Hrun & Ht & _ & Hf & Hn & _ & Hsum & _).
  exists summary, total, full, normal. auto.
Defined.

(** *** Queries by date range *)

Lemma filter_sublist_impl {A : Type} (P Q : A -> Prop)
    `{!forall a, Decision (P a)} `{!forall a, Decision (Q a)} (l : list A) :
  (forall a, P a -> Q a) -> sublist (filter P l) (filter Q l).
Proof.
  intros Himpl. induction l as [| x l IH]; [constructor |].
  rewrite !filter_cons.
  destruct (decide (P x)) as [HP | HP].
  - rewrite decide_True by auto. apply sublist_skip, IH.
  - destruct (decide (Q x)); [apply sublist_cons, IH | exact IH].
Qed.

(** X13.  Widening a range can only add points: the answer to the narrower
    range is a sublist of the answer to the wider one, which is a sublist of
    the stored list. *)
Theorem get_data_by_date_range_monotone (h : heap) (self : DataProcessor.t)
    (start_date end_date wider_start wider_end : datetime) :
  wider_start <= start_date -> start_date <= end_date ->
  end_date <= wider_end ->
  exists inner outer : list loc,
    get_data_by_date_range h self start_date end_date = Returned inner
    /\ get_data_by_date_range h self wider_start wider_end = Returned outer
    /\ sublist inner outer
    /\ sublist outer (retrieve_all_data self)
    /\ (forall r, r ∈ inner <-> r ∈ outer
                                /\ start_date <= date_key h r <= end_date).
Proof.
  intros Hs Hse He. unfold get_data_by_date_range, retrieve_all_data.
  destruct (_combined_data self) as [| r0 l] eqn:Hl.
  { exists [], []. split; [reflexivity |]. split; [reflexivity |].
    split; [constructor |]. split; [constructor |].
    intros r. rewrite elem_of_nil. tauto. }
  destruct (Z.ltb_spec end_date start_date) as [Hlt | _]; [lia |].
  destruct (Z.ltb_spec wider_end wider_start) as [Hlt | _]; [lia |].
  eexists _, _. split; [reflexivity |]. split; [reflexivity |].
  split; [apply filter_sublist_impl; intros a [H1 H2]; split; lia |].
  split; [apply sublist_filter |].
  intros r. rewrite !list_elem_of_filter. split.
  - intros [[H1 H2] Hr]. repeat split; try assumption; lia.
  - intros [[_ Hr] [H1 H2]]. auto.
Qed.

Lemma get_data_by_date_range_monotone_witness :
  exists inner outer : list loc,
    get_data_by_date_range three_days three_days_stored
                           (january 2) (january 2) = Returned inner
    /\ get_data_by_date_range three_days three_days_stored
                              (january 1) (january 3) = Returned outer
    /\ sublist inner outer.
Proof.
  assert (january 1 <= january 2) as Hstart
    by (apply Z.leb_le; vm_compute; reflexivity).
  assert (january 2 <= january 3) as Hend
    by (apply Z.leb_le; vm_compute; reflexivity).
  destruct (get_data_by_date_range_monotone
              three_days three_days_stored (january 2) (january 2)
              (january 1) (january 3) Hstart (Z.le_refl _) Hend)
    as (inner & outer & Hinner & Houter & Hsub & _).
  exists inner, outer. auto.
Defined.

End Storage.

(** ** From bars to annotated points *)

Section Pipeline.

Import DataProcessor.

(** What a call of [combine_data] does, with both inputs non-empty and
    otherwise. *)
Lemma combine_data_run (h : heap) (self : DataProcessor.t)
    (crypto_data : list (option CryptoPriceData.t))
    (moon_data : list (option MoonPhaseData.t)) :
  (crypto_data = [] \/ moon_data = [] ->
   combine_data h self crypto_data moon_data = (h, self, []))
  /\ (crypto_data <> [] -> moon_data <> [] ->
      exists (h' : heap) (fresh : list loc),
        let out := sorted (date_key h') fresh in
        combine_data h self crypto_data moon_data
        = (h', DataProcessor.mk out (_update_cache h' out), out)
        /\ deref h' <$> fresh
           = omap (matched (build_moon_lookup moon_data)) crypto_data
        /\ NoDup fresh
        /\ (forall r, (r < next_loc h)%nat -> deref h' r = deref h r)).
Proof.
  unfold combine_data. split.
  - intros [-> | ->]; [reflexivity |]. destruct crypto_data; reflexivity.
  - intros Hc Hm.
    destruct crypto_data as [| x xs] eqn:Hcd; [contradiction |].
    destruct moon_data as [| y ys] eqn:Hmd; [contradiction |].
    rewrite <- Hcd, <- Hmd.
    destruct (combine_loop_spec (build_moon_lookup moon_data) crypto_data h [])
      as (h' & Hrun & Hpts & Hold & _).
    rewrite Hrun. simpl app. eexists h', _.
    split; [reflexivity |]. split; [exact Hpts |].
    split; [apply NoDup_seq | exact Hold].
Qed.

Lemma moon_lookup_values (moon_data : list (option MoonPhaseData.t)) :
  forall (m0 : gmap Z MoonPhaseData.t) (k : Z) (mp : MoonPhaseData.t),
  fold_left add_moon_point moon_data m0 !! k = Some mp ->
  m0 !! k = Some mp
  \/ (Some mp ∈ moon_data
      /\ exists d', MoonPhaseData.date mp = Some d' /\ date_of d' = k).
Proof.
  induction moon_data as [| x l IH]; intros m0 k mp Hk; [left; exact Hk |].
  simpl in Hk. apply IH in Hk as [Hk | (Hin & Hd)].
  - unfold add_moon_point in Hk. destruct x as [mp' |]; [| left; exact Hk].
    destruct (MoonPhaseData.date mp') as [d |] eqn:Hd; [| left; exact Hk].
    destruct (decide (date_of d = k)) as [<- | Hne].
    + rewrite lookup_insert_eq in Hk. injection Hk as ->.
      right. split; [left | eauto].
    + rewrite lookup_insert_ne in Hk by exact Hne. left. exact Hk.
  - right. split; [right; exact Hin | exact Hd].
Qed.

Lemma build_moon_lookup_values (moon_data : list (option MoonPhaseData.t))
    (k : Z) (mp : MoonPhaseData.t) :
  build_moon_lookup moon_data !! k = Some mp ->
  Some mp ∈ moon_data
  /\ exists d', MoonPhaseData.date mp = Some d' /\ date_of d' = k.
Proof.
  intros Hk. apply moon_lookup_values in Hk as [Hk | Hk]; [| exact Hk].
  rewrite lookup_empty in Hk. discriminate.
Qed.

(** Every point of a join carries the bar and the moon record it was built
    from, on the same calendar day. *)
Lemma matched_point_shape (moon_data : list (option MoonPhaseData.t))
    (crypto_data : list (option CryptoPriceData.t)) (p : CombinedDataPoint.t) :
  p ∈ omap (matched (build_moon_lookup moon_data)) crypto_data ->
  exists cp mp d',
    Some cp ∈ crypto_data
    /\ CryptoPriceData.date cp = Some (CombinedDataPoint.date p)
    /\ CombinedDataPoint.crypto_data p = Some cp
    /\ CombinedDataPoint.moon_data p = Some mp
    /\ CombinedDataPoint.price_change p = None
    /\ Some mp ∈ moon_data
    /\ MoonPhaseData.date mp = Some d'
    /\ date_of d' = date_of (CombinedDataPoint.date p).
Proof.
  intros Hp. apply list_elem_of_omap in Hp as (x & Hx & Hm).
  apply matched_Some in Hm as (cp & d & mp & -> & Hd & Hmp & ->).
  apply build_moon_lookup_values in Hmp as (Hin & d' & Hd' & Hday).
  exists cp, mp, d'. simpl. repeat split; assumption.
Qed.

(** A day found in both inputs has a point in the join. *)
Lemma matched_day_complete (moon_data : list (option MoonPhaseData.t))
    (crypto_data : list (option CryptoPriceData.t)) (k : Z) :
  k ∈ crypto_days crypto_data -> k ∈ moon_days moon_data ->
  exists p, p ∈ omap (matched (build_moon_lookup moon_data)) crypto_data
            /\ date_of (CombinedDataPoint.date p) = k.
Proof.
  intros Hc Hm. unfold crypto_days in Hc.
  apply list_elem_of_omap in Hc as (x & Hx & Hday).
  destruct x as [cp |]; [| discriminate]. simpl in Hday.
  destruct (CryptoPriceData.date cp) as [d |] eqn:Hd; [| discriminate].
  simpl in Hday. injection Hday as <-.
  apply build_moon_lookup_keys in Hm as [mp Hmp].
  exists (CombinedDataPoint.mk d (Some cp) (Some mp) None).
  split; [| reflexivity].
  apply list_elem_of_omap. exists (Some cp). split; [exact Hx |].
  apply matched_Some. exists cp, d, mp. repeat split; assumption.
Qed.

(** X14.  After a join of two non-empty inputs the processor holds the
    result, and a lookup by day finds a point, the last of that day, exactly
    for the days that occur in both inputs.  With an empty input the
    processor keeps what it held. *)
Theorem combine_data_then_lookup (h : heap) (self : DataProcessor.t)
    (crypto_data : list (option CryptoPriceData.t))
    (moon_data : list (option MoonPhaseData.t)) :
  exists (h' : heap) (self' : DataProcessor.t) (out : list loc),
    combine_data h self crypto_data moon_data = (h', self', out)
    /\ (crypto_data <> [] -> moon_data <> [] ->
        retrieve_all_data self' = out
        /\ forall k : date,
             get_data_by_date self' k
             = last (filter (fun r => point_day h' r = k) out)
             /\ (is_Some (get_data_by_date self' k)
                 <-> k ∈ crypto_days crypto_data /\ k ∈ moon_days moon_data))
    /\ (crypto_data = [] \/ moon_data = [] -> self' = self /\ out = []).
Proof.
  destruct (combine_data_run h self crypto_data moon_data) as [Hnil Hrun].
  destruct (decide (crypto_data = [])) as [Hc | Hc].
  { exists h, self, []. split; [apply Hnil; auto |].
    split; [intros; contradiction | auto]. }
  destruct (decide (moon_data = [])) as [Hm | Hm].
  { exists h, self, []. split; [apply Hnil; auto |].
    split; [intros; contradiction | auto]. }
  destruct (Hrun Hc Hm) as (h' & fresh & Heq & Hpts & _ & _).
  eexists h', _, _. split; [exact Heq |].
  split; [| intros [? | ?]; contradiction].
  intros _ _. split; [reflexivity |]. intros k.
  unfold get_data_by_date. cbn [_data_cache].
  rewrite update_cache_lookup. split; [reflexivity |].
  rewrite last_filter_is_Some. split.
  - intros (r & Hr & Hday). rewrite sorted_perm in Hr. subst k.
    apply (matched_day_in_both moon_data crypto_data (deref h' r)).
    rewrite <- Hpts. apply list_elem_of_fmap. eauto.
  - intros [Hk1 Hk2].
    destruct (matched_day_complete moon_data crypto_data k Hk1 Hk2)
      as (p & Hp & Hday).
    rewrite <- Hpts in Hp. apply list_elem_of_fmap in Hp as (r & -> & Hr).
    exists r. split; [rewrite sorted_perm; exact Hr | exact Hday].
Qed.

Lemma combine_data_then_lookup_witness :
  exists (h' : heap) (self' : DataProcessor.t) (out : list loc),
    combine_data no_objects DataProcessor.init two_bars_one_day one_moon
    = (h', self', out)
    /\ retrieve_all_data self' = out
    /\ is_Some (get_data_by_date self' (date_of (january 1))).
Proof.
  destruct (combine_data_then_lookup no_objects DataProcessor.init
              two_bars_one_day one_moon)
    as (h' & self' & out & Hrun & Hjoin & _).
  destruct (Hjoin ltac:(discriminate) ltac:(discriminate)) as [Hall Hday].
  exists h', self', out. split; [exact Hrun |]. split; [exact Hall |].
  apply (Hday (date_of (january 1))).
  split; vm_compute; constructor.
Defined.

(** The points of a join, by reference. *)
Lemma combine_data_points (h : heap) (self : DataProcessor.t)
    (crypto_data : list (option CryptoPriceData.t))
    (moon_data : list (option MoonPhaseData.t)) :
  exists (h' : heap) (self' : DataProcessor.t) (out : list loc),
    combine_data h self crypto_data moon_data = (h', self', out)
    /\ NoDup out
    /\ date_sorted h' out
    /\ (length out
        = if decide (crypto_data = [] \/ moon_data = []) then 0%nat
          else length (omap (matched (build_moon_lookup moon_data))
                            crypto_data))
    /\ Forall (fun r =>
                 deref h' r
                   ∈ omap (matched (build_moon_lookup moon_data)) crypto_data)
              out.
Proof.
  destruct (combine_data_run h self crypto_data moon_data) as [Hnil Hrun].
  destruct (decide (crypto_data = [] \/ moon_data = [])) as [Hor | Hnor].
  { exists h, self, []. split; [apply Hnil, Hor |].
    split; [constructor |]. split; [constructor |].
    split; [reflexivity | constructor]. }
  destruct (Hrun ltac:(tauto) ltac:(tauto))
    as (h' & fresh & Heq & Hpts & Hnd & _).
  eexists h', _, _. split; [exact Heq |].
  split; [rewrite sorted_perm; exact Hnd |].
  split; [apply sorted_sorted |].
  split.
  - rewrite sorted_length, <- Hpts. symmetry. apply length_fmap.
  - apply Forall_forall. intros r Hr. rewrite sorted_perm in Hr.
    rewrite <- Hpts. apply list_elem_of_fmap. eauto.
Qed.

(** *** Validation of a join *)

Lemma validate_loop_clean (h : heap) (combined_data : list (option loc)) :
  forall (i : nat) (errors : list string),
  Forall (fun x => forall j, point_errors h j x = []) combined_data ->
  validate_loop h i combined_data errors = errors.
Proof.
  induction combined_data as [| x rest IH]; intros i errors Hall;
    [reflexivity |].
  apply Forall_cons in Hall as [Hx Hall].
  simpl. rewrite Hx, app_nil_r. apply IH, Hall.
Qed.

Lemma matched_point_clean (h : heap) (r : loc)
    (moon_data : list (option MoonPhaseData.t))
    (crypto_data : list (option CryptoPriceData.t)) (j : nat) :
  deref h r ∈ omap (matched (build_moon_lookup moon_data)) crypto_data ->
  point_errors h j (Some r) = [].
Proof.
  intros Hp.
  apply matched_point_shape in Hp
    as (cp & mp & d' & _ & Hd & Hc & Hm & _ & _ & Hd' & Hday).
  unfold point_errors. rewrite Hc, Hm. simpl. rewrite Hd, Hd'.
  rewrite !decide_True by congruence. reflexivity.
Qed.

(** X15.  A join that kept a point passes the validation of combined data
    with no message; an empty join is reported as no data. *)
Theorem combine_data_validates (h : heap) (self : DataProcessor.t)
    (crypto_data : list (option CryptoPriceData.t))
    (moon_data : list (option MoonPhaseData.t)) :
  exists (h' : heap) (self' : DataProcessor.t) (out : list loc),
    combine_data h self crypto_data moon_data = (h', self', out)
    /\ validate_combined_data h' (Some <$> out)
       = if decide (out = []) then
           (false, ["No data provided for validation"])
         else (true, []).
Proof.
  destruct (combine_data_points h self crypto_data moon_data)
    as (h' & self' & out & Hrun & _ & _ & _ & Hall).
  exists h', self', out. split; [exact Hrun |].
  destruct (decide (out = [])) as [-> | Hne]; [reflexivity |].
  assert (validate_loop h' 0 (Some <$> out) [] = []) as Hclean.
  { apply validate_loop_clean, Forall_fmap, Forall_forall.
    intros x Hx j. simpl. rewrite Forall_forall in Hall.
    eapply matched_point_clean, Hall, Hx. }
  destruct out as [| r rest]; [contradiction |].
  rewrite fmap_cons in *. unfold validate_combined_data.
  rewrite Hclean. reflexivity.
Qed.

(** *** Bars accepted by the client can be charted *)

(** X16.  Bars accepted by the client give, once joined, points that the
    chart accepts. *)
Theorem validated_bars_are_chartable (h : heap) (self : DataProcessor.t)
    (bars : list CryptoPriceData.t) (crypto_name : string)
    (moon_data : list (option MoonPhaseData.t)) :
  Forall (fun b => CryptoDataClient._validate_price_data b crypto_name = true)
         bars ->
  exists (h' : heap) (self' : DataProcessor.t) (out : list loc),
    combine_data h self (Some <$> bars) moon_data = (h', self', out)
    /\ Forall (fun r => ChartRenderer._validate_data_point h' (Some r) = true)
              out.
Proof.
  intros Hvalid.
  destruct (combine_data_points h self (Some <$> bars) moon_data)
    as (h' & self' & out & Hrun & _ & _ & _ & Hall).
  exists h', self', out. split; [exact Hrun |].
  eapply Forall_impl; [exact Hall |]. intros r Hp. simpl in Hp.
  apply matched_point_shape in Hp as (cp & mp & d' & Hin & _ & Hc & _).
  apply list_elem_of_fmap in Hin as (b & [= <-] & Hb).
  rewrite Forall_forall in Hvalid.
  destruct (_validate_price_data_facts cp crypto_name (Hvalid cp Hb))
    as (_ & Hlow & _ & [Hclose _] & _).
  unfold ChartRenderer._validate_data_point. rewrite Hc.
  destruct (Qle_bool (CryptoPriceData.close_price cp) 0) eqn:E;
    [| reflexivity].
  apply Qle_bool_iff in E. lra.
Qed.

Lemma validated_bars_are_chartable_witness :
  exists (h' : heap) (self' : DataProcessor.t) (out : list loc),
    combine_data no_objects DataProcessor.init (Some <$> [btc_bar]) one_moon
    = (h', self', out)
    /\ Forall (fun r => ChartRenderer._validate_data_point h' (Some r) = true)
              out.
Proof.
  apply (validated_bars_are_chartable no_objects DataProcessor.init
           [btc_bar] "Bitcoin" one_moon).
  all_of ltac:(vm_compute; reflexivity).
Defined.

(** *** Moon data computed from the bars' own dates *)

Lemma moon_days_of_batch (dates : list (option datetime)) :
  moon_days (Some <$> MoonPhaseCalculator.calculate_moon_phases_for_dates dates)
  = date_of <$> omap id dates.
Proof.
  rewrite calculate_moon_phases_for_dates_spec. unfold moon_days.
  induction (omap id dates) as [| d rest IH]; [reflexivity |].
  rewrite !fmap_cons. cbn [omap list_omap]. simpl. f_equal. exact IH.
Qed.

Lemma matched_all (moon_lookup : gmap Z MoonPhaseData.t)
    (bars : list CryptoPriceData.t) :
  (forall b d, b ∈ bars -> CryptoPriceData.date b = Some d ->
               is_Some (moon_lookup !! date_of d)) ->
  CombinedDataPoint.crypto_data <$> omap (matched moon_lookup) (Some <$> bars)
  = Some <$> filter (fun b => is_Some (CryptoPriceData.date b)) bars.
Proof.
  induction bars as [| b rest IH]; intros Hall; [reflexivity |].
  rewrite fmap_cons, filter_cons. cbn [omap list_omap].
  assert (CombinedDataPoint.crypto_data
            <$> omap (matched moon_lookup) (Some <$> rest)
          = Some <$> filter (fun b => is_Some (CryptoPriceData.date b)) rest)
    as IH' by (apply IH; intros b' d' Hb'; apply Hall; right; exact Hb').
  destruct (CryptoPriceData.date b) as [d |] eqn:Hd.
  - destruct (Hall b d ltac:(left) Hd) as [mp Hmp].
    assert (matched moon_lookup (Some b)
            = Some (CombinedDataPoint.mk d (Some b) (Some mp) None)) as ->
      by (apply matched_Some; exists b, d, mp; repeat split; assumption).
    rewrite decide_True by eauto. rewrite !fmap_cons, IH'. reflexivity.
  - assert (matched moon_lookup (Some b) = None) as ->
      by (unfold matched; simpl; rewrite Hd; reflexivity).
    rewrite decide_False by (intros [? ?]; discriminate). exact IH'.
Qed.

(** X17.  The refresh of the dashboard computes the moon phases on the dates
    of the bars and joins the two: the join then keeps every dated bar. *)
Theorem refresh_keeps_every_dated_bar (h : heap) (self : DataProcessor.t)
    (bars : list CryptoPriceData.t) :
  let dates := CryptoPriceData.date <$> bars in
  let moon_data :=
    MoonPhaseCalculator.calculate_moon_phases_for_dates dates in
  exists (h' : heap) (self' : DataProcessor.t) (out : list loc),
    combine_data h self (Some <$> bars) (Some <$> moon_data) = (h', self', out)
    /\ (fun r => CombinedDataPoint.crypto_data (deref h' r)) <$> out
       ≡ₚ Some <$> filter (fun b => is_Some (CryptoPriceData.date b)) bars
    /\ length out
       = length (filter (fun b => is_Some (CryptoPriceData.date b)) bars).
Proof.
  intros dates moon_data.
  assert (forall b d, b ∈ bars -> CryptoPriceData.date b = Some d ->
            is_Some (build_moon_lookup (Some <$> moon_data) !! date_of d))
    as Hlookup.
  { intros b d Hb Hd. apply build_moon_lookup_keys.
    unfold moon_data. rewrite moon_days_of_batch.
    apply list_elem_of_fmap. exists d. split; [reflexivity |].
    apply list_elem_of_omap. exists (Some d). split; [| reflexivity].
    unfold dates. apply list_elem_of_fmap. eauto. }
  pose proof (matched_all _ bars Hlookup) as Hall.
  destruct (combine_data_run h self (Some <$> bars) (Some <$> moon_data))
    as [Hnil Hrun].
  assert (forall (h' : heap) (self' : DataProcessor.t) (out : list loc),
            (fun r => CombinedDataPoint.crypto_data (deref h' r)) <$> out
            ≡ₚ Some <$> filter (fun b => is_Some (CryptoPriceData.date b)) bars
            -> combine_data h self (Some <$> bars) (Some <$> moon_data)
               = (h', self', out)
            -> exists h' self' out,
                 combine_data h self (Some <$> bars) (Some <$> moon_data)
                 = (h', self', out)
                 /\ (fun r => CombinedDataPoint.crypto_data (deref h' r))
                      <$> out
                    ≡ₚ Some <$> filter
                                  (fun b => is_Some (CryptoPriceData.date b))
                                  bars
                 /\ length out
                    = length (filter
                                (fun b => is_Some (CryptoPriceData.date b))
                                bars)) as Hpack.
  { intros h' self' out Hp Heq. exists h', self', out.
    split; [exact Heq |]. split; [exact Hp |].
    apply Permutation_length in Hp. rewrite !length_fmap in Hp. exact Hp. }
  destruct (decide (filter (fun b => is_Some (CryptoPriceData.date b)) bars
                    = [])) as [Hnone | Hsome].
  - (* no dated bar: no moon record, or no bar at all *)
    apply (Hpack h self []); [rewrite Hnone; reflexivity |].
    apply Hnil. right.
    unfold moon_data. rewrite calculate_moon_phases_for_dates_spec.
    assert (omap id dates = []) as ->; [| reflexivity].
    unfold dates. clear -Hnone.
    induction bars as [| b rest IH]; [reflexivity |].
    rewrite filter_cons in Hnone. rewrite fmap_cons. cbn [omap list_omap].
    destruct (CryptoPriceData.date b) as [d |] eqn:Hd.
    + rewrite decide_True in Hnone by eauto. discriminate.
    + rewrite decide_False in Hnone by (intros [? ?]; discriminate).
      simpl. apply IH, Hnone.
  - assert (Some <$> bars <> []) as Hb
      by (destruct bars; [contradiction Hsome; reflexivity | discriminate]).
    assert (Some <$> moon_data <> []) as Hm.
    { intros Hm. apply fmap_nil_inv in Hm.
      assert (moon_days (Some <$> moon_data) = []) as Hd
        by (rewrite Hm; reflexivity).
      unfold moon_data in Hd. rewrite moon_days_of_batch in Hd.
      apply fmap_nil_inv in Hd. apply Hsome.
      unfold dates in Hd. clear -Hd.
      induction bars as [| b rest IH]; [reflexivity |].
      rewrite fmap_cons in Hd. cbn [omap list_omap] in Hd.
      rewrite filter_cons.
      destruct (CryptoPriceData.date b) as [d |] eqn:Hdb; [discriminate |].
      rewrite decide_False by (intros [? ?]; discriminate).
      apply IH, Hd. }
    destruct (Hrun Hb Hm) as (h' & fresh & Heq & Hpts & _ & _).
    eapply Hpack; [| exact Heq].
    rewrite sorted_perm, <- Hall, <- Hpts, <- list_fmap_compose.
    reflexivity.
Qed.

Lemma crypto_days_dated (bars : list CryptoPriceData.t) :
  Forall (fun x => is_Some (CryptoPriceData.date x)) bars ->
  crypto_days (Some <$> bars) = bar_day <$> bars.
Proof.
  unfold crypto_days. induction 1 as [| b rest [d Hd] _ IH]; [reflexivity |].
  rewrite !fmap_cons. cbn [omap list_omap]. simpl. rewrite Hd. simpl.
  rewrite IH. unfold bar_day, CryptoDataClient.bar_date. rewrite Hd.
  reflexivity.
Qed.

(** X18.  Joining normalised bars never gives more points than there are
    moon records, nor than there are bars. *)
Theorem normalize_then_combine_bounded (h : heap) (self : DataProcessor.t)
    (data_list bars : list CryptoPriceData.t)
    (moon_data : list (option MoonPhaseData.t)) :
  CryptoDataClient.normalize_data data_list = Returned bars ->
  (length (combine_data h self (Some <$> bars) moon_data).2
   <= Nat.min (length bars) (length moon_data))%nat.
Proof.
  intros Hnorm.
  destruct (normalize_data_facts data_list bars Hnorm) as (Hall & Hnd & _).
  destruct (combine_data_points h self (Some <$> bars) moon_data)
    as (h' & self' & out & Hrun & _ & _ & Hlen & _).
  rewrite Hrun. cbn [snd]. rewrite Hlen.
  destruct (decide _) as [_ | _]; [lia |].
  apply Nat.min_glb.
  - etransitivity; [apply length_omap_le |]. rewrite length_fmap. reflexivity.
  - apply matched_count_moons. rewrite crypto_days_dated by exact Hall.
    exact Hnd.
Qed.

Lemma normalize_then_combine_bounded_witness :
  (length (combine_data no_objects DataProcessor.init
                        (Some <$> daily_bars) one_moon).2
   <= Nat.min (length daily_bars) (length one_moon))%nat.
Proof.
  apply (normalize_then_combine_bounded no_objects DataProcessor.init
           unsorted_bars daily_bars one_moon).
  vm_compute. reflexivity.
Defined.

(** *** Annotating a join, and annotating twice *)

Lemma filter_all {A : Type} (P : A -> Prop) `{!forall a, Decision (P a)}
    (l : list A) :
  Forall P l -> filter P l = l.
Proof.
  induction 1 as [| x l Hx _ IH]; [reflexivity |].
  rewrite filter_cons, decide_True, IH by exact Hx. reflexivity.
Qed.

(** On a list that is already in date order, distinct and priced, the call
    returns the list itself. *)
Lemma calculate_price_changes_in_place (h : heap) (self : DataProcessor.t)
    (l : list loc) :
  NoDup l -> date_sorted h l -> Forall (has_crypto h) l ->
  exists (h' : heap) (self' : DataProcessor.t),
    calculate_price_changes h self (Some l) = (h', self', Returned l)
    /\ (forall r, same_identity (deref h' r) (deref h r))
    /\ price_changes h' l = ChangeSpec.annotate None (closes h l).
Proof.
  intros Hnd Hsorted Hall.
  destruct (calculate_price_changes_run h self (Some l))
    as (h' & self' & Hrun & Hsame & Hvals).
  cbn [data_to_process] in Hrun, Hvals. cbv zeta in Hrun, Hvals.
  rewrite (sorted_of_sorted (date_key h) l Hsorted) in Hrun, Hvals.
  rewrite (filter_all _ l Hall) in Hrun, Hvals.
  exists h', self'. split; [exact Hrun |]. split; [exact Hsame |].
  rewrite <- (closes_same h h' l) by exact Hsame. apply Hvals, Hnd.
Qed.

Lemma matched_points_priced (h : heap) (out : list loc)
    (moon_data : list (option MoonPhaseData.t))
    (crypto_data : list (option CryptoPriceData.t)) :
  Forall (fun r =>
            deref h r
              ∈ omap (matched (build_moon_lookup moon_data)) crypto_data) out ->
  Forall (has_crypto h) out.
Proof.
  intros Hall. eapply Forall_impl; [exact Hall |]. intros r Hp. simpl in Hp.
  apply matched_point_shape in Hp as (cp & _ & _ & _ & _ & Hc & _).
  unfold has_crypto. rewrite Hc. eauto.
Qed.

(** X19.  The price-change pass returns a fresh join unchanged, point for
    point and in the same order, with the changes of one forward pass over
    its closes. *)
Theorem calculate_price_changes_of_join (h : heap) (self : DataProcessor.t)
    (crypto_data : list (option CryptoPriceData.t))
    (moon_data : list (option MoonPhaseData.t)) :
  exists (h1 h2 : heap) (self1 self2 : DataProcessor.t) (out : list loc),
    combine_data h self crypto_data moon_data = (h1, self1, out)
    /\ calculate_price_changes h1 self1 (Some out) = (h2, self2, Returned out)
    /\ price_changes h2 out = ChangeSpec.annotate None (closes h1 out)
    /\ length (closes h1 out) = length out.
Proof.
  destruct (combine_data_points h self crypto_data moon_data)
    as (h1 & self1 & out & Hrun & Hnd & Hsorted & _ & Hall).
  apply matched_points_priced in Hall.
  destruct (calculate_price_changes_in_place h1 self1 out Hnd Hsorted Hall)
    as (h2 & self2 & Hrun2 & _ & Hvals).
  exists h1, h2, self1, self2, out. split; [exact Hrun |].
  split; [exact Hrun2 |]. split; [exact Hvals |].
  clear -Hall. induction Hall as [| r l Hr _ IH]; [reflexivity |].
  destruct (closes_cons_priced h1 r l Hr) as (c & _ & ->). simpl.
  rewrite IH. reflexivity.
Qed.

(** X20.  Running the price-change pass on its own result returns the same
    list with the same changes. *)
Theorem calculate_price_changes_twice (h : heap) (self : DataProcessor.t)
    (combined_data : option (list loc)) :
  NoDup (data_to_process self combined_data) ->
  exists (h1 h2 : heap) (self1 self2 : DataProcessor.t) (out : list loc),
    calculate_price_changes h self combined_data = (h1, self1, Returned out)
    /\ calculate_price_changes h1 self1 (Some out) = (h2, self2, Returned out)
    /\ price_changes h2 out = price_changes h1 out.
Proof.
  intros Hnd.
  destruct (calculate_price_changes_run h self combined_data)
    as (h1 & self1 & Hrun & Hsame & Hvals).
  specialize (Hvals Hnd). cbv zeta in Hrun, Hvals.
  set (out := filter (has_crypto h)
                (sorted (date_key h) (data_to_process self combined_data)))
    in *.
  assert (NoDup out) as Hnd1.
  { unfold out. apply NoDup_filter. rewrite sorted_perm. exact Hnd. }
  assert (date_sorted h1 out) as Hs1.
  { apply (date_sorted_same h); [exact Hsame |].
    apply StronglySorted_filter, sorted_sorted. }
  assert (Forall (has_crypto h1) out) as Hall1.
  { apply Forall_forall. intros r Hr.
    apply list_elem_of_filter in Hr as [Hr _]. unfold has_crypto in *.
    destruct (Hsame r) as (_ & -> & _). exact Hr. }
  destruct (calculate_price_changes_in_place h1 self1 out Hnd1 Hs1 Hall1)
    as (h2 & self2 & Hrun2 & _ & Hvals2).
  exists h1, h2, self1, self2, out. split; [exact Hrun |].
  split; [exact Hrun2 |]. rewrite Hvals2, Hvals. reflexivity.
Qed.

Lemma calculate_price_changes_twice_witness :
  exists (h1 h2 : heap) (self1 self2 : DataProcessor.t) (out : list loc),
    calculate_price_changes three_days DataProcessor.init
                            (Some [2; 0; 1]%nat)
    = (h1, self1, Returned out)
    /\ calculate_price_changes h1 self1 (Some out)
       = (h2, self2, Returned out)
    /\ price_changes h2 out = price_changes h1 out.
Proof.
  apply (calculate_price_changes_twice three_days DataProcessor.init
           (Some [2; 0; 1]%nat)).
  simpl. distinct_locs.
Defined.

(** *** Which points get a change *)

Lemma closes_lookup (h : heap) (l : list loc) :
  Forall (has_crypto h) l ->
  forall (i : nat) (r : loc), l !! i = Some r ->
  exists c, CombinedDataPoint.crypto_data (deref h r) = Some c
            /\ closes h l !! i = Some (CryptoPriceData.close_price c).
Proof.
  induction 1 as [| x l Hx _ IH]; intros i r Hi; [discriminate |].
  destruct (closes_cons_priced h x l Hx) as (c & Hc & ->).
  destruct i as [| i]; simpl in Hi |- *.
  - injection Hi as <-. eauto.
  - apply IH, Hi.
Qed.

(** X21.  With distinct objects and no close equal to zero, exactly the
    first returned point is left without a change. *)
Theorem calculate_price_changes_only_first_unset (h : heap)
    (self : DataProcessor.t) (combined_data : option (list loc)) :
  NoDup (data_to_process self combined_data) ->
  (forall r c, r ∈ data_to_process self combined_data ->
               CombinedDataPoint.crypto_data (deref h r) = Some c ->
               ~ (CryptoPriceData.close_price c == 0)%Q) ->
  exists (h' : heap) (self' : DataProcessor.t) (out : list loc),
    calculate_price_changes h self combined_data = (h', self', Returned out)
    /\ forall (i : nat) (r : loc), out !! i = Some r ->
         (CombinedDataPoint.price_change (deref h' r) = None <-> i = 0%nat).
Proof.
  intros Hnd Hnz.
  destruct (calculate_price_changes_run h self combined_data)
    as (h' & self' & Hrun & Hsame & Hvals).
  specialize (Hvals Hnd). cbv zeta in Hrun, Hvals.
  set (out := filter (has_crypto h)
                (sorted (date_key h) (data_to_process self combined_data)))
    in *.
  exists h', self', out. split; [exact Hrun |]. intros i r Hi.
  assert (Forall (has_crypto h') out) as Hall.
  { apply Forall_forall. intros x Hx.
    apply list_elem_of_filter in Hx as [Hx _]. unfold has_crypto in *.
    destruct (Hsame x) as (_ & -> & _). exact Hx. }
  assert (forall x c, x ∈ out ->
            CombinedDataPoint.crypto_data (deref h' x) = Some c ->
            ~ (CryptoPriceData.close_price c == 0)%Q) as Hnz'.
  { intros x c Hx Hc. apply (Hnz x c).
    - apply list_elem_of_filter in Hx as [_ Hx]. rewrite sorted_perm in Hx.
      exact Hx.
    - destruct (Hsame x) as (_ & <- & _). exact Hc. }
  destruct (closes_lookup h' out Hall i r Hi) as (c & Hc & Hci).
  assert (price_changes h' out !! i
          = Some (CombinedDataPoint.price_change (deref h' r))) as Hpc
    by (unfold price_changes; rewrite list_lookup_fmap, Hi; reflexivity).
  rewrite Hvals, (annotate_lookup _ _ _ _ Hci) in Hpc.
  injection Hpc as <-.
  destruct i as [| j]; [split; reflexivity || reflexivity |].
  split; [| discriminate]. intros Hnone. exfalso.
  destruct (lookup_lt_is_Some_2 out j) as [r0 Hj];
    [apply lookup_lt_Some in Hi; lia |].
  destruct (closes_lookup h' out Hall j r0 Hj) as (c0 & Hc0 & Hcj).
  rewrite Hcj in Hnone. unfold ChangeSpec.change in Hnone.
  destruct (Qeq_bool (CryptoPriceData.close_price c0) 0) eqn:E;
    [| discriminate].
  apply Qeq_bool_iff in E. revert E. apply (Hnz' r0 c0); [| exact Hc0].
  apply list_elem_of_lookup. eauto.
Qed.

Lemma calculate_price_changes_only_first_unset_witness :
  exists (h' : heap) (self' : DataProcessor.t) (out : list loc),
    calculate_price_changes three_days DataProcessor.init
                            (Some [2; 0; 1]%nat)
    = (h', self', Returned out)
    /\ forall (i : nat) (r : loc), out !! i = Some r ->
         (CombinedDataPoint.price_change (deref h' r) = None <-> i = 0%nat).
Proof.
  apply (calculate_price_changes_only_first_unset three_days
           DataProcessor.init (Some [2; 0; 1]%nat)).
  - simpl. distinct_locs.
  - intros r c Hr Hc. simpl in Hr.
    rewrite !elem_of_cons, elem_of_nil in Hr.
    destruct Hr as [-> | [-> | [-> | []]]];
      vm_compute in Hc; injection Hc as <-;
      intros Hz; vm_compute in Hz; discriminate Hz.
Defined.

(** *** The method of a price bar *)

(** X22.  The method of a bar never raises; for a previous price other than
    zero it computes the change the processor assigns, and for zero it
    answers 0 where the processor leaves the change unset. *)
Theorem price_change_percentage_agrees (self : CryptoPriceData.t)
    (previous_price : Q) :
  exists q : Q,
    CryptoPriceData.price_change_percentage self previous_price = Returned q
    /\ (~ (previous_price == 0)%Q ->
        change_from (Some previous_price) (CryptoPriceData.close_price self)
        = Returned (Some q))
    /\ ((previous_price == 0)%Q ->
        q = 0%Q
        /\ change_from (Some previous_price) (CryptoPriceData.close_price self)
           = Returned None).
Proof.
  unfold CryptoPriceData.price_change_percentage, change_from, truediv.
  destruct (Qeq_bool previous_price 0) eqn:E.
  - apply Qeq_bool_iff in E. exists 0%Q. split; [reflexivity |].
    split; [intros Hne; contradiction | intros _; split; reflexivity].
  - eexists. split; [reflexivity |].
    split; [intros _; reflexivity |].
    intros H0. apply Qeq_bool_iff in H0. congruence.
Qed.

Lemma price_change_percentage_agrees_witness :
  exists q : Q,
    CryptoPriceData.price_change_percentage btc_bar 100 = Returned q
    /\ change_from (Some 100%Q) (CryptoPriceData.close_price btc_bar)
       = Returned (Some q).
Proof.
  destruct (price_change_percentage_agrees btc_bar 100)
    as (q & Hq & Hchange & _).
  exists q. split; [exact Hq |]. apply Hchange.
  intros Hz. vm_compute in Hz. discriminate Hz.
Defined.

End Pipeline.

(** ** Reading an analysis *)

Section Reading.

Import CorrelationAnalyzer.

(** *** The share of full-moon days *)

Lemma full_moon_percentage_returns (results : AnalysisResults.t) :
  AnalysisResults.full_moon_percentage results
  = Returned (if AnalysisResults.total_data_points results =? 0 then 0
              else inject_Z (AnalysisResults.full_moon_count results)
                   / inject_Z (AnalysisResults.total_data_points results)
                   * 100)%Q.
Proof.
  unfold AnalysisResults.full_moon_percentage, truediv.
  destruct (Z.eqb_spec (AnalysisResults.total_data_points results) 0)
    as [H0 | Hne]; [reflexivity |].
  destruct (Qeq_bool (inject_Z (AnalysisResults.total_data_points results)) 0)
    eqn:E; [| reflexivity].
  apply Qeq_bool_iff in E. unfold Qeq in E. simpl in E. lia.
Qed.

Lemma share_bounds (part whole : Z) :
  0 <= part <= whole -> 0 < whole ->
  (0 <= inject_Z part / inject_Z whole * 100 <= 100)%Q.
Proof.
  intros [H0 H1] Hw.
  assert (0 < inject_Z whole)%Q as Hwq
    by (change 0%Q with (inject_Z 0); rewrite <- Zlt_Qlt; exact Hw).
  assert (0 <= inject_Z part)%Q as Hpq
    by (change 0%Q with (inject_Z 0); rewrite <- Zle_Qle; exact H0).
  assert (inject_Z part <= inject_Z whole)%Q as Hle
    by (rewrite <- Zle_Qle; exact H1).
  assert (0 <= inject_Z part / inject_Z whole)%Q as Hlo
    by (apply Qle_shift_div_l; [exact Hwq | lra]).
  assert (inject_Z part / inject_Z whole <= 1)%Q as Hhi
    by (apply Qle_shift_div_r; [exact Hwq | lra]).
  lra.
Qed.

Lemma analysis_counts (h : heap) (combined_data : list loc) :
  let res := analysis_of h combined_data in
  0 <= AnalysisResults.full_moon_count res
       <= AnalysisResults.total_data_points res
  /\ AnalysisResults.full_moon_count res
     = len (filter (on_full_moon h) (filter (is_valid h) combined_data))
  /\ AnalysisResults.normal_day_count res
     = len (filter (fun r => ~ on_full_moon h r)
                   (filter (is_valid h) combined_data)).
Proof.
  unfold analysis_of. cbv zeta.
  destruct combined_data as [| r l].
  { cbn. repeat split; lia. }
  destruct (filter (is_valid h) (r :: l)) as [| v vs] eqn:Hv.
  { cbn. unfold len. repeat split; lia. }
  cbn [AnalysisResults.full_moon_count AnalysisResults.normal_day_count
       AnalysisResults.total_data_points].
  unfold len, price_changes. rewrite !length_map.
  pose proof (length_filter (on_full_moon h) (v :: vs)).
  repeat split; lia.
Qed.

(** X23.  The share of full-moon days of an analysis is computed without a
    division by zero and lies between 0 and 100. *)
Theorem full_moon_percentage_of_analysis (h : heap)
    (combined_data : list loc) :
  exists (res : AnalysisResults.t) (q : Q),
    analyze_correlation h combined_data = Returned res
    /\ AnalysisResults.full_moon_percentage res = Returned q
    /\ (0 <= q <= 100)%Q.
Proof.
  eexists _, _. split; [apply analyze_correlation_returns |].
  split; [apply full_moon_percentage_returns |].
  destruct (analysis_counts h combined_data) as ([H0 H1] & _ & _).
  destruct (Z.eqb_spec
              (AnalysisResults.total_data_points
                 (analysis_of h combined_data)) 0) as [Hz | Hnz]; [lra |].
  apply share_bounds; lia.
Qed.

(** *** Sufficient data *)

Lemma len_filter_pos {A : Type} (P : A -> Prop) `{!forall a, Decision (P a)}
    (l : list A) :
  1 <= len (filter P l) <-> exists x, x ∈ l /\ P x.
Proof.
  unfold len. split.
  - destruct (filter P l) as [| y ys] eqn:Hf; [simpl; lia |]. intros _.
    assert (y ∈ filter P l) as Hy by (rewrite Hf; left).
    apply list_elem_of_filter in Hy as [HP Hy]. eauto.
  - intros (x & Hx & HP).
    assert (x ∈ filter P l) as Hin by (apply list_elem_of_filter; auto).
    destruct (filter P l); [apply elem_of_nil in Hin; contradiction |].
    simpl. lia.
Qed.

(** X24.  An analysis has sufficient data exactly when the sequence holds a
    point with a change on a full-moon day and one on another day. *)
Theorem has_sufficient_data_of_analysis (h : heap) (combined_data : list loc) :
  exists res : AnalysisResults.t,
    analyze_correlation h combined_data = Returned res
    /\ (AnalysisResults.has_sufficient_data res = true
        <-> (exists r, r ∈ combined_data /\ is_valid h r /\ on_full_moon h r)
            /\ (exists r, r ∈ combined_data /\ is_valid h r
                          /\ ~ on_full_moon h r)).
Proof.
  eexists. split; [apply analyze_correlation_returns |].
  destruct (analysis_counts h combined_data) as (_ & Hf & Hn).
  unfold AnalysisResults.has_sufficient_data.
  rewrite andb_true_iff, !Z.leb_le, Hf, Hn, !len_filter_pos.
  split.
  - intros [(r & Hr & Hfull) (r' & Hr' & Hnot)].
    apply list_elem_of_filter in Hr as [Hv Hr].
    apply list_elem_of_filter in Hr' as [Hv' Hr']. eauto 10.
  - intros [(r & Hr & Hv & Hfull) (r' & Hr' & Hv' & Hnot)]. split.
    + exists r. split; [apply list_elem_of_filter; auto | exact Hfull].
    + exists r'. split; [apply list_elem_of_filter; auto | exact Hnot].
Qed.

(** *** The interpretation of a result *)

Lemma Qlt_bool_false (x y : Q) : Qlt_bool x y = false <-> (y <= x)%Q.
Proof.
  unfold Qlt_bool. rewrite negb_false_iff. apply Qle_bool_iff.
Qed.

(** X25.  With a subtraction that rounds without changing the sign of a
    difference, and a positive threshold: the summary is always produced;
    its interpretation reports insufficient data exactly when a full-moon
    or a normal day is missing, no significant difference exactly when the
    absolute rounded difference is below the threshold, and otherwise
    names the larger average, which is then strictly larger: a tie never
    names either. *)
Theorem generate_summary_statistics_interpretation
    (float_sub : Q -> Q -> Q) (tenth : Q) (results : AnalysisResults.t) :
  (forall x y, (0 < float_sub x y)%Q <-> (y < x)%Q) ->
  (forall x y, (float_sub x y < 0)%Q <-> (x < y)%Q) ->
  (0 < tenth)%Q ->
  let sufficient := AnalysisResults.has_sufficient_data results in
  let difference := AnalysisResults.difference float_sub results in
  let interpretation := interpretation float_sub tenth results in
  exists summary : gmap string py_value,
    generate_summary_statistics float_sub tenth results = Returned summary
    /\ summary !! "interpretation" = Some (PyStr interpretation)
    /\ summary !! "difference" = Some (PyFloat difference)
    /\ summary !! "has_sufficient_data" = Some (PyBool sufficient)
    /\ (interpretation = "Insufficient data for meaningful analysis"
        <-> sufficient = false)
    /\ (interpretation = "No significant difference detected"
        <-> sufficient = true /\ (Qabs difference < tenth)%Q)
    /\ (interpretation = "Full moon days show higher average price changes"
        <-> sufficient = true /\ (tenth <= difference)%Q)
    /\ (interpretation = "Normal days show higher average price changes"
        <-> sufficient = true /\ (difference <= - tenth)%Q)
    /\ (interpretation = "Full moon days show higher average price changes"
        -> (AnalysisResults.normal_day_avg_change results
            < AnalysisResults.full_moon_avg_change results)%Q)
    /\ (interpretation = "Normal days show higher average price changes"
        -> (AnalysisResults.full_moon_avg_change results
            < AnalysisResults.normal_day_avg_change results)%Q).
Proof.
  intros Hpos Hneg Htenth. cbv zeta. unfold generate_summary_statistics.
  rewrite full_moon_percentage_returns.
  eexists. split; [reflexivity |].
  split; [apply lookup_insert_eq |].
  split.
  { rewrite lookup_insert_ne by discriminate.
    rewrite lookup_insert_ne by discriminate. apply lookup_insert_eq. }
  split; [rewrite lookup_insert_ne by discriminate; apply lookup_insert_eq |].
  unfold interpretation, AnalysisResults.difference.
  destruct (AnalysisResults.has_sufficient_data results).
  2:{ repeat split; try discriminate; intros [? _]; discriminate. }
  set (f := AnalysisResults.full_moon_avg_change results).
  set (n := AnalysisResults.normal_day_avg_change results).
  specialize (Hpos f n). specialize (Hneg f n).
  revert Hpos Hneg. generalize (float_sub f n). intros d Hpos Hneg.
  destruct (Qlt_bool (Qabs d) tenth) eqn:Ha.
  - apply Qlt_bool_iff in Ha.
    pose proof (proj1 (Qabs_Qlt_condition _ _) Ha) as [Hlo Hhi].
    repeat split; try discriminate; try exact Ha;
      intros [_ Hd]; exfalso; lra.
  - apply Qlt_bool_false in Ha.
    assert (~ (Qabs d < tenth)%Q) as Hno by lra.
    assert ((tenth <= d)%Q \/ (d <= - tenth)%Q) as Hside.
    { revert Ha. apply Qabs_case; intros H0 Ha; [left | right]; lra. }
    destruct (Qlt_bool n f) eqn:Hc.
    + apply Qlt_bool_iff in Hc. apply Hpos in Hc.
      repeat split; try discriminate; try lra;
        try (intros _; apply Hpos; exact Hc);
        try (intros [_ Hd]; exfalso; lra).
    + apply Qlt_bool_false in Hc.
      assert (~ (0 < d)%Q) as Hnot
        by (intros Hd; apply Hpos in Hd; lra).
      assert (d < 0)%Q as Hd by lra.
      repeat split; try discriminate; try lra;
        try (intros _; apply Hneg; exact Hd);
        try (intros [_ Hd']; exfalso; lra).
Qed.

Lemma generate_summary_statistics_interpretation_witness :
  interpretation Qminus (1 # 10) five_against_minus_ten
  = "Full moon days show higher average price changes"
  /\ (AnalysisResults.normal_day_avg_change five_against_minus_ten
      < AnalysisResults.full_moon_avg_change five_against_minus_ten)%Q.
Proof.
  assert (interpretation Qminus (1 # 10) five_against_minus_ten
          = "Full moon days show higher average price changes") as Hfull
    by (vm_compute; reflexivity).
  split; [exact Hfull |].
  destruct (generate_summary_statistics_interpretation
              Qminus (1 # 10) five_against_minus_ten)
    as (summary & _ & _ & _ & _ & _ & _ & _ & _ & Hhigher & _).
  - intros x y. split; intros H; lra.
  - intros x y. split; intros H; lra.
  - reflexivity.
  - apply Hhigher, Hfull.
Defined.

(** *** Messages about thin data *)

Lemma handle_insufficient_data_error (self : t)
    (results : AnalysisResults.t) :
  is_Some (handle_insufficient_data self results !! "error")
  <-> AnalysisResults.total_data_points results = 0.
Proof.
  message_cases results self; cbv zeta;
    rewrite ?lookup_insert_ne by discriminate;
    rewrite ?lookup_insert_eq, ?lookup_empty;
    (split; [intros Hs | intros Hz]);
    try assumption; try (exfalso; lia); try (eexists; reflexivity);
    try (destruct Hs as [? Hs]; discriminate Hs).
Qed.

Lemma handle_insufficient_data_empty (self : t)
    (results : AnalysisResults.t) :
  handle_insufficient_data self results = ∅
  <-> AnalysisResults.total_data_points results <> 0
      /\ AnalysisResults.full_moon_count results <> 0
      /\ min_data_points self <= AnalysisResults.full_moon_count results
      /\ 10 <= AnalysisResults.normal_day_count results.
Proof.
  message_cases results self; cbv zeta;
    (split; [intros He | intros (Ht & Hf & Hm & Hn)]);
    try (exfalso; lia); try reflexivity;
    try (exfalso; apply insert_non_empty in He; exact He);
    repeat split; lia.
Qed.

Lemma handle_insufficient_data_suggestion (self : t)
    (results : AnalysisResults.t) :
  handle_insufficient_data self results <> ∅
  -> is_Some (handle_insufficient_data self results !! "suggestion").
Proof.
  message_cases results self; cbv zeta; intros Hne;
    try (exfalso; apply Hne; reflexivity);
    rewrite lookup_insert_eq; eexists; reflexivity.
Qed.

(** X26.  The messages for a result: an error exactly when the result counts
    no data point; none at all exactly when there are data points, a full-
    moon day, at least [min_data_points] of them and at least ten normal
    days; and whenever there is a message there is a suggestion. *)
Theorem handle_insufficient_data_messages (self : t)
    (results : AnalysisResults.t) :
  let messages := handle_insufficient_data self results in
  (is_Some (messages !! "error")
   <-> AnalysisResults.total_data_points results = 0)
  /\ (messages = ∅
      <-> AnalysisResults.total_data_points results <> 0
          /\ AnalysisResults.full_moon_count results <> 0
          /\ min_data_points self <= AnalysisResults.full_moon_count results
          /\ 10 <= AnalysisResults.normal_day_count results)
  /\ (messages <> ∅ -> is_Some (messages !! "suggestion")).
Proof.
  cbv zeta. split; [apply handle_insufficient_data_error |].
  split; [apply handle_insufficient_data_empty |].
  apply handle_insufficient_data_suggestion.
Qed.

(** *** The input check *)

Lemma check_loop_spec (h : heap) (l : list loc) :
  forall (i : nat) (errors : list string) (valid_points : Z),
  exists messages : list string,
    check_loop h i (Some <$> l) errors valid_points
    = (errors ++ messages, valid_points + len (filter (is_valid h) l))
    /\ (messages = [] <-> Forall (has_price_and_moon h) l).
Proof.
  induction l as [| r l IH]; intros i errors valid_points.
  { exists []. simpl. rewrite app_nil_r. unfold len. simpl.
    rewrite Z.add_0_r. split; [reflexivity |]. split; auto. }
  rewrite fmap_cons. cbn [check_loop]. unfold check_point.
  unfold has_price_and_moon. cbv zeta.
  destruct (CombinedDataPoint.bitcoin_data (deref h r)) as [c |] eqn:Hc.
  2:{ edestruct IH as (messages & -> & _).
      eexists (_ :: messages). rewrite <- app_assoc. simpl.
      rewrite filter_cons_False
        by (unfold is_valid; rewrite Hc; intros (_ & [? Hx] & _);
            discriminate).
      split; [reflexivity |]. split; [discriminate |].
      intros Hall. apply Forall_cons in Hall as [[[? Hx] _] _].
      unfold has_price_and_moon in *. congruence. }
  destruct (CombinedDataPoint.moon_data (deref h r)) as [m |] eqn:Hm.
  2:{ edestruct IH as (messages & -> & _).
      eexists (_ :: messages). rewrite <- app_assoc. simpl.
      rewrite filter_cons_False
        by (unfold is_valid; rewrite Hm; intros (_ & _ & [? Hx]);
            discriminate).
      split; [reflexivity |]. split; [discriminate |].
      intros Hall. apply Forall_cons in Hall as [[_ [? Hx]] _].
      unfold has_price_and_moon in *. congruence. }
  assert (has_price_and_moon h r) as Hboth
    by (unfold has_price_and_moon; rewrite Hc, Hm; split; eexists; reflexivity).
  destruct (CombinedDataPoint.price_change (deref h r)) as [q |] eqn:Hq.
  - edestruct IH as (messages & -> & Hiff). exists messages.
    rewrite filter_cons_True
      by (unfold is_valid; rewrite Hc, Hm, Hq; repeat split;
          eexists; reflexivity).
    split; [f_equal; unfold len; simpl length; lia |].
    rewrite Hiff. split; [intros Hall; constructor; assumption |].
    intros Hall. apply Forall_cons in Hall as [_ Hall]. exact Hall.
  - edestruct IH as (messages & -> & Hiff). exists messages.
    rewrite filter_cons_False
      by (unfold is_valid; rewrite Hq; intros ([? Hx] & _); discriminate).
    split; [reflexivity |].
    rewrite Hiff. split; [intros Hall; constructor; assumption |].
    intros Hall. apply Forall_cons in Hall as [_ Hall]. exact Hall.
Qed.

Lemma check_loop_none (h : heap) (l1 l2 : list (option loc)) :
  forall (i : nat) (errors : list string) (valid_points : Z),
  (check_loop h i (l1 ++ None :: l2) errors valid_points).1 <> [].
Proof.
  assert (forall l i errors valid_points, errors <> [] ->
            (check_loop h i l errors valid_points).1 <> []) as Hkeep.
  { induction l as [| x l IH]; intros i errors valid_points Hne;
      [exact Hne |].
    cbn [check_loop]. destruct (check_point h i x) as [[e |] valid];
      apply IH; [| exact Hne].
    destruct errors; discriminate. }
  induction l1 as [| x l1 IH]; intros i errors valid_points.
  - cbn. apply Hkeep. destruct errors; discriminate.
  - cbn [app check_loop]. destruct (check_point h i x) as [e valid].
    apply IH.
Qed.

Lemma all_Some {A : Type} (l : list (option A)) :
  (exists l', l = Some <$> l') \/ (exists l1 l2, l = l1 ++ None :: l2).
Proof.
  induction l as [| [a |] l IH].
  - left. exists []. reflexivity.
  - destruct IH as [[l' ->] | (l1 & l2 & ->)].
    + left. exists (a :: l'). reflexivity.
    + right. exists (Some a :: l1), l2. reflexivity.
  - right. exists [], l. reflexivity.
Qed.

Lemma validate_analysis_input_cons (h : heap) (x : option loc)
    (l : list (option loc)) :
  validate_analysis_input h (x :: l)
  = let '(errors, valid_points) := check_loop h 0 (x :: l) [] 0 in
    (bool_decide
       (len (if valid_points =? 0
             then errors ++ ["No valid data points found for analysis"]
             else errors) = 0) && (0 <? valid_points),
     if valid_points =? 0
     then errors ++ ["No valid data points found for analysis"]
     else errors).
Proof.
  unfold validate_analysis_input.
  destruct (check_loop h 0 (x :: l) [] 0). reflexivity.
Qed.

Lemma validate_analysis_input_Some (h : heap) (l : list loc) :
  validate_analysis_input h (Some <$> l)
  = if decide (Forall (has_price_and_moon h) l
               /\ 1 <= len (filter (is_valid h) l))
    then (true, [])
    else (false, (validate_analysis_input h (Some <$> l)).2).
Proof.
  destruct l as [| r l].
  { rewrite decide_False; [reflexivity |]. unfold len. simpl. lia. }
  rewrite fmap_cons, validate_analysis_input_cons, <- fmap_cons.
  destruct (check_loop_spec h (r :: l) 0 [] 0) as (messages & -> & Hiff).
  rewrite app_nil_l, Z.add_0_l. cbn beta iota zeta.
  set (n := len (filter (is_valid h) (r :: l))).
  assert (0 <= n) as Hn by (unfold n, len; lia).
  destruct (Z.eqb_spec n 0) as [H0 | H0].
  - rewrite decide_False by lia.
    replace (bool_decide (len (messages ++ _) = 0)) with false; [easy |].
    symmetry. apply bool_decide_eq_false. unfold len.
    rewrite length_app. simpl. lia.
  - destruct messages as [| e messages].
    + rewrite decide_True by (split; [apply Hiff; reflexivity | lia]).
      simpl. f_equal. apply Z.ltb_lt. lia.
    + rewrite decide_False
        by (intros [Hall _]; apply Hiff in Hall; discriminate).
      reflexivity.
Qed.

(** X27.  The input check accepts a sequence exactly when every entry is a
    point with price and moon data and at least one has a price change; it
    then reports no error, and the analysis of the accepted points counts
    each point with a price change once, as a full-moon day or as a normal
    day. *)
Theorem validate_analysis_input_accepts (h : heap)
    (combined_data : list (option loc)) :
  (validate_analysis_input h combined_data).1 = true
  <-> exists l : list loc,
        combined_data = Some <$> l
        /\ Forall (has_price_and_moon h) l
        /\ (exists r, r ∈ l /\ is_valid h r)
        /\ (validate_analysis_input h combined_data).2 = []
        /\ exists res : AnalysisResults.t,
             analyze_correlation h l = Returned res
             /\ AnalysisResults.total_data_points res
                = len (filter (is_valid h) l)
             /\ AnalysisResults.full_moon_count res
                + AnalysisResults.normal_day_count res
                = AnalysisResults.total_data_points res.
Proof.
  split.
  - intros Hok. destruct (all_Some combined_data) as [[l ->] | Hnone].
    + exists l. split; [reflexivity |].
      rewrite validate_analysis_input_Some in Hok |- *.
      destruct (decide (Forall (has_price_and_moon h) l
                        /\ 1 <= len (filter (is_valid h) l)))
        as [[Hall Hn] | Hno]; [| discriminate].
      split; [exact Hall |].
      split; [apply (len_filter_pos (is_valid h)); exact Hn |].
      split; [reflexivity |].
      destruct (analyze_correlation_partition h l)
        as (res & Hr & Hsum & Htotal).
      { intros Hnil. rewrite Hnil in Hn. unfold len in Hn. simpl in Hn. lia. }
      exists res. auto.
    + exfalso. destruct Hnone as (l1 & l2 & ->).
      unfold validate_analysis_input in Hok.
      destruct (l1 ++ None :: l2) as [| x l] eqn:Hl; [discriminate |].
      rewrite <- Hl in Hok.
      pose proof (check_loop_none h l1 l2 0 [] 0) as Hne.
      destruct (check_loop h 0 (l1 ++ None :: l2) [] 0)
        as [errors valid_points].
      simpl in Hne, Hok. apply andb_true_iff in Hok as [Hlen _].
      apply bool_decide_eq_true in Hlen.
      destruct (valid_points =? 0); destruct errors;
        try congruence; unfold len in Hlen;
        rewrite ?length_app in Hlen; simpl in Hlen; lia.
  - intros (l & -> & Hall & Hvalid & _).
    rewrite validate_analysis_input_Some.
    rewrite decide_True; [reflexivity |].
    split; [exact Hall |]. apply (len_filter_pos (is_valid h)). exact Hvalid.
Qed.

End Reading.
